(** * University course scheduler: the synthetic instance generator

    A shallow embedding of [LargeScaleInputGenerator]
    ([Data/.ipynb_checkpoints/generate_input-checkpoint.py]) and the
    properties of the instances it assembles.

    Conventions of the embedding.
    - Python [int] is [Z]; [len] is [Z.of_nat (length _)].
    - Python [float] values are rationals ([Q]).  Weekly hours, their sums
      and the availability hours are multiples of 0.5, which binary64
      represents and adds exactly.  That [generate_instructors] returns
      is stated for catalogs with the generated hours ([standard_hours]):
      on other hours the float sum can round or overflow.  Quotients (utilization, the average
      number of courses per student) are the rational the float rounds;
      the test [utilization > 0.5] is the same on both for any realistic
      number of rooms.  Sampling thresholds and category weights (0.2,
      0.3, 0.7, ...) are read as the decimals they are written as; no
      property below depends on which bucket a draw falls in.
    - A warning of the verifier is an [issue]: the data its f-string is
      rendered from.
    - The [random] module is a [RandomSource]: an abstract generator state
      with the two primitives every call of the program bottoms out in,
      [random()] and [_randbelow(n)].  [choice], [randint], [sample] and
      [choices] are defined on top of them the way CPython does.
    - A generator method is a computation in [gen]: it threads the state of
      the random source and may raise.
    - [print] calls are dropped, except that a fault raised while
      evaluating their arguments is kept.  One fault is not: rendering an
      [int] of more than 4300 decimal digits ([ValueError]).  Where a
      property says how a call on arbitrary arguments ends, the arguments
      are assumed [printable].
    - The file system is a [FileSystem]: any behaviour of [os.makedirs]
      and of the [open]/[json.dump] block, each of which may raise. *)

From Stdlib Require Import ZArith QArith Lqa List String Ascii Lia Bool.
From Stdlib Require Import Permutation FinFun DecimalString DecimalN.
Import ListNotations.

Open Scope string_scope.
Open Scope list_scope.
Open Scope Z_scope.

(** ** Exceptions and results *)

(** The built-in exception classes the program can run into.
    [ConfigurationError] is the descriptive validation error of a guarded
    design; no statement of the source raises it. *)
Inductive exn : Type :=
| ZeroDivisionError
| ValueError
| IndexError
| KeyError
| OverflowError
| ConfigurationError (msg : string).

Inductive result (A : Type) : Type :=
| Ok (a : A)
| Raise (e : exn).

Arguments Ok {A} a.
Arguments Raise {A} e.

Definition result_map {A B} (f : A -> B) (r : result A) : result B :=
  match r with
  | Ok a => Ok (f a)
  | Raise e => Raise e
  end.

Definition result_bind {A B} (r : result A) (k : A -> result B) : result B :=
  match r with
  | Ok a => k a
  | Raise e => Raise e
  end.

(** ** Python built-ins used by the generator *)

(** [range(n)] *)
Definition py_range (n : Z) : list Z := map Z.of_nat (seq 0 (Z.to_nat n)).

(** [a % b] on integers; Rocq's [Z.modulo] has the sign convention of Python. *)
Definition py_mod (a b : Z) : result Z :=
  if b =? 0 then Raise ZeroDivisionError else Ok (a mod b).

(** [a / b], true division, on exactly representable operands. *)
Definition py_truediv (a b : Q) : result Q :=
  if Qeq_bool b 0 then Raise ZeroDivisionError else Ok (a / b)%Q.

(** [max(iterable)] on integers. *)
Definition py_max (l : list Z) : result Z :=
  match l with
  | [] => Raise ValueError
  | x :: t => Ok (fold_left Z.max t x)
  end.

(** [int(x)] on a float: truncation towards zero. *)
Definition py_int (x : Q) : Z := Z.quot (Qnum x) (Zpos (Qden x)).

(** [x < y] on floats. *)
Definition Qltb (x y : Q) : bool := negb (Qle_bool y x).

(** [l[i]]; a negative index counts from the end. *)
Definition py_index {A} (l : list A) (i : Z) : result A :=
  let n := Z.of_nat (List.length l) in
  let j := if i <? 0 then i + n else i in
  if (0 <=? j) && (j <? n)
  then
    match nth_error l (Z.to_nat j) with
    | Some x => Ok x
    | None => Raise IndexError
    end
  else Raise IndexError.

(** [l[j] = v] for an index in range; the list is unchanged otherwise. *)
Fixpoint list_set {A} (j : nat) (v : A) (l : list A) : list A :=
  match l, j with
  | [], _ => []
  | _ :: t, O => v :: t
  | x :: t, S j' => x :: list_set j' v t
  end.

(** [l.remove(x)]: drop the first element equal to [x]. *)
Fixpoint list_remove {A} (eqb : A -> A -> bool) (x : A) (l : list A) : list A :=
  match l with
  | [] => []
  | y :: t => if eqb x y then t else y :: list_remove eqb x t
  end.

(** *** Number formatting *)

Fixpoint zeros (k : nat) : string :=
  match k with
  | O => ""
  | S k' => String "0" (zeros k')
  end.

(** Decimal digits of a natural number, no leading zero. *)
Definition digits (n : N) : string := NilEmpty.string_of_uint (N.to_uint n).

(** [f"{z}"] *)
Definition str_int (z : Z) : string :=
  if z <? 0 then String.append "-" (digits (Z.abs_N z)) else digits (Z.abs_N z).

(** [f"{z:0Wd}"]: sign, then zeros up to width [W], then the digits. *)
Definition fmt_0d (width : nat) (z : Z) : string :=
  let ds := digits (Z.abs_N z) in
  if z <? 0
  then String.append "-" (String.append (zeros (width - 1 - String.length ds)) ds)
  else String.append (zeros (width - String.length ds)) ds.

(** *** Dictionaries as insertion-ordered association lists *)

Definition dict (V : Type) : Type := list (string * V).

Fixpoint dict_get {V} (d : dict V) (k : string) : option V :=
  match d with
  | [] => None
  | (k', v) :: t => if String.eqb k k' then Some v else dict_get t k
  end.

(** [d.get(k, default)] *)
Definition dict_get_default {V} (d : dict V) (k : string) (default : V) : V :=
  match dict_get d k with
  | Some v => v
  | None => default
  end.

(** [d[k] = v]: overwrite in place, or append a new key at the end. *)
Fixpoint dict_set {V} (d : dict V) (k : string) (v : V) : dict V :=
  match d with
  | [] => [(k, v)]
  | (k', v') :: t =>
      if String.eqb k k' then (k', v) :: t else (k', v') :: dict_set t k v
  end.

(** [d[k]] *)
Definition dict_lookup {V} (d : dict V) (k : string) : result V :=
  match dict_get d k with
  | Some v => Ok v
  | None => Raise KeyError
  end.

(** ** The random source *)

(** The state of Python's [random] module with its two primitives.
    [random()] returns a float in [0.0, 1.0); [_randbelow(n)] returns an
    integer in [0, n) for positive [n].  [seed_rng] is [random.seed]. *)
Class RandomSource : Type := {
  rng : Type;
  seed_rng : Z -> rng;
  random : rng -> Q * rng;
  randbelow : Z -> rng -> Z * rng;
  random_unit : forall s, (0 <= fst (random s) /\ fst (random s) < 1)%Q;
  randbelow_range : forall n s, 0 < n -> 0 <= fst (randbelow n s) < n
}.

(** A source for running the generator on concrete inputs: the state is a
    counter, every draw is derived from the counter and increments it. *)
Definition counter_random (s : N) : Q * N :=
  ((Z.of_N ((s * 617) mod 1000) # 1000)%Q, N.succ s).

Definition counter_randbelow (n : Z) (s : N) : Z * N :=
  (Z.of_N s mod n, N.succ s).

Definition CounterRandom : RandomSource.
Proof.
  refine {| rng := N;
            seed_rng := Z.abs_N;
            random := counter_random;
            randbelow := counter_randbelow;
            random_unit := _;
            randbelow_range := _ |}.
  - intro s.
    assert (H : ((s * 617) mod 1000 < 1000)%N)
      by (apply N.mod_upper_bound; discriminate).
    unfold counter_random, Qle, Qlt; cbn [fst Qnum Qden].
    generalize dependent ((s * 617) mod 1000)%N. intros m H. lia.
  - intros n s Hn. unfold counter_randbelow. cbn [fst].
    apply Z.mod_pos_bound. exact Hn.
Defined.


(** ** Data model *)

Inductive level : Type := L100 | L200 | L300 | L400.

Inductive course_type : Type := full_term | first_half_term | second_half_term.

Inductive student_year : Type := freshman | sophomore | junior | senior | graduate.

Record course : Type := {
  c_id : string;
  c_name : string;
  c_type : course_type;
  c_weekly_hours : Q;
  c_instructor_id : string;
  c_expected_enrollment : Z;
  c_level : level;
  c_department : string
}.

Record slot : Type := {
  day : string;
  period_index : Z
}.

(** The transient ["_debug"] entry of an instructor record. *)
Record debug_info : Type := {
  courses_to_teach : Z;
  hours_to_teach : Q;
  available_periods : Z;
  required_min_periods : Z
}.

(** An instructor record; [i_debug] is [None] once the ["_debug"] key has
    been deleted. *)
Record instructor : Type := {
  i_id : string;
  i_name : string;
  i_availability : list slot;
  i_back_to_back_preference : Z;
  i_allow_lunch_teaching : bool;
  i_department : string;
  i_debug : option debug_info
}.

Record classroom : Type := {
  r_id : string;
  r_name : string;
  r_capacity : Z
}.

Record student : Type := {
  s_id : string;
  s_name : string;
  s_year : student_year;
  s_enrolled_course_ids : list string
}.

Definition level_eqb (a b : level) : bool :=
  match a, b with
  | L100, L100 | L200, L200 | L300, L300 | L400, L400 => true
  | _, _ => false
  end.

Definition course_type_eqb (a b : course_type) : bool :=
  match a, b with
  | full_term, full_term
  | first_half_term, first_half_term
  | second_half_term, second_half_term => true
  | _, _ => false
  end.

(** [==] on two course dictionaries: key by key. *)
Definition course_eqb (a b : course) : bool :=
  String.eqb (c_id a) (c_id b)
  && String.eqb (c_name a) (c_name b)
  && course_type_eqb (c_type a) (c_type b)
  && Qeq_bool (c_weekly_hours a) (c_weekly_hours b)
  && String.eqb (c_instructor_id a) (c_instructor_id b)
  && (c_expected_enrollment a =? c_expected_enrollment b)
  && level_eqb (c_level a) (c_level b)
  && String.eqb (c_department a) (c_department b).

(** ** Class constants of [LargeScaleInputGenerator] *)

Definition course_types : list course_type :=
  [full_term; first_half_term; second_half_term].

Definition COURSE_TYPES (t : course_type) : Q :=
  match t with
  | full_term => 0.70
  | first_half_term => 0.15
  | second_half_term => 0.15
  end.

Definition DEPARTMENTS : list string :=
  ["Computer Science"; "Mathematics"; "Statistics"; "Economics";
   "Management Science & Engineering"; "Electrical Engineering";
   "Mechanical Engineering"; "Physics"; "Chemistry"; "Biology"].

Record level_info : Type := {
  min_enroll : Z;
  max_enroll : Z;
  prob : Q
}.

Definition levels : list level := [L100; L200; L300; L400].

Definition COURSE_LEVELS (l : level) : level_info :=
  match l with
  | L100 => {| min_enroll := 80; max_enroll := 200; prob := 0.15 |}
  | L200 => {| min_enroll := 40; max_enroll := 100; prob := 0.30 |}
  | L300 => {| min_enroll := 20; max_enroll := 60; prob := 0.35 |}
  | L400 => {| min_enroll := 10; max_enroll := 30; prob := 0.20 |}
  end.

Definition student_years : list student_year :=
  [freshman; sophomore; junior; senior; graduate].

Definition STUDENT_YEARS (y : student_year) : Q :=
  match y with
  | freshman => 0.25
  | sophomore => 0.25
  | junior => 0.25
  | senior => 0.20
  | graduate => 0.05
  end.

Definition weekdays : list string := ["Mon"; "Tue"; "Wed"; "Thu"; "Fri"].

(** ** [itertools.accumulate] and [bisect.bisect_right] *)

Fixpoint accumulate_from (acc : Q) (ws : list Q) : list Q :=
  match ws with
  | [] => []
  | w :: t => (acc + w)%Q :: accumulate_from (acc + w)%Q t
  end.

Definition accumulate (ws : list Q) : list Q :=
  match ws with
  | [] => []
  | w :: t => w :: accumulate_from w t
  end.

(** The halving loop of [bisect_right(a, x, lo, hi)]; [hi - lo] rounds
    are enough. *)
Fixpoint bisect_loop (fuel : nat) (a : list Q) (x : Q) (lo hi : nat) : nat :=
  match fuel with
  | O => lo
  | S fuel' =>
      if (lo <? hi)%nat then
        let mid := ((lo + hi) / 2)%nat in
        if Qltb x (nth mid a 0%Q)
        then bisect_loop fuel' a x lo mid
        else bisect_loop fuel' a x (S mid) hi
      else lo
  end.

Definition bisect (a : list Q) (x : Q) (lo hi : nat) : nat :=
  bisect_loop (hi - lo) a x lo hi.

(** ** The generator *)

Section Generator.

Context {R : RandomSource}.

(** *** Computations over the random source *)

Definition gen (A : Type) : Type := rng -> result (A * rng).

Definition ret {A} (a : A) : gen A := fun s => Ok (a, s).

Definition bind {A B} (m : gen A) (k : A -> gen B) : gen B :=
  fun s =>
    match m s with
    | Ok (a, s') => k a s'
    | Raise e => Raise e
    end.

Definition raise {A} (e : exn) : gen A := fun _ => Raise e.

Definition lift {A} (r : result A) : gen A :=
  fun s =>
    match r with
    | Ok a => Ok (a, s)
    | Raise e => Raise e
    end.

#[local] Notation "x <- c ;; k" := (bind c (fun x => k))
  (at level 61, c at next level, right associativity).

(** [for x in l: ys.append(body(x))] *)
Fixpoint for_each {A B} (body : A -> gen B) (l : list A) : gen (list B) :=
  match l with
  | [] => ret []
  | x :: t =>
      y <- body x ;;
      ys <- for_each body t ;;
      ret (y :: ys)
  end.

(** *** The [random] module *)

Definition rand_random : gen Q := fun s => Ok (random s).

Definition rand_below (n : Z) : gen Z := fun s => Ok (randbelow n s).

(** [random.choice(seq)] *)
Definition rand_choice {A} (seq : list A) : gen A :=
  match seq with
  | [] => raise IndexError
  | _ :: _ =>
      j <- rand_below (Z.of_nat (List.length seq)) ;;
      lift (py_index seq j)
  end.

(** [random.randint(a, b)] *)
Definition rand_randint (a b : Z) : gen Z :=
  let width := b + 1 - a in
  if 0 <? width
  then j <- rand_below width ;; ret (a + j)
  else raise ValueError.

(** The selection loop of [random.sample] over a pool (the branch CPython
    takes for a population of at most 21 elements): the [i]-th pick is
    [pool[j]] for [j] below [n - i], and the last live element moves into
    the vacancy. *)
Fixpoint sample_loop {A} (d : A) (n : nat) (pool : list A) (i todo : nat)
  : gen (list A) :=
  match todo with
  | O => ret []
  | S todo' =>
      j <- rand_below (Z.of_nat (n - i)) ;;
      let x := nth (Z.to_nat j) pool d in
      let pool' := list_set (Z.to_nat j) (nth (n - i - 1) pool d) pool in
      rest <- sample_loop d n pool' (S i) todo' ;;
      ret (x :: rest)
  end.

(** [random.sample(population, k)] *)
Definition rand_sample {A} (population : list A) (k : Z) : gen (list A) :=
  let n := List.length population in
  if (0 <=? k) && (k <=? Z.of_nat n)
  then
    match population with
    | [] => ret []
    | d :: _ => sample_loop d n population 0 (Z.to_nat k)
    end
  else raise ValueError.

(** [random.choices(population, weights=weights)[0]] *)
Definition rand_choices {A} (population : list A) (weights : list Q) : gen A :=
  let n := List.length population in
  let cum_weights := accumulate weights in
  if negb (List.length cum_weights =? n)%nat then raise ValueError
  else
    match cum_weights with
    | [] => raise IndexError
    | c :: _ =>
        let total := last cum_weights c in
        if Qle_bool total 0 then raise ValueError
        else
          u <- rand_random ;;
          lift (py_index population
                  (Z.of_nat (bisect cum_weights (u * total)%Q 0 (n - 1))))
    end.

(** The argument checks of [choices]: as many weights as elements, at
    least one of them, and a positive total. *)
Definition choices_args_ok {A} (population : list A) (weights : list Q) : bool :=
  let cum_weights := accumulate weights in
  (List.length cum_weights =? List.length population)%nat
  && match cum_weights with
     | [] => false
     | c :: _ => negb (Qle_bool (last cum_weights c) 0)
     end.

(** *** [_generate_course_names] *)

Definition prefixes : list string :=
  ["CS"; "MATH"; "STAT"; "ECON"; "MS&E"; "EE"; "ME"; "PHYS"; "CHEM"; "BIO";
   "ENGR"; "DATA"; "HIST"; "ENGL"; "PSYCH"; "SOC"; "PHIL"].

Definition suffixes : list string :=
  ["Introduction"; "Advanced"; "Theory"; "Applications";
   "Seminar"; "Lab"; "Workshop"; "Project"].

Definition generate_course_name (i : Z) : gen string :=
  prefix <- rand_choice prefixes ;;
  number <- rand_randint 100 499 ;;
  u <- rand_random ;;
  if Qltb u 0.3
  then
    suffix <- rand_choice suffixes ;;
    ret (prefix ++ " " ++ str_int number ++ ": " ++ suffix)%string
  else ret (prefix ++ " " ++ str_int number)%string.

Definition _generate_course_names (num_courses : Z) : gen (list string) :=
  for_each generate_course_name (py_range num_courses).

(** *** [generate_courses] *)

(** The body of the loop over [range(num_courses)]. *)
Definition generate_course (num_instructors : Z) (course_names : list string)
    (i : Z) : gen course :=
  lvl <- rand_choices levels (map (fun l => prob (COURSE_LEVELS l)) levels) ;;
  let info := COURSE_LEVELS lvl in
  enrollment <- rand_randint (min_enroll info) (max_enroll info) ;;
  ctype <- rand_choices course_types (map COURSE_TYPES course_types) ;;
  instructor_idx <- lift (py_mod i num_instructors) ;;
  hours <- (if level_eqb lvl L100 || level_eqb lvl L200
            then ret 1.5%Q
            else u <- rand_random ;; ret (if Qltb u 0.7 then 1.5%Q else 3.0%Q)) ;;
  name <- lift (py_index course_names i) ;;
  department <- rand_choice DEPARTMENTS ;;
  ret {| c_id := ("COURSE" ++ fmt_0d 3 i)%string;
         c_name := name;
         c_type := ctype;
         c_weekly_hours := hours;
         c_instructor_id := ("PROF" ++ fmt_0d 3 instructor_idx)%string;
         c_expected_enrollment := enrollment;
         c_level := lvl;
         c_department := department |}.

Definition generate_courses (num_courses num_instructors : Z)
  : gen (list course) :=
  course_names <- _generate_course_names num_courses ;;
  for_each (generate_course num_instructors course_names)
           (py_range num_courses).

(** *** [generate_instructors] *)

Definition first_names : list string :=
  ["Alice"; "Bob"; "Carol"; "David"; "Emma"; "Frank"; "Grace"; "Henry";
   "Iris"; "Jack"; "Karen"; "Leo"; "Maria"; "Nathan"; "Olivia"; "Peter";
   "Quinn"; "Rachel"; "Sam"; "Tina"; "Uma"; "Victor"; "Wendy"; "Xavier";
   "Yuki"; "Zoe"; "Alex"; "Blake"; "Casey"; "Drew"; "Eli"; "Fiona"].

Definition last_names : list string :=
  ["Anderson"; "Brown"; "Chen"; "Davis"; "Evans"; "Fischer"; "Garcia";
   "Harris"; "Ivanov"; "Johnson"; "Kim"; "Lee"; "Martinez"; "Nguyen";
   "O'Brien"; "Patel"; "Quinn"; "Rodriguez"; "Smith"; "Taylor"; "Ueda";
   "Vargas"; "Wang"; "Xu"; "Yamamoto"; "Zhang"].

(** The body of the aggregation loop over [courses_per_instructor] and
    [total_hours_per_instructor]. *)
Definition add_teaching_load (load : dict Z * dict Q) (c : course)
  : dict Z * dict Q :=
  let '(courses_per_instructor, total_hours_per_instructor) := load in
  let inst_id := c_instructor_id c in
  (dict_set courses_per_instructor inst_id
     (dict_get_default courses_per_instructor inst_id 0 + 1),
   dict_set total_hours_per_instructor inst_id
     (dict_get_default total_hours_per_instructor inst_id 0
      + c_weekly_hours c)%Q).

Definition teaching_load (courses : list course) : dict Z * dict Q :=
  fold_left add_teaching_load courses ([], []).

(** [range(lo, hi)] *)
Definition py_range2 (lo hi : Z) : list Z :=
  map (fun k => lo + Z.of_nat k) (seq 0 (Z.to_nat (hi - lo))).

(** The [period_range] drawn for one available day. *)
Definition day_period_range (num_courses_to_teach : Z) : gen (list Z) :=
  u1 <- rand_random ;;
  if Qltb u1 0.2 then
    ret (if num_courses_to_teach <=? 2 then py_range2 0 12 else py_range2 0 18)
  else
    u2 <- rand_random ;;
    if Qltb u2 0.2 then
      ret (if num_courses_to_teach <=? 2 then py_range2 6 20 else py_range2 0 18)
    else ret (py_range2 0 20).

Definition day_slots (d : string) (periods : list Z) : list slot :=
  map (fun p => {| day := d; period_index := p |}) periods.

(** The [while] loop that adds whole days until the availability reaches
    [min_periods_needed] or no weekday is left. *)
Fixpoint top_up (min_periods_needed : Z) (remaining_days : list string)
    (availability : list slot) (total_available_periods : Z) : list slot :=
  match remaining_days with
  | [] => availability
  | extra_day :: remaining_days' =>
      if total_available_periods <? min_periods_needed
      then top_up min_periods_needed remaining_days'
             (availability ++ day_slots extra_day (py_range2 0 20))
             (total_available_periods + 20)
      else availability
  end.

Definition string_in (x : string) (l : list string) : bool :=
  existsb (String.eqb x) l.

(** The body of the loop over [range(num_instructors)]. *)
Definition generate_instructor (load : dict Z * dict Q) (i : Z)
  : gen instructor :=
  let '(courses_per_instructor, total_hours_per_instructor) := load in
  first <- rand_choice first_names ;;
  last <- rand_choice last_names ;;
  let inst_id := ("PROF" ++ fmt_0d 3 i)%string in
  let num_courses_to_teach := dict_get_default courses_per_instructor inst_id 0 in
  let hours_to_teach := dict_get_default total_hours_per_instructor inst_id 0%Q in
  let required_periods := py_int (hours_to_teach * 2)%Q in
  let min_periods_needed := Z.max (required_periods * 3) 30 in
  num_days_available <- rand_choice [4; 5] ;;
  available_days <- rand_sample weekdays num_days_available ;;
  per_day <- for_each
               (fun d =>
                  period_range <- day_period_range num_courses_to_teach ;;
                  ret (day_slots d period_range))
               available_days ;;
  let availability := List.concat per_day in
  let total_available_periods := Z.of_nat (List.length availability) in
  let availability :=
    if total_available_periods <? min_periods_needed
    then
      let remaining_days :=
        filter (fun d => negb (string_in d available_days)) weekdays in
      top_up min_periods_needed remaining_days availability
        total_available_periods
    else availability in
  b2b_pref <- rand_choices [-1; 0; 1] [0.3; 0.5; 0.2]%Q ;;
  u <- rand_random ;;
  let allow_lunch := Qltb u 0.3 in
  department <- rand_choice DEPARTMENTS ;;
  ret {| i_id := inst_id;
         i_name := ("Prof. " ++ first ++ " " ++ last)%string;
         i_availability := availability;
         i_back_to_back_preference := b2b_pref;
         i_allow_lunch_teaching := allow_lunch;
         i_department := department;
         i_debug := Some {| courses_to_teach := num_courses_to_teach;
                            hours_to_teach := hours_to_teach;
                            available_periods :=
                              Z.of_nat (List.length availability);
                            required_min_periods := min_periods_needed |} |}.

Definition generate_instructors (num_instructors num_courses : Z)
    (courses : list course) : gen (list instructor) :=
  for_each (generate_instructor (teaching_load courses))
           (py_range num_instructors).

(** *** [generate_classrooms] *)

Definition buildings : list string :=
  ["Gates"; "Huang"; "Hewlett"; "McCullough"; "Littlefield";
   "Meyer"; "Jordan"; "Skilling"; "Mitchell"; "Thornton"].

Definition capacity_distribution : list (Z * Z * Q) :=
  [(20, 30, 0.10%Q); (30, 50, 0.20%Q); (50, 80, 0.30%Q); (80, 120, 0.25%Q);
   (120, 250, 0.15%Q)].

(** The body of the loop over [range(num_rooms)]. *)
Definition generate_classroom (max_enrollment : Z) (i : Z) : gen classroom :=
  building <- rand_choice buildings ;;
  room_num <- rand_randint 100 599 ;;
  capacity <-
    (if i <? 3
     then rand_randint (Z.max 120 max_enrollment)
                       (Z.max 250 (max_enrollment + 50))
     else
       bucket <- rand_choices capacity_distribution
                   (map snd capacity_distribution) ;;
       let '(cap_min, cap_max, _) := bucket in
       rand_randint cap_min cap_max) ;;
  ret {| r_id := ("ROOM" ++ fmt_0d 3 i)%string;
         r_name := (building ++ " " ++ str_int room_num)%string;
         r_capacity := capacity |}.

(** The capacity report after the loop only prints; what remains of it is
    the indexing of position 0 of the two sorted lists, which raises
    exactly when the list that was sorted is empty. *)
Definition generate_classrooms (num_rooms : Z) (courses : list course)
  : gen (list classroom) :=
  max_enrollment <- lift (py_max (map c_expected_enrollment courses)) ;;
  classrooms <- for_each (generate_classroom max_enrollment)
                         (py_range num_rooms) ;;
  _ <- lift (py_index (map c_expected_enrollment courses) 0) ;;
  _ <- lift (py_index (map r_capacity classrooms) 0) ;;
  ret classrooms.

(** *** [generate_students] *)

Definition names : list string :=
  ["Emma"; "Liam"; "Olivia"; "Noah"; "Ava"; "Ethan"; "Sophia"; "Mason";
   "Isabella"; "William"; "Mia"; "James"; "Charlotte"; "Benjamin"; "Amelia";
   "Lucas"; "Harper"; "Henry"; "Evelyn"; "Alexander"; "Abigail"; "Michael";
   "Emily"; "Daniel"; "Elizabeth"; "Matthew"; "Sofia"; "Jackson"; "Avery";
   "Sebastian"; "Ella"; "Jack"; "Scarlett"; "Aiden"; "Grace"; "Owen"; "Chloe";
   "Samuel"; "Victoria"; "David"; "Riley"; "Joseph"; "Aria"; "Carter"; "Lily"].

(** [level_probs], as the list of its values in key order 100..400. *)
Definition level_probs (year : student_year) : list Q :=
  match year with
  | freshman => [0.7; 0.3; 0.0; 0.0]
  | sophomore => [0.3; 0.5; 0.2; 0.0]
  | junior => [0.1; 0.3; 0.5; 0.1]
  | senior => [0.0; 0.2; 0.5; 0.3]
  | graduate => [0.0; 0.0; 0.3; 0.7]
  end%Q.

(** The loop [for _ in range(num_courses_to_take)] with its [break]. *)
Fixpoint select_courses (todo : nat) (probs : list Q)
    (enrolled_courses : list string) (available_courses : list course)
  : gen (list string) :=
  match todo with
  | O => ret enrolled_courses
  | S todo' =>
      match available_courses with
      | [] => ret enrolled_courses
      | _ :: _ =>
          lvl <- rand_choices levels probs ;;
          let candidates :=
            filter (fun c => level_eqb (c_level c) lvl) available_courses in
          let candidates :=
            match candidates with
            | [] => available_courses
            | _ :: _ => candidates
            end in
          match candidates with
          | [] => select_courses todo' probs enrolled_courses available_courses
          | _ :: _ =>
              c <- rand_choice candidates ;;
              select_courses todo' probs (enrolled_courses ++ [c_id c])
                (list_remove course_eqb c available_courses)
          end
      end
  end.

(** The body of the loop over [range(num_students)]. *)
Definition generate_student (courses : list course) (i : Z) : gen student :=
  year <- rand_choices student_years (map STUDENT_YEARS student_years) ;;
  num_courses_to_take <-
    (match year with
     | graduate => rand_choice [2; 3; 4]
     | _ => rand_choice [3; 4; 5]
     end) ;;
  enrolled_courses <-
    select_courses (Z.to_nat num_courses_to_take) (level_probs year) [] courses ;;
  name <- rand_choice names ;;
  ret {| s_id := ("STU" ++ fmt_0d 4 i)%string;
         s_name := (name ++ " " ++ str_int i)%string;
         s_year := year;
         s_enrolled_course_ids := enrolled_courses |}.

Definition generate_students (num_students : Z) (courses : list course)
  : gen (list student) :=
  for_each (generate_student courses) (py_range num_students).

(** *** [_check_feasibility] *)

(** One entry of the [issues] list: the data the warning string is
    rendered from. *)
Inductive issue : Type :=
| RoomCapacityIssue (course_id : string) (enrollment max_room_capacity : Z)
| InstructorLoadIssue (instructor_name : string)
    (required_hours available_hours min_required_availability : Q)
| TotalLoadIssue (total_course_hours total_available_hours : Q)
| UtilizationIssue (utilization : Q).

(** [sum(...)] over floats, starting from the integer 0. *)
Definition py_sum (l : list Q) : Q := fold_left Qplus l 0%Q.

(** Check 1: one issue per course larger than the largest room. *)
Definition check_room_capacity (max_room_capacity : Z) (courses : list course)
  : list issue :=
  flat_map
    (fun c =>
       if max_room_capacity <? c_expected_enrollment c
       then [RoomCapacityIssue (c_id c) (c_expected_enrollment c)
               max_room_capacity]
       else [])
    courses.

(** [instructor_dict] *)
Definition instructor_dict (instructors : list instructor) : dict instructor :=
  fold_left (fun d i => dict_set d (i_id i) i) instructors [].

(** [courses_by_instructor] and [hours_by_instructor], which share their
    keys, as one dictionary of pairs. *)
Definition load_by_instructor (courses : list course)
  : dict (list course * Q) :=
  fold_left
    (fun d c =>
       let inst_id := c_instructor_id c in
       let '(inst_courses, hours) :=
         dict_get_default d inst_id ([], 0%Q) in
       dict_set d inst_id (inst_courses ++ [c], (hours + c_weekly_hours c)%Q))
    courses [].

(** Check 2: the loop over [courses_by_instructor.items()]. *)
Fixpoint check_instructor_load (by_id : dict instructor)
    (items : list (string * (list course * Q))) : result (list issue) :=
  match items with
  | [] => Ok []
  | (inst_id, (_, required_hours)) :: items' =>
      result_bind (dict_lookup by_id inst_id) (fun inst =>
        let available_periods := Z.of_nat (List.length (i_availability inst)) in
        let available_hours := (inject_Z available_periods * 0.5)%Q in
        let min_required_availability := (required_hours * 3)%Q in
        result_map
          (fun rest =>
             if Qltb available_hours min_required_availability
             then InstructorLoadIssue (i_name inst) required_hours
                    available_hours min_required_availability :: rest
             else rest)
          (check_instructor_load by_id items'))
  end.

(** Returns the collected [issues] (the source prints them). *)
Definition _check_feasibility (courses : list course)
    (instructors : list instructor) (classrooms : list classroom)
    (num_weeks : Z) : result (list issue) :=
  result_bind (py_max (map r_capacity classrooms)) (fun max_room_capacity =>
  let issues1 := check_room_capacity max_room_capacity courses in
  result_bind
    (check_instructor_load (instructor_dict instructors)
       (load_by_instructor courses)) (fun issues2 =>
  let total_course_hours := py_sum (map c_weekly_hours courses) in
  let total_available_hours :=
    py_sum (map (fun i => inject_Z (Z.of_nat (List.length (i_availability i)))
                          * 0.5)%Q instructors) in
  let issues3 :=
    if Qltb total_available_hours (total_course_hours * 3)%Q
    then [TotalLoadIssue total_course_hours total_available_hours]
    else [] in
  let num_days := 5 in
  let num_periods := 24 in
  let slots_per_week := num_days * num_periods in
  let total_periods_needed :=
    py_sum (map (fun c => c_weekly_hours c * 2)%Q courses) in
  result_bind
    (py_truediv total_periods_needed
       (inject_Z (slots_per_week * Z.of_nat (List.length classrooms))))
    (fun utilization =>
  let issues4 :=
    if Qltb 0.5 utilization then [UtilizationIssue utilization] else [] in
  let issues := issues1 ++ issues2 ++ issues3 ++ issues4 in
  match issues with
  | _ :: _ => Ok issues
  | [] =>
      result_bind (py_truediv total_available_hours total_course_hours)
        (fun _ => Ok issues)
  end))).

(** *** [datetime] arithmetic *)

(** Dates are proleptic Gregorian ordinals, [date.toordinal()]. *)
Definition date_min : Z := 1.
Definition date_max : Z := 3652059.

(** [date + timedelta(days=n)] *)
Definition date_add_days (ordinal n : Z) : result Z :=
  let o := ordinal + n in
  if (date_min <=? o) && (o <=? date_max) then Ok o else Raise OverflowError.

Definition days_before_month (month : Z) : Z :=
  nth (Z.to_nat month) [-1; 0; 31; 59; 90; 120; 151; 181; 212; 243; 273; 304; 334] 0.

Definition days_in_month (month : Z) : Z :=
  nth (Z.to_nat month) [-1; 31; 28; 31; 30; 31; 30; 31; 31; 30; 31; 30; 31] 0.

(** [_ord2ymd] of the [datetime] module. *)
Definition ord2ymd (ordinal : Z) : Z * Z * Z :=
  let n := ordinal - 1 in
  let n400 := n / 146097 in
  let n := n mod 146097 in
  let year := n400 * 400 + 1 in
  let n100 := n / 36524 in
  let n := n mod 36524 in
  let n4 := n / 1461 in
  let n := n mod 1461 in
  let n1 := n / 365 in
  let n := n mod 365 in
  let year := year + n100 * 100 + n4 * 4 + n1 in
  if (n1 =? 4) || (n100 =? 4) then (year - 1, 12, 31)
  else
    let leapyear := (n1 =? 3) && (negb (n4 =? 24) || (n100 =? 3)) in
    let month := Z.shiftr (n + 50) 5 in
    let preceding :=
      days_before_month month
      + (if (2 <? month) && leapyear then 1 else 0) in
    let '(month, preceding) :=
      if n <? preceding
      then
        let month := month - 1 in
        (month,
         preceding
         - (days_in_month month
            + (if (month =? 2) && leapyear then 1 else 0)))
      else (month, preceding) in
    (year, month, n - preceding + 1).

(** [d.strftime("%Y-%m-%d")] *)
Definition strftime_ymd (ordinal : Z) : string :=
  let '(y, m, d) := ord2ymd ordinal in
  (str_int y ++ "-" ++ fmt_0d 2 m ++ "-" ++ fmt_0d 2 d)%string.

(** [datetime(2025, 1, 6)] *)
Definition start_date_ordinal : Z := 739257.

(** *** [generate_complete_input] *)

Record TermConfig : Type := {
  tc_num_weeks : Z;
  tc_days : list string;
  tc_period_length_minutes : Z;
  tc_day_start_time : string;
  tc_day_end_time : string;
  tc_lunch_start_time : string;
  tc_lunch_end_time : string;
  tc_semester_start_date : string;
  tc_semester_end_date : string
}.

Record ConflictWeights : Type := {
  global_student_conflict_weight : Q;
  instructor_compactness_weight : Q;
  preferred_time_slots_weight : Q
}.

Record Statistics : Type := {
  st_num_courses : Z;
  st_num_instructors : Z;
  st_num_rooms : Z;
  st_num_students : Z;
  st_total_enrollments : Z;
  st_avg_courses_per_student : Q;
  st_potential_conflicts : Z
}.

Record Metadata : Type := {
  generated_at : string;
  generator_version : string;
  description : string;
  feasibility_checked : bool;
  statistics : Statistics
}.

(** The instance document. *)
Record Instance : Type := {
  term_config : TermConfig;
  classrooms : list classroom;
  instructors : list instructor;
  courses : list course;
  students : list student;
  conflict_weights : ConflictWeights;
  metadata : Metadata
}.

(** [del instructor["_debug"]] *)
Definition del_debug (i : instructor) : instructor :=
  {| i_id := i_id i;
     i_name := i_name i;
     i_availability := i_availability i;
     i_back_to_back_preference := i_back_to_back_preference i;
     i_allow_lunch_teaching := i_allow_lunch_teaching i;
     i_department := i_department i;
     i_debug := None |}.

Definition sum_Z (l : list Z) : Z := fold_left Z.add l 0.

(** [now] is the string [datetime.now().isoformat()] evaluates to when the
    document is assembled. *)
Definition generate_complete_input (now : string)
    (num_courses num_instructors num_rooms num_students num_weeks : Z)
  : gen Instance :=
  end_date <- lift (result_bind
                      (date_add_days start_date_ordinal (7 * num_weeks))
                      (fun d => date_add_days d (-1))) ;;
  courses <- generate_courses num_courses num_instructors ;;
  instructors <- generate_instructors num_instructors num_courses courses ;;
  classrooms <- generate_classrooms num_rooms courses ;;
  students <- generate_students num_students courses ;;
  _ <- lift (_check_feasibility courses instructors classrooms num_weeks) ;;
  let total_enrollment :=
    sum_Z (map (fun s => Z.of_nat (List.length (s_enrolled_course_ids s)))
               students) in
  avg_courses_per_student <-
    lift (py_truediv (inject_Z total_enrollment) (inject_Z num_students)) ;;
  let conflict_count :=
    fold_left
      (fun acc s =>
         let k := Z.of_nat (List.length (s_enrolled_course_ids s)) in
         acc + k * (k - 1) / 2)
      students 0 in
  let instructors := map del_debug instructors in
  ret {| term_config :=
           {| tc_num_weeks := num_weeks;
              tc_days := ["Mon"; "Tue"; "Wed"; "Thu"; "Fri"];
              tc_period_length_minutes := 30;
              tc_day_start_time := "08:00";
              tc_day_end_time := "20:00";
              tc_lunch_start_time := "12:00";
              tc_lunch_end_time := "13:00";
              tc_semester_start_date := strftime_ymd start_date_ordinal;
              tc_semester_end_date := strftime_ymd end_date |};
         classrooms := classrooms;
         instructors := instructors;
         courses := courses;
         students := students;
         conflict_weights :=
           {| global_student_conflict_weight := 1.0;
              instructor_compactness_weight := 1.0;
              preferred_time_slots_weight := 1.0 |};
         metadata :=
           {| generated_at := now;
              generator_version := "1.0";
              description :=
                ("Large-scale scheduling input: " ++ str_int num_courses
                 ++ " courses, " ++ str_int num_instructors
                 ++ " instructors, " ++ str_int num_students
                 ++ " students")%string;
              feasibility_checked := true;
              statistics :=
                {| st_num_courses := num_courses;
                   st_num_instructors := num_instructors;
                   st_num_rooms := num_rooms;
                   st_num_students := num_students;
                   st_total_enrollments := total_enrollment;
                   st_avg_courses_per_student := avg_courses_per_student;
                   st_potential_conflicts := conflict_count |} |} |}.

(** [LargeScaleInputGenerator.__init__]: [random.seed(seed)] and
    [np.random.seed(seed)].  The generator never draws from [numpy]; what
    its seeding leaves is the range check of the seed, 0 .. 2**32 - 1. *)
Definition init (seed : Z) : result rng :=
  if (0 <=? seed) && (seed <=? 4294967295)
  then Ok (seed_rng seed)
  else Raise ValueError.

(** One run of the program: [LargeScaleInputGenerator(seed)] followed by
    [generate_complete_input(...)]. *)
Definition run (seed : Z) (now : string)
    (num_courses num_instructors num_rooms num_students num_weeks : Z)
  : result Instance :=
  result_bind (init seed) (fun s =>
    result_map fst
      (generate_complete_input now num_courses num_instructors num_rooms
         num_students num_weeks s)).

End Generator.

(** * Vocabulary of the properties *)

(** The teaching load of an instructor: the sum of the weekly hours of the
    courses assigned to it. *)
Definition required_hours (courses : list course) (inst_id : string) : Q :=
  py_sum (map c_weekly_hours
            (filter (fun c => String.eqb (c_instructor_id c) inst_id) courses)).

(** Half an hour per availability entry. *)
Definition available_hours (i : instructor) : Q :=
  (inject_Z (Z.of_nat (List.length (i_availability i))) * 0.5)%Q.

(** Every weekday occurs in the availability. *)
Definition covers_all_weekdays (availability : list slot) : Prop :=
  forall d, In d weekdays ->
    exists p, In {| day := d; period_index := p |} availability.

(** The slots one day contributes: a non-empty range of periods within
    0..19. *)
Definition day_block (d : string) (slots : list slot) : Prop :=
  exists lo hi,
    0 <= lo /\ lo < hi /\ hi <= 20 /\ slots = day_slots d (py_range2 lo hi).

Definition full_day (d : string) : list slot := day_slots d (py_range2 0 20).

(** The periods the catalog needs per week: two per weekly hour. *)
Definition total_required_periods (cs : list course) : Q :=
  py_sum (map (fun c => c_weekly_hours c * 2)%Q cs).

Definition is_utilization_issue (i : issue) : bool :=
  match i with
  | UtilizationIssue _ => true
  | _ => false
  end.

(** The keys of a dictionary, in order. *)
Definition dict_keys {V} (d : dict V) : list string := map fst d.

(** The document with another timestamp. *)
Definition set_generated_at (t : string) (doc : Instance) : Instance :=
  {| term_config := term_config doc;
     classrooms := classrooms doc;
     instructors := instructors doc;
     courses := courses doc;
     students := students doc;
     conflict_weights := conflict_weights doc;
     metadata :=
       {| generated_at := t;
          generator_version := generator_version (metadata doc);
          description := description (metadata doc);
          feasibility_checked := feasibility_checked (metadata doc);
          statistics := statistics (metadata doc) |} |}.

(** ** Concrete runs over the counter source *)

(** The value of a computation that returned. *)
Definition ok_value {A : Type} (r : result A)
  : match r return Type with Ok _ => A | Raise _ => unit end :=
  match r with
  | Ok a => a
  | Raise _ => tt
  end.

Definition head_value {A : Type} (l : list A)
  : match l return Type with [] => unit | _ :: _ => A end :=
  match l with
  | [] => tt
  | x :: _ => x
  end.

Definition demo_now : string := "2025-01-06T09:00:00".

Definition demo_seed : N := Eval vm_compute in @seed_rng CounterRandom 42.

(** Seed 42; 2 courses, 1 instructor, 1 room, 2 students, 10 weeks. *)
Definition demo_run : Instance * N :=
  Eval vm_compute in
    ok_value (@generate_complete_input CounterRandom demo_now 2 1 1 2 10
                demo_seed).

Definition demo_doc : Instance := Eval vm_compute in fst demo_run.

Definition demo_instructor : instructor :=
  Eval vm_compute in head_value (instructors demo_doc).

(** Seed 42; a catalog of a single course, 1 instructor, 1 room, 1 student. *)
Definition tiny_run : Instance * N :=
  Eval vm_compute in
    ok_value (@generate_complete_input CounterRandom demo_now 1 1 1 1 10
                demo_seed).

Definition tiny_student : student :=
  Eval vm_compute in head_value (students (fst tiny_run)).

(** Seed 42; 21 courses on 1 instructor and 1 room: more than half of the
    120 weekly slots of the room are needed. *)
Definition busy_courses : list course * N :=
  Eval vm_compute in ok_value (@generate_courses CounterRandom 21 1 demo_seed).

Definition busy_instructors : list instructor * N :=
  Eval vm_compute in
    ok_value (@generate_instructors CounterRandom 1 21 (fst busy_courses)
                (snd busy_courses)).

Definition busy_classrooms : list classroom * N :=
  Eval vm_compute in
    ok_value (@generate_classrooms CounterRandom 1 (fst busy_courses)
                (snd busy_instructors)).

Definition busy_run : Instance * N :=
  Eval vm_compute in
    ok_value (@generate_complete_input CounterRandom demo_now 21 1 1 1 10
                demo_seed).

(** Seed 42; 1 course and [num_instructors = -1]. *)
Definition stray_courses : list course * N :=
  Eval vm_compute in ok_value (@generate_courses CounterRandom 1 (-1) demo_seed).

Definition stray_instructors : list instructor * N :=
  Eval vm_compute in
    ok_value (@generate_instructors CounterRandom (-1) 1 (fst stray_courses)
                (snd stray_courses)).

Definition stray_classrooms : list classroom * N :=
  Eval vm_compute in
    ok_value (@generate_classrooms CounterRandom 1 (fst stray_courses)
                (snd stray_instructors)).

(** * The callers of the generator *)

(** The callers touch the file system in two ways:
    [os.makedirs(path, exist_ok=True)] and the
    [with open(filename, 'w') as f: json.dump(input_data, f, indent=2)]
    block of [save_to_file].  Either can raise ([FileNotFoundError] for an
    empty path or a missing directory, [FileExistsError] for a regular
    file in the way, a refused permission, a full disk), and what it
    leaves behind depends on links and mounts the program knows nothing
    of.  A [FileSystem] is therefore any pair of such operations over any
    state: each returns the state it leaves and the name of the exception
    it raised, if any.  No caller handles an exception, so the first one
    raised ends the call. *)
Class FileSystem : Type := {
  disk : Type;
  os_makedirs : string -> disk -> disk * option string;
  json_dump : Instance -> string -> disk -> disk * option string
}.

(** How a caller ends when it does not return: with an exception of the
    generator or with one of the file system. *)
Inductive failure : Type :=
| GeneratorError (e : exn)
| FileSystemError (name : string).

(** One call to the file system. *)
Inductive fs_call : Type :=
| Makedirs (path : string)
| Dump (input_data : Instance) (filename : string).

(** A disk that keeps the calls it served, oldest first, and refuses the
    empty path. *)
Definition RecordingDisk : FileSystem :=
  {| disk := list fs_call;
     os_makedirs := fun path d =>
       if (String.length path =? 0)%nat
       then (d, Some "FileNotFoundError")
       else (d ++ [Makedirs path], None);
     json_dump := fun input_data filename d =>
       if (String.length filename =? 0)%nat
       then (d, Some "FileNotFoundError")
       else (d ++ [Dump input_data filename], None) |}.

(** [s.endswith('/')] *)
Fixpoint ends_with_slash (s : string) : bool :=
  match s with
  | EmptyString => false
  | String c EmptyString => Ascii.eqb c "/"
  | String _ t => ends_with_slash t
  end.

(** [s.startswith('/')] *)
Definition starts_with_slash (s : string) : bool :=
  match s with
  | String c _ => Ascii.eqb c "/"
  | EmptyString => false
  end.

(** [os.path.join(a, b)] of [posixpath]. *)
Definition os_path_join (a b : string) : string :=
  if starts_with_slash b then b
  else if (String.length a =? 0)%nat || ends_with_slash a then (a ++ b)%string
  else (a ++ "/" ++ b)%string.

(** One entry of the [scenarios] list of [generate_multiple_scenarios]. *)
Record scenario : Type := {
  sc_name : string;
  sc_courses : Z;
  sc_instructors : Z;
  sc_rooms : Z;
  sc_students : Z;
  sc_weeks : Z
}.

Definition scenarios : list scenario :=
  [ {| sc_name := "medium_scale"; sc_courses := 50; sc_instructors := 30;
       sc_rooms := 35; sc_students := 1000; sc_weeks := 10 |};
    {| sc_name := "large_scale"; sc_courses := 75; sc_instructors := 40;
       sc_rooms := 50; sc_students := 1500; sc_weeks := 10 |};
    {| sc_name := "very_large_scale"; sc_courses := 100; sc_instructors := 50;
       sc_rooms := 60; sc_students := 2000; sc_weeks := 10 |} ].

(** The command-line arguments after [parse_args]. *)
Record arguments : Type := {
  a_courses : Z;
  a_instructors : Z;
  a_rooms : Z;
  a_students : Z;
  a_weeks : Z;
  a_output : string;
  a_seed : Z;
  a_multiple : bool
}.

(** The defaults of the argument parser. *)
Definition default_arguments : arguments :=
  {| a_courses := 50; a_instructors := 30; a_rooms := 20; a_students := 1000;
     a_weeks := 14; a_output := "large_schedule_input.json"; a_seed := 42;
     a_multiple := false |}.

Section Callers.

Context {R : RandomSource} {F : FileSystem}.

(** [clock k] is the value of [datetime.now().isoformat()] in the assembly
    of document number [k] of the process. *)
Variable clock : Z -> string.

(** [save_to_file]: the [with open] block; the size report after it only
    prints. *)
Definition save_to_file (input_data : Instance) (filename : string)
    (d : disk) : disk * option failure :=
  let (d', r) := json_dump input_data filename d in
  (d', option_map FileSystemError r).

(** [f"{output_dir}/{scenario['name']}_input.json"] *)
Definition scenario_filename (output_dir : string) (sc : scenario) : string :=
  (output_dir ++ "/" ++ sc_name sc ++ "_input.json")%string.

(** The loop of [generate_multiple_scenarios] over the scenarios [todo]:
    every scenario is generated on the state of the random source the
    previous one left, then saved. *)
Fixpoint run_scenarios (output_dir : string) (k : Z) (todo : list scenario)
    (d : disk) (s : rng) : disk * option failure :=
  match todo with
  | [] => (d, None)
  | sc :: todo' =>
      match generate_complete_input (clock k) (sc_courses sc)
              (sc_instructors sc) (sc_rooms sc) (sc_students sc)
              (sc_weeks sc) s with
      | Raise e => (d, Some (GeneratorError e))
      | Ok (input_data, s') =>
          match save_to_file input_data (scenario_filename output_dir sc) d
          with
          | (d', Some f) => (d', Some f)
          | (d', None) => run_scenarios output_dir (k + 1) todo' d' s'
          end
      end
  end.

Definition generate_multiple_scenarios (output_dir : string) (d : disk)
    (s : rng) : disk * option failure :=
  match os_makedirs output_dir d with
  | (d', Some e) => (d', Some (FileSystemError e))
  | (d', None) => run_scenarios output_dir 0 scenarios d' s
  end.

(** [main], from the parsed arguments: the disk after it and the
    exception it ended with, if any. *)
Definition main (args : arguments) (d : disk) : disk * option failure :=
  match init (a_seed args) with
  | Raise e => (d, Some (GeneratorError e))
  | Ok s =>
      if a_multiple args
      then generate_multiple_scenarios "large_inputs" d s
      else
        match generate_complete_input (clock 0) (a_courses args)
                (a_instructors args) (a_rooms args) (a_students args)
                (a_weeks args) s with
        | Ok (input_data, _) => save_to_file input_data (a_output args) d
        | Raise e => (d, Some (GeneratorError e))
        end
  end.

Definition batch_filename (output_dir : string) (i : Z) : string :=
  os_path_join output_dir ("schedule_input_" ++ fmt_0d 3 i ++ ".json")%string.

(** The loop of [batch_produce] ([batch_data.py]) over the indices [todo]:
    a fresh generator seeded [1000 + i] per file. *)
Fixpoint batch_loop (output_dir : string) (todo : list Z) (d : disk)
  : disk * option failure :=
  match todo with
  | [] => (d, None)
  | i :: todo' =>
      let current_seed := 1000 + i in
      match run current_seed (clock i) 50 30 20 1000 14 with
      | Raise e => (d, Some (GeneratorError e))
      | Ok input_data =>
          match save_to_file input_data (batch_filename output_dir i) d with
          | (d', Some f) => (d', Some f)
          | (d', None) => batch_loop output_dir todo' d'
          end
      end
  end.

Definition batch_produce (count : Z) (output_dir : string) (d : disk)
  : disk * option failure :=
  match os_makedirs output_dir d with
  | (d', Some e) => (d', Some (FileSystemError e))
  | (d', None) => batch_loop output_dir (py_range2 1 (count + 1)) d'
  end.

End Callers.

(** A list of calls served in order: the first call that raises ends the
    list, with its exception. *)
Section Calls.

Context {F : FileSystem}.

Definition perform (c : fs_call) (d : disk) : disk * option string :=
  match c with
  | Makedirs path => os_makedirs path d
  | Dump input_data filename => json_dump input_data filename d
  end.

Fixpoint perform_all (calls : list fs_call) (d : disk)
  : disk * option failure :=
  match calls with
  | [] => (d, None)
  | c :: calls' =>
      match perform c d with
      | (d', Some e) => (d', Some (FileSystemError e))
      | (d', None) => perform_all calls' d'
      end
  end.

End Calls.

(** The dumps of [batch_produce]: document [i] to its file. *)
Definition batch_dumps (output_dir : string) (indices : list Z)
    (docs : list Instance) : list fs_call :=
  map (fun p => Dump (snd p)
                  (os_path_join output_dir
                     ("schedule_input_" ++ fmt_0d 3 (fst p) ++ ".json")%string))
      (combine indices docs).

(** * More vocabulary *)

(** How [generate_complete_input] ends, read off its statements in order:
    the end date, the course loop, the room report, check 2 of the
    verifier, the average. *)
Definition expected_failure (nc ni nr ns nw : Z) : option exn :=
  if negb ((-105607 <=? nw) && (nw <=? 416114)) then Some OverflowError
  else if (1 <=? nc) && (ni =? 0) then Some ZeroDivisionError
  else if nc <=? 0 then Some ValueError
  else if nr <=? 0 then Some IndexError
  else if ni <? 0 then Some KeyError
  else if ns =? 0 then Some ZeroDivisionError
  else None.

(** An [int] that [str] and the f-strings render: CPython refuses to
    convert an integer of more than 4300 decimal digits and raises
    [ValueError].  The parameter report at the head of
    [generate_complete_input] prints its five arguments, so the outcome
    of a call is stated for printable arguments. *)
Definition int_max_str_bound : Z := Eval vm_compute in 10 ^ 4300.

Definition printable (n : Z) : bool := Z.abs n <? int_max_str_bound.

(** The weekly hours [generate_courses] assigns. *)
Definition standard_hours (c : course) : bool :=
  Qeq_bool (c_weekly_hours c) 1.5 || Qeq_bool (c_weekly_hours c) 3.0.

Definition is_room_capacity_issue (i : issue) : bool :=
  match i with
  | RoomCapacityIssue _ _ _ => true
  | _ => false
  end.

Definition is_instructor_load_issue (i : issue) : bool :=
  match i with
  | InstructorLoadIssue _ _ _ _ => true
  | _ => false
  end.

(** The four windows an available day can get; an instructor with more
    than two courses gets at least 18 periods. *)
Definition day_window (num_courses_to_teach : Z) (d : string)
    (slots : list slot) : Prop :=
  exists lo hi,
    slots = day_slots d (py_range2 lo hi)
    /\ 0 <= lo /\ hi <= 20 /\ 12 <= hi - lo
    /\ ((num_courses_to_teach <=? 2) = false -> 18 <= hi - lo).

(** The courses of an instructor. *)
Definition courses_of (cs : list course) (inst_id : string) : list course :=
  filter (fun c => String.eqb (c_instructor_id c) inst_id) cs.

(** Number of courses a student of a given year asks for. *)
Definition year_course_counts (y : student_year) : list Z :=
  match y with
  | graduate => [2; 3; 4]
  | _ => [3; 4; 5]
  end.

(** ** More concrete runs *)

(** The three generators of the demo run one after the other: 2 courses
    on 1 instructor, 1 room. *)
Definition demo_courses : list course * N :=
  Eval vm_compute in ok_value (@generate_courses CounterRandom 2 1 demo_seed).

Definition demo_instructors : list instructor * N :=
  Eval vm_compute in
    ok_value (@generate_instructors CounterRandom 1 2 (fst demo_courses)
                (snd demo_courses)).

Definition demo_classrooms : list classroom * N :=
  Eval vm_compute in
    ok_value (@generate_classrooms CounterRandom 1 (fst demo_courses)
                (snd demo_instructors)).

Definition demo_issues : list issue :=
  Eval vm_compute in
    ok_value (_check_feasibility (fst demo_courses) (fst demo_instructors)
                (fst demo_classrooms) 10).

Definition busy_issues : list issue :=
  Eval vm_compute in
    ok_value (_check_feasibility (fst busy_courses) (fst busy_instructors)
                (fst busy_classrooms) 10).


(** A clock that stands still. *)
Definition demo_clock : Z -> string := fun _ => demo_now.


(** * Properties *)

(** ** Lists and built-ins *)

Lemma py_range_length : forall n, List.length (py_range n) = Z.to_nat n.
Proof.
  intro n. unfold py_range. rewrite length_map, length_seq. reflexivity.
Qed.

Lemma py_range_In : forall n i, In i (py_range n) <-> 0 <= i < n.
Proof.
  intros n i. unfold py_range. rewrite in_map_iff. split.
  - intros (k & <- & Hk). apply in_seq in Hk. lia.
  - intros Hi. exists (Z.to_nat i). split; [lia|]. apply in_seq. lia.
Qed.

Lemma py_range_nth_error :
  forall n i, 0 <= i < n -> nth_error (py_range n) (Z.to_nat i) = Some i.
Proof.
  intros n i Hi. unfold py_range.
  rewrite nth_error_map, nth_error_seq.
  destruct (Nat.ltb_spec (Z.to_nat i) (Z.to_nat n)); [|lia].
  cbn. f_equal. lia.
Qed.

Lemma py_range2_In : forall lo hi p, In p (py_range2 lo hi) <-> lo <= p < hi.
Proof.
  intros lo hi p. unfold py_range2. rewrite in_map_iff. split.
  - intros (k & <- & Hk). apply in_seq in Hk. lia.
  - intros Hp. exists (Z.to_nat (p - lo)). split; [lia|]. apply in_seq. lia.
Qed.

Lemma py_range2_NoDup : forall lo hi, NoDup (py_range2 lo hi).
Proof.
  intros lo hi. unfold py_range2.
  apply Finite.Injective_map_NoDup; [|apply seq_NoDup].
  intros a b Hab. lia.
Qed.

Lemma py_range2_length :
  forall lo hi, List.length (py_range2 lo hi) = Z.to_nat (hi - lo).
Proof.
  intros lo hi. unfold py_range2. rewrite length_map, length_seq. reflexivity.
Qed.

Lemma py_index_In :
  forall A (l : list A) i x, py_index l i = Ok x -> In x l.
Proof.
  intros A l i x H. unfold py_index in H.
  destruct (_ && _); [|discriminate].
  destruct (nth_error l _) as [y|] eqn:E; [|discriminate].
  injection H as <-. eapply nth_error_In; eassumption.
Qed.

Lemma py_index_nth_error :
  forall A (l : list A) i x,
    0 <= i -> nth_error l (Z.to_nat i) = Some x -> py_index l i = Ok x.
Proof.
  intros A l i x Hi H. unfold py_index.
  assert (Hlt : (Z.to_nat i < List.length l)%nat)
    by (apply nth_error_Some; rewrite H; discriminate).
  destruct (Z.ltb_spec i 0); [lia|].
  destruct (Z.leb_spec 0 i); [|lia].
  destruct (Z.ltb_spec i (Z.of_nat (List.length l))); [|lia].
  cbn [andb]. rewrite H. reflexivity.
Qed.

Lemma py_index_total :
  forall A (l : list A) i,
    0 <= i < Z.of_nat (List.length l) -> exists x, py_index l i = Ok x.
Proof.
  intros A l i Hi.
  destruct (nth_error l (Z.to_nat i)) as [y|] eqn:E.
  - exists y. apply py_index_nth_error; [lia|exact E].
  - apply nth_error_None in E. lia.
Qed.

Lemma bisect_loop_bounds :
  forall fuel a x lo hi,
    (lo <= hi)%nat ->
    (lo <= bisect_loop fuel a x lo hi <= hi)%nat.
Proof.
  induction fuel as [|fuel IH]; intros a x lo hi Hle; cbn [bisect_loop].
  - lia.
  - destruct (Nat.ltb_spec lo hi) as [Hlt|]; [|lia].
    assert (Hmid : (lo <= (lo + hi) / 2 < hi)%nat).
    { split.
      - apply Nat.div_le_lower_bound; lia.
      - apply Nat.Div0.div_lt_upper_bound; lia. }
    destruct (Qltb x (nth ((lo + hi) / 2) a 0%Q)).
    + specialize (IH a x lo ((lo + hi) / 2)%nat). lia.
    + specialize (IH a x (S ((lo + hi) / 2)) hi). lia.
Qed.

Lemma bisect_le : forall a x hi, (bisect a x 0 hi <= hi)%nat.
Proof.
  intros a x hi. unfold bisect.
  pose proof (bisect_loop_bounds (hi - 0) a x 0 hi). lia.
Qed.

(** ** The monad and the [random] module *)

Section GeneratorFacts.

Context {R : RandomSource}.

Lemma bind_Ok :
  forall A B (m : gen A) (k : A -> gen B) s b s',
    bind m k s = Ok (b, s') ->
    exists a s1, m s = Ok (a, s1) /\ k a s1 = Ok (b, s').
Proof.
  intros A B m k s b s' H. unfold bind in H.
  destruct (m s) as [[a s1]|e]; [|discriminate].
  exists a, s1. split; [reflexivity|assumption].
Qed.

Lemma bind_Ok_intro :
  forall A B (m : gen A) (k : A -> gen B) s a s1,
    m s = Ok (a, s1) -> bind m k s = k a s1.
Proof.
  intros A B m k s a s1 H. unfold bind. rewrite H. reflexivity.
Qed.

Lemma bind_Raise_intro :
  forall A B (m : gen A) (k : A -> gen B) s e,
    m s = Raise e -> bind m k s = Raise e.
Proof.
  intros A B m k s e H. unfold bind. rewrite H. reflexivity.
Qed.

Lemma ret_Ok :
  forall A (a b : A) s s', ret a s = Ok (b, s') -> b = a /\ s' = s.
Proof.
  intros A a b s s' H. unfold ret in H. inversion H. split; reflexivity.
Qed.

Lemma lift_Ok :
  forall A (r : result A) a s s', lift r s = Ok (a, s') -> r = Ok a /\ s' = s.
Proof.
  intros A r a s s' H. unfold lift in H.
  destruct r; [|discriminate]. inversion H. split; reflexivity.
Qed.

Lemma lift_Ok_intro :
  forall A (r : result A) a s, r = Ok a -> lift r s = Ok (a, s).
Proof.
  intros A r a s ->. reflexivity.
Qed.

Lemma for_each_Forall2 :
  forall A B (body : A -> gen B) l s ys s',
    for_each body l s = Ok (ys, s') ->
    Forall2 (fun x y => exists s1 s2, body x s1 = Ok (y, s2)) l ys.
Proof.
  intros A B body l. induction l as [|x t IH]; intros s ys s' H.
  - apply ret_Ok in H as [-> _]. constructor.
  - cbn [for_each] in H.
    apply bind_Ok in H as (y & s1 & Hy & H).
    apply bind_Ok in H as (ys' & s2 & Hys & H).
    apply ret_Ok in H as [-> _].
    constructor; [eauto | eapply IH; eassumption].
Qed.

Lemma for_each_length :
  forall A B (body : A -> gen B) l s ys s',
    for_each body l s = Ok (ys, s') -> List.length ys = List.length l.
Proof.
  intros A B body l s ys s' H. apply for_each_Forall2 in H.
  symmetry. eapply Forall2_length; eassumption.
Qed.

Lemma for_each_In :
  forall A B (body : A -> gen B) l s ys s' y,
    for_each body l s = Ok (ys, s') -> In y ys ->
    exists x s1 s2, In x l /\ body x s1 = Ok (y, s2).
Proof.
  intros A B body l s ys s' y H Hy. apply for_each_Forall2 in H.
  induction H as [|x y' l' ys' Hxy _ IH]; [contradiction|].
  destruct Hy as [->|Hy].
  - destruct Hxy as (s1 & s2 & Hb). exists x, s1, s2. split; [left; reflexivity|assumption].
  - destruct (IH Hy) as (x0 & s1 & s2 & Hin & Hb).
    exists x0, s1, s2. split; [right; assumption|assumption].
Qed.

Lemma for_each_nth_error :
  forall A B (body : A -> gen B) l s ys s' k x,
    for_each body l s = Ok (ys, s') -> nth_error l k = Some x ->
    exists y s1 s2, nth_error ys k = Some y /\ body x s1 = Ok (y, s2).
Proof.
  intros A B body l s ys s' k x H. apply for_each_Forall2 in H.
  revert k. induction H as [|x0 y0 l' ys' Hxy _ IH]; intros k Hk.
  - destruct k; discriminate.
  - destruct k as [|k].
    + cbn in Hk. injection Hk as ->.
      destruct Hxy as (s1 & s2 & Hb). exists y0, s1, s2. split; [reflexivity|assumption].
    + cbn in Hk. apply IH in Hk. exact Hk.
Qed.

Lemma for_each_total :
  forall A B (body : A -> gen B) l,
    (forall x s, In x l -> exists y s', body x s = Ok (y, s')) ->
    forall s, exists ys s', for_each body l s = Ok (ys, s').
Proof.
  intros A B body l. induction l as [|x t IH]; intros Hb s.
  - exists [], s. reflexivity.
  - destruct (Hb x s (or_introl eq_refl)) as (y & s1 & Hy).
    destruct (IH (fun x0 s0 Hin => Hb x0 s0 (or_intror Hin)) s1)
      as (ys & s2 & Hys).
    exists (y :: ys), s2. cbn [for_each].
    rewrite (bind_Ok_intro _ _ _ _ _ _ _ Hy).
    rewrite (bind_Ok_intro _ _ _ _ _ _ _ Hys). reflexivity.
Qed.

Lemma for_each_Raise_head :
  forall A B (body : A -> gen B) x t s e,
    body x s = Raise e -> for_each body (x :: t) s = Raise e.
Proof.
  intros A B body x t s e H. cbn [for_each].
  apply bind_Raise_intro. exact H.
Qed.

Lemma rand_below_Ok :
  forall n s j s',
    rand_below n s = Ok (j, s') -> 0 < n -> 0 <= j < n.
Proof.
  intros n s j s' H Hn. unfold rand_below in H.
  pose proof (randbelow_range n s Hn) as Hr.
  destruct (randbelow n s) as [j0 s0]. inversion H; subst. exact Hr.
Qed.

Lemma rand_below_total :
  forall n s, exists j s', rand_below n s = Ok (j, s').
Proof.
  intros n s. unfold rand_below. destruct (randbelow n s) as [j s'].
  exists j, s'. reflexivity.
Qed.

Lemma rand_random_total :
  forall s, exists u s', rand_random s = Ok (u, s').
Proof.
  intros s. unfold rand_random. destruct (random s) as [u s'].
  exists u, s'. reflexivity.
Qed.

Lemma rand_choice_In :
  forall A (seq : list A) s x s',
    rand_choice seq s = Ok (x, s') -> In x seq.
Proof.
  intros A seq s x s' H. unfold rand_choice in H.
  destruct seq as [|a t]; [discriminate|].
  apply bind_Ok in H as (j & s1 & _ & H).
  apply lift_Ok in H as [H _]. eapply py_index_In; eassumption.
Qed.

Lemma rand_choice_total :
  forall A (seq : list A) s,
    seq <> [] -> exists x s', rand_choice seq s = Ok (x, s').
Proof.
  intros A seq s Hne. unfold rand_choice.
  destruct seq as [|a t]; [contradiction|].
  destruct (rand_below_total (Z.of_nat (List.length (a :: t))) s) as (j & s1 & Hj).
  pose proof (rand_below_Ok _ _ _ _ Hj) as Hr.
  destruct (py_index_total _ (a :: t) j) as (x & Hx).
  { apply Hr. cbn [List.length]. lia. }
  exists x, s1. rewrite (bind_Ok_intro _ _ _ _ _ _ _ Hj).
  apply lift_Ok_intro. exact Hx.
Qed.

Lemma rand_randint_Ok :
  forall a b s x s', rand_randint a b s = Ok (x, s') -> a <= x <= b.
Proof.
  intros a b s x s' H. unfold rand_randint in H.
  destruct (Z.ltb_spec 0 (b + 1 - a)) as [Hw|]; [|discriminate].
  apply bind_Ok in H as (j & s1 & Hj & H).
  apply ret_Ok in H as [-> _].
  apply rand_below_Ok in Hj; lia.
Qed.

Lemma rand_randint_total :
  forall a b s, a <= b -> exists x s', rand_randint a b s = Ok (x, s').
Proof.
  intros a b s Hab. unfold rand_randint.
  destruct (Z.ltb_spec 0 (b + 1 - a)) as [Hw|]; [|lia].
  destruct (rand_below_total (b + 1 - a) s) as (j & s1 & Hj).
  exists (a + j), s1. rewrite (bind_Ok_intro _ _ _ _ _ _ _ Hj). reflexivity.
Qed.

Lemma rand_choices_In :
  forall A (population : list A) weights s x s',
    rand_choices population weights s = Ok (x, s') -> In x population.
Proof.
  intros A population weights s x s' H. unfold rand_choices in H.
  destruct (negb _); [discriminate|].
  destruct (accumulate weights) as [|c t]; [discriminate|].
  destruct (Qle_bool _ _); [discriminate|].
  apply bind_Ok in H as (u & s1 & _ & H).
  apply lift_Ok in H as [H _]. eapply py_index_In; eassumption.
Qed.

Lemma rand_choices_total :
  forall A (population : list A) weights s,
    choices_args_ok population weights = true ->
    exists x s', rand_choices population weights s = Ok (x, s').
Proof.
  intros A population weights s Hok.
  unfold choices_args_ok in Hok. apply andb_prop in Hok as [Hlen Hcum].
  unfold rand_choices. rewrite Hlen. cbn [negb].
  destruct (accumulate weights) as [|c t] eqn:Eacc; [discriminate|].
  apply negb_true_iff in Hcum. rewrite Hcum.
  destruct (rand_random_total s) as (u & s1 & Hu).
  rewrite (bind_Ok_intro _ _ _ _ _ _ _ Hu).
  apply Nat.eqb_eq in Hlen.
  destruct (py_index_total _ population
              (Z.of_nat (bisect (c :: t) (u * last (c :: t) c)%Q 0
                           (List.length population - 1)))) as (x & Hx).
  { pose proof (bisect_le (c :: t) (u * last (c :: t) c)%Q
                  (List.length population - 1)).
    cbn [List.length] in Hlen. lia. }
  exists x, s1. apply lift_Ok_intro. exact Hx.
Qed.

End GeneratorFacts.

(** ** [generate_courses] *)

Section CourseFacts.

Context {R : RandomSource}.

Lemma generate_course_name_total :
  forall i s, exists name s', generate_course_name i s = Ok (name, s').
Proof.
  intros i s. unfold generate_course_name.
  destruct (rand_choice_total _ prefixes s) as (p & s1 & Hp); [discriminate|].
  rewrite (bind_Ok_intro _ _ _ _ _ _ _ Hp).
  destruct (rand_randint_total 100 499 s1) as (n & s2 & Hn); [lia|].
  rewrite (bind_Ok_intro _ _ _ _ _ _ _ Hn).
  destruct (rand_random_total s2) as (u & s3 & Hu).
  rewrite (bind_Ok_intro _ _ _ _ _ _ _ Hu).
  destruct (Qltb u 0.3).
  - destruct (rand_choice_total _ suffixes s3) as (x & s4 & Hx); [discriminate|].
    rewrite (bind_Ok_intro _ _ _ _ _ _ _ Hx). eexists _, _. reflexivity.
  - eexists _, _. reflexivity.
Qed.

Lemma generate_course_names_total :
  forall n s, exists names s', _generate_course_names n s = Ok (names, s').
Proof.
  intros n s. unfold _generate_course_names.
  apply for_each_total. intros x s1 _. apply generate_course_name_total.
Qed.

Lemma generate_course_names_length :
  forall n s names s',
    _generate_course_names n s = Ok (names, s') ->
    List.length names = Z.to_nat n.
Proof.
  intros n s names s' H. unfold _generate_course_names in H.
  apply for_each_length in H. rewrite H. apply py_range_length.
Qed.

Lemma level_choices_ok :
  choices_args_ok levels (map (fun l => prob (COURSE_LEVELS l)) levels) = true.
Proof. reflexivity. Qed.

Lemma course_type_choices_ok :
  choices_args_ok course_types (map COURSE_TYPES course_types) = true.
Proof. reflexivity. Qed.

Lemma level_enroll_range : forall l, min_enroll (COURSE_LEVELS l) <= max_enroll (COURSE_LEVELS l).
Proof. intros []; cbn; lia. Qed.

(** What one iteration of the course loop produces. *)
Lemma generate_course_spec :
  forall num_instructors course_names i s c s',
    generate_course num_instructors course_names i s = Ok (c, s') ->
    c_id c = ("COURSE" ++ fmt_0d 3 i)%string
    /\ (exists idx, py_mod i num_instructors = Ok idx
                    /\ c_instructor_id c = ("PROF" ++ fmt_0d 3 idx)%string)
    /\ (c_weekly_hours c = 1.5%Q \/ c_weekly_hours c = 3.0%Q)
    /\ min_enroll (COURSE_LEVELS (c_level c)) <= c_expected_enrollment c
       <= max_enroll (COURSE_LEVELS (c_level c)).
Proof.
  intros ni course_names i s c s' H. unfold generate_course in H.
  apply bind_Ok in H as (lvl & s1 & _ & H).
  apply bind_Ok in H as (enrollment & s2 & Henr & H).
  apply bind_Ok in H as (ctype & s3 & _ & H).
  apply bind_Ok in H as (idx & s4 & Hidx & H).
  apply bind_Ok in H as (hours & s5 & Hhours & H).
  apply bind_Ok in H as (name & s6 & _ & H).
  apply bind_Ok in H as (dept & s7 & _ & H).
  apply ret_Ok in H as [-> _]. cbn.
  apply lift_Ok in Hidx as [Hidx _].
  apply rand_randint_Ok in Henr.
  repeat split; try lia.
  - exists idx. split; [assumption|reflexivity].
  - destruct (level_eqb lvl L100 || level_eqb lvl L200).
    + apply ret_Ok in Hhours as [-> _]. left; reflexivity.
    + apply bind_Ok in Hhours as (u & s8 & _ & Hhours).
      apply ret_Ok in Hhours as [-> _].
      destruct (Qltb u 0.7); [left|right]; reflexivity.
Qed.

Lemma generate_course_total :
  forall num_instructors course_names i s,
    num_instructors <> 0 ->
    0 <= i < Z.of_nat (List.length course_names) ->
    exists c s', generate_course num_instructors course_names i s = Ok (c, s').
Proof.
  intros ni course_names i s Hni Hi. unfold generate_course.
  destruct (rand_choices_total _ _ _ s level_choices_ok) as (lvl & s1 & H1).
  rewrite (bind_Ok_intro _ _ _ _ _ _ _ H1).
  destruct (rand_randint_total _ _ s1 (level_enroll_range lvl)) as (e & s2 & H2).
  rewrite (bind_Ok_intro _ _ _ _ _ _ _ H2).
  destruct (rand_choices_total _ _ _ s2 course_type_choices_ok) as (ct & s3 & H3).
  rewrite (bind_Ok_intro _ _ _ _ _ _ _ H3).
  assert (H4 : lift (py_mod i ni) s3 = Ok (i mod ni, s3)).
  { apply lift_Ok_intro. unfold py_mod.
    destruct (Z.eqb_spec ni 0); [contradiction|reflexivity]. }
  rewrite (bind_Ok_intro _ _ _ _ _ _ _ H4).
  assert (H5 : exists hours s4,
             (if level_eqb lvl L100 || level_eqb lvl L200
              then ret 1.5%Q
              else bind rand_random
                     (fun u => ret (if Qltb u 0.7 then 1.5%Q else 3.0%Q))) s3
             = Ok (hours, s4)).
  { destruct (level_eqb lvl L100 || level_eqb lvl L200).
    - eexists _, _. reflexivity.
    - destruct (rand_random_total s3) as (u & s4 & Hu).
      rewrite (bind_Ok_intro _ _ _ _ _ _ _ Hu). eexists _, _. reflexivity. }
  destruct H5 as (hours & s4 & H5).
  rewrite (bind_Ok_intro _ _ _ _ _ _ _ H5).
  destruct (py_index_total _ course_names i Hi) as (name & Hname).
  rewrite (bind_Ok_intro _ _ _ _ _ _ _ (lift_Ok_intro _ _ _ s4 Hname)).
  destruct (rand_choice_total _ DEPARTMENTS s4) as (d & s5 & H6); [discriminate|].
  rewrite (bind_Ok_intro _ _ _ _ _ _ _ H6).
  eexists _, _. reflexivity.
Qed.

(** With no instructor the first iteration stops at [i % num_instructors]. *)
Lemma generate_course_no_instructor :
  forall course_names i s,
    generate_course 0 course_names i s = Raise ZeroDivisionError.
Proof.
  intros course_names i s. unfold generate_course.
  destruct (rand_choices_total _ _ _ s level_choices_ok) as (lvl & s1 & H1).
  rewrite (bind_Ok_intro _ _ _ _ _ _ _ H1).
  destruct (rand_randint_total _ _ s1 (level_enroll_range lvl)) as (e & s2 & H2).
  rewrite (bind_Ok_intro _ _ _ _ _ _ _ H2).
  destruct (rand_choices_total _ _ _ s2 course_type_choices_ok) as (ct & s3 & H3).
  rewrite (bind_Ok_intro _ _ _ _ _ _ _ H3).
  reflexivity.
Qed.

Lemma generate_courses_total :
  forall num_courses num_instructors s,
    num_instructors <> 0 ->
    exists cs s', generate_courses num_courses num_instructors s = Ok (cs, s').
Proof.
  intros nc ni s Hni. unfold generate_courses.
  destruct (generate_course_names_total nc s) as (names & s1 & Hn).
  rewrite (bind_Ok_intro _ _ _ _ _ _ _ Hn).
  apply generate_course_names_length in Hn.
  apply for_each_total. intros i s2 Hi.
  apply generate_course_total; [assumption|].
  apply py_range_In in Hi. lia.
Qed.

Lemma generate_courses_length :
  forall num_courses num_instructors s cs s',
    generate_courses num_courses num_instructors s = Ok (cs, s') ->
    List.length cs = Z.to_nat num_courses.
Proof.
  intros nc ni s cs s' H. unfold generate_courses in H.
  apply bind_Ok in H as (names & s1 & _ & H).
  apply for_each_length in H. rewrite H. apply py_range_length.
Qed.

(** The [i]-th course of the catalog is the one iteration [i] built. *)
Lemma generate_courses_nth :
  forall num_courses num_instructors s cs s' i,
    generate_courses num_courses num_instructors s = Ok (cs, s') ->
    0 <= i < num_courses ->
    exists c names s1 s2,
      nth_error cs (Z.to_nat i) = Some c
      /\ generate_course num_instructors names i s1 = Ok (c, s2).
Proof.
  intros nc ni s cs s' i H Hi. unfold generate_courses in H.
  apply bind_Ok in H as (names & s1 & _ & H).
  destruct (for_each_nth_error _ _ _ _ _ _ _ _ _ H (py_range_nth_error nc i Hi))
    as (c & s2 & s3 & Hc & Hb).
  exists c, names, s2, s3. split; assumption.
Qed.

Lemma generate_courses_In :
  forall num_courses num_instructors s cs s' c,
    generate_courses num_courses num_instructors s = Ok (cs, s') ->
    In c cs ->
    exists i names s1 s2,
      0 <= i < num_courses
      /\ generate_course num_instructors names i s1 = Ok (c, s2).
Proof.
  intros nc ni s cs s' c H Hc. unfold generate_courses in H.
  apply bind_Ok in H as (names & s1 & _ & H).
  destruct (for_each_In _ _ _ _ _ _ _ _ H Hc) as (i & s2 & s3 & Hi & Hb).
  apply py_range_In in Hi. exists i, names, s2, s3. split; assumption.
Qed.

(** C7.  With at least one instructor, [generate_courses] returns
    [num_courses] courses, and the course at index [i] is owned by
    instructor number [i mod num_instructors]: its [instructor_id] is
    ["PROF"] followed by that number zero-padded to three digits. *)
Theorem generate_courses_round_robin :
  forall num_courses num_instructors s,
    1 <= num_instructors ->
    exists cs s',
      generate_courses num_courses num_instructors s = Ok (cs, s')
      /\ List.length cs = Z.to_nat num_courses
      /\ forall i, 0 <= i < num_courses ->
           exists c,
             nth_error cs (Z.to_nat i) = Some c
             /\ c_instructor_id c
                = ("PROF" ++ fmt_0d 3 (i mod num_instructors))%string.
Proof.
  intros nc ni s Hni.
  destruct (generate_courses_total nc ni s) as (cs & s' & H); [lia|].
  exists cs, s'. split; [exact H|]. split.
  - eapply generate_courses_length; eassumption.
  - intros i Hi.
    destruct (generate_courses_nth _ _ _ _ _ i H Hi)
      as (c & names & s1 & s2 & Hc & Hb).
    exists c. split; [exact Hc|].
    apply generate_course_spec in Hb as (_ & (idx & Hidx & Hid) & _).
    unfold py_mod in Hidx.
    destruct (Z.eqb_spec ni 0); [lia|]. injection Hidx as <-. exact Hid.
Qed.

(** C6, as the code behaves.  With [num_instructors = 0] and at least one
    course, [generate_courses] returns no catalog: the first iteration
    raises the interpreter's [ZeroDivisionError] at
    [i % num_instructors]. *)
Theorem generate_courses_zero_instructors :
  forall num_courses s,
    0 < num_courses ->
    generate_courses num_courses 0 s = Raise ZeroDivisionError.
Proof.
  intros nc s Hnc. unfold generate_courses.
  destruct (generate_course_names_total nc s) as (names & s1 & Hn).
  rewrite (bind_Ok_intro _ _ _ _ _ _ _ Hn).
  unfold py_range. destruct (Z.to_nat nc) as [|k] eqn:Ek; [lia|].
  cbn [seq map]. apply for_each_Raise_head.
  apply generate_course_no_instructor.
Qed.

End CourseFacts.

(** ** [random.sample] *)

Lemma list_set_length :
  forall A j (v : A) l, List.length (list_set j v l) = List.length l.
Proof.
  intros A j v l. revert j. induction l as [|x t IH]; intros [|j]; cbn;
    try reflexivity. rewrite IH. reflexivity.
Qed.

Lemma firstn_S_nth :
  forall A (d : A) k l,
    (k < List.length l)%nat -> firstn (S k) l = firstn k l ++ [nth k l d].
Proof.
  intros A d k. induction k as [|k IH]; intros [|x t] Hk; cbn in Hk; try lia.
  - reflexivity.
  - change (x :: firstn (S k) t = x :: (firstn k t ++ [nth k t d])).
    f_equal. apply IH. lia.
Qed.

(** One step of the pool: the live prefix is the pick plus the new live
    prefix, up to order. *)
Lemma pool_step_Permutation :
  forall A (d : A) j m pool,
    (j <= m)%nat -> (m < List.length pool)%nat ->
    Permutation (firstn (S m) pool)
      (nth j pool d :: firstn m (list_set j (nth m pool d) pool)).
Proof.
  intros A d j. induction j as [|j IH]; intros m pool Hj Hm.
  - destruct pool as [|a t]; [cbn in Hm; lia|].
    cbn [nth list_set]. destruct m as [|m].
    + cbn. apply Permutation_refl.
    + change (Permutation (a :: firstn (S m) t)
                (a :: nth m t d :: firstn m t)).
      apply perm_skip.
      rewrite (firstn_S_nth _ d) by (cbn in Hm; lia).
      apply Permutation_sym, Permutation_cons_append.
  - destruct pool as [|a t]; [cbn in Hm; lia|].
    destruct m as [|m]; [lia|].
    change (Permutation (a :: firstn (S m) t)
              (nth j t d :: a :: firstn m (list_set j (nth m t d) t))).
    eapply perm_trans; [|apply perm_swap]. apply perm_skip.
    apply IH; [lia|cbn in Hm; lia].
Qed.

Section SampleFacts.

Context {R : RandomSource}.

Lemma sample_loop_spec :
  forall A (d : A) n todo i pool s res s',
    sample_loop d n pool i todo s = Ok (res, s') ->
    (i + todo <= n)%nat -> (n <= List.length pool)%nat ->
    NoDup (firstn (n - i) pool) ->
    NoDup res /\ incl res (firstn (n - i) pool) /\ List.length res = todo.
Proof.
  intros A d n todo. induction todo as [|todo IH];
    intros i pool s res s' H Hi Hn Hnd.
  - apply ret_Ok in H as [-> _].
    split; [constructor|]. split; [intros x []|reflexivity].
  - cbn [sample_loop] in H.
    apply bind_Ok in H as (j & s1 & Hj & H).
    apply bind_Ok in H as (rest & s2 & Hrest & H).
    apply ret_Ok in H as [-> _].
    apply rand_below_Ok in Hj; [|lia].
    assert (Hn1 : (n - i = S (n - i - 1))%nat) by lia.
    pose proof (pool_step_Permutation _ d (Z.to_nat j) (n - i - 1) pool) as Hperm.
    rewrite <- Hn1 in Hperm.
    specialize (Hperm ltac:(lia) ltac:(lia)).
    assert (Hnd' := Permutation_NoDup Hperm Hnd).
    apply NoDup_cons_iff in Hnd' as [Hnotin Hnd'].
    apply IH in Hrest; [| lia | rewrite list_set_length; lia
                        | replace (n - S i)%nat with (n - i - 1)%nat by lia;
                          exact Hnd'].
    replace (n - S i)%nat with (n - i - 1)%nat in Hrest by lia.
    destruct Hrest as (Hnd_rest & Hincl & Hlen).
    split; [|split].
    + constructor; [|exact Hnd_rest]. intro Hin. apply Hnotin, Hincl, Hin.
    + intros x [<-|Hx].
      * eapply Permutation_in; [apply Permutation_sym, Hperm|]. left; reflexivity.
      * eapply Permutation_in; [apply Permutation_sym, Hperm|].
        right. apply Hincl, Hx.
    + cbn [List.length]. rewrite Hlen. reflexivity.
Qed.

Lemma sample_loop_total :
  forall A (d : A) n todo i pool s,
    exists res s', sample_loop d n pool i todo s = Ok (res, s').
Proof.
  intros A d n todo. induction todo as [|todo IH]; intros i pool s.
  - eexists _, _. reflexivity.
  - cbn [sample_loop].
    destruct (rand_below_total (Z.of_nat (n - i)) s) as (j & s1 & Hj).
    rewrite (bind_Ok_intro _ _ _ _ _ _ _ Hj).
    destruct (IH (S i)
                (list_set (Z.to_nat j) (nth (n - i - 1) pool d) pool) s1)
      as (rest & s2 & Hrest).
    rewrite (bind_Ok_intro _ _ _ _ _ _ _ Hrest).
    eexists _, _. reflexivity.
Qed.

(** [sample] returns [k] distinct elements of a duplicate-free population. *)
Lemma rand_sample_spec :
  forall A (population : list A) k s res s',
    rand_sample population k s = Ok (res, s') ->
    NoDup population ->
    NoDup res /\ incl res population /\ Z.of_nat (List.length res) = k.
Proof.
  intros A population k s res s' H Hnd. unfold rand_sample in H.
  destruct (Z.leb_spec 0 k) as [Hk0|]; [|discriminate].
  destruct (Z.leb_spec k (Z.of_nat (List.length population))) as [Hkn|];
    [|discriminate].
  cbn [andb] in H. destruct population as [|d t] eqn:Epop.
  - apply ret_Ok in H as [-> _]. cbn in Hkn.
    split; [constructor|]. split; [intros x []|cbn; lia].
  - rewrite <- Epop in *.
    apply sample_loop_spec in H; [| lia | lia
                                   | rewrite Nat.sub_0_r, firstn_all; exact Hnd].
    rewrite Nat.sub_0_r, firstn_all in H.
    destruct H as (H1 & H2 & H3). repeat split; [assumption..|lia].
Qed.

Lemma rand_sample_total :
  forall A (population : list A) k s,
    0 <= k <= Z.of_nat (List.length population) ->
    exists res s', rand_sample population k s = Ok (res, s').
Proof.
  intros A population k s Hk. unfold rand_sample.
  destruct (Z.leb_spec 0 k); [|lia].
  destruct (Z.leb_spec k (Z.of_nat (List.length population))); [|lia].
  cbn [andb]. destruct population as [|d t].
  - eexists _, _. reflexivity.
  - apply sample_loop_total.
Qed.

End SampleFacts.

(** ** [generate_instructors] *)

Lemma string_in_In : forall x l, string_in x l = true <-> In x l.
Proof.
  intros x l. unfold string_in. rewrite existsb_exists. split.
  - intros (y & Hy & Heq). apply String.eqb_eq in Heq. subst. exact Hy.
  - intros H. exists x. split; [exact H|apply String.eqb_refl].
Qed.

Lemma weekdays_NoDup : NoDup weekdays.
Proof.
  unfold weekdays.
  repeat (constructor; [cbn; intuition discriminate|]). constructor.
Qed.

Lemma day_slots_In :
  forall d periods sl,
    In sl (day_slots d periods) <-> day sl = d /\ In (period_index sl) periods.
Proof.
  intros d periods sl. unfold day_slots. rewrite in_map_iff. split.
  - intros (p & <- & Hp). cbn. split; [reflexivity|exact Hp].
  - intros [Hd Hp]. exists (period_index sl). split; [|exact Hp].
    destruct sl as [d0 p0]. cbn in *. subst. reflexivity.
Qed.

Lemma day_slots_NoDup :
  forall d periods, NoDup periods -> NoDup (day_slots d periods).
Proof.
  intros d periods Hnd. unfold day_slots.
  apply Finite.Injective_map_NoDup; [|exact Hnd].
  intros a b Hab. injection Hab as ->. reflexivity.
Qed.

Lemma day_block_full_day : forall d, day_block d (full_day d).
Proof.
  intro d. exists 0, 20. repeat split; lia.
Qed.

(** A list of blocks over distinct days is a set of slots on those days. *)
Lemma day_blocks_spec :
  forall days blocks,
    Forall2 day_block days blocks -> NoDup days ->
    NoDup (List.concat blocks)
    /\ (forall sl, In sl (List.concat blocks) ->
          In (day sl) days /\ 0 <= period_index sl <= 19)
    /\ (forall d, In d days ->
          exists p, In {| day := d; period_index := p |} (List.concat blocks)).
Proof.
  intros days blocks H. induction H as [|d b days blocks Hb _ IH]; intros Hnd.
  - cbn. split; [constructor|]. split; [intros sl []|intros d []].
  - apply NoDup_cons_iff in Hnd as [Hd Hnd].
    destruct (IH Hnd) as (IH1 & IH2 & IH3).
    destruct Hb as (lo & hi & Hlo & Hlt & Hhi & ->).
    cbn [List.concat]. split; [|split].
    + apply NoDup_app.
      * apply day_slots_NoDup, py_range2_NoDup.
      * exact IH1.
      * intros sl Hin Hin'. apply day_slots_In in Hin as [Hday _].
        apply IH2 in Hin' as [Hin' _]. rewrite Hday in Hin'. contradiction.
    + intros sl Hin. apply in_app_or in Hin as [Hin|Hin].
      * apply day_slots_In in Hin as [Hday Hp].
        apply py_range2_In in Hp. split; [left; symmetry; exact Hday|lia].
      * apply IH2 in Hin as [Hin Hp]. split; [right; exact Hin|exact Hp].
    + intros d0 [<-|Hin].
      * exists lo. apply in_or_app. left. apply day_slots_In. cbn.
        split; [reflexivity|]. apply py_range2_In. lia.
      * destruct (IH3 d0 Hin) as (p & Hp). exists p.
        apply in_or_app. right. exact Hp.
Qed.

Lemma full_day_length : forall d, List.length (full_day d) = 20%nat.
Proof.
  intro d. unfold full_day, day_slots. rewrite length_map, py_range2_length.
  reflexivity.
Qed.

Lemma concat_full_days_length :
  forall used,
    Z.of_nat (List.length (List.concat (map full_day used)))
    = 20 * Z.of_nat (List.length used).
Proof.
  induction used as [|d used IH]; [reflexivity|].
  cbn [map List.concat List.length]. rewrite length_app, full_day_length. lia.
Qed.

(** The top-up loop appends full days for a prefix of the remaining days,
    and stops early only once the minimum is reached. *)
Lemma top_up_spec :
  forall min_periods_needed remaining_days availability total,
    exists used rest,
      remaining_days = used ++ rest
      /\ top_up min_periods_needed remaining_days availability total
         = availability ++ List.concat (map full_day used)
      /\ (rest = []
          \/ min_periods_needed <= total + 20 * Z.of_nat (List.length used)).
Proof.
  intros mn remaining. induction remaining as [|d r IH]; intros avail total.
  - exists [], []. cbn. rewrite app_nil_r. repeat split. left; reflexivity.
  - cbn [top_up]. destruct (Z.ltb_spec total mn) as [Hlt|Hge].
    + destruct (IH (avail ++ day_slots d (py_range2 0 20)) (total + 20))
        as (used & rest & Hrem & Htop & Hstop).
      exists (d :: used), rest. split; [cbn; f_equal; exact Hrem|]. split.
      * rewrite Htop. cbn [map List.concat]. rewrite <- app_assoc. reflexivity.
      * destruct Hstop as [->|Hstop]; [left; reflexivity|right].
        cbn [List.length]. lia.
    + exists [], (d :: r). cbn. rewrite app_nil_r. repeat split. right. lia.
Qed.

Section InstructorFacts.

Context {R : RandomSource}.

Lemma day_period_range_spec :
  forall n s pr s',
    day_period_range n s = Ok (pr, s') ->
    exists lo hi, 0 <= lo /\ lo < hi /\ hi <= 20 /\ pr = py_range2 lo hi.
Proof.
  intros n s pr s' H. unfold day_period_range in H.
  apply bind_Ok in H as (u1 & s1 & _ & H).
  destruct (Qltb u1 0.2).
  - apply ret_Ok in H as [-> _].
    destruct (n <=? 2); [exists 0, 12|exists 0, 18]; repeat split; lia.
  - apply bind_Ok in H as (u2 & s2 & _ & H).
    destruct (Qltb u2 0.2).
    + apply ret_Ok in H as [-> _].
      destruct (n <=? 2); [exists 6, 20|exists 0, 18]; repeat split; lia.
    + apply ret_Ok in H as [-> _]. exists 0, 20. repeat split; lia.
Qed.

Lemma day_period_range_total :
  forall n s, exists pr s', day_period_range n s = Ok (pr, s').
Proof.
  intros n s. unfold day_period_range.
  destruct (rand_random_total s) as (u1 & s1 & H1).
  rewrite (bind_Ok_intro _ _ _ _ _ _ _ H1).
  destruct (Qltb u1 0.2); [eexists _, _; reflexivity|].
  destruct (rand_random_total s1) as (u2 & s2 & H2).
  rewrite (bind_Ok_intro _ _ _ _ _ _ _ H2).
  destruct (Qltb u2 0.2); eexists _, _; reflexivity.
Qed.

Lemma per_day_blocks :
  forall n days s per_day s',
    for_each (fun d => bind (day_period_range n)
                         (fun period_range => ret (day_slots d period_range)))
             days s = Ok (per_day, s') ->
    Forall2 day_block days per_day.
Proof.
  intros n days s per_day s' H. apply for_each_Forall2 in H.
  eapply Forall2_impl; [|exact H].
  intros d b (s1 & s2 & Hb).
  apply bind_Ok in Hb as (pr & s3 & Hpr & Hb).
  apply ret_Ok in Hb as [-> _].
  apply day_period_range_spec in Hpr as (lo & hi & ? & ? & ? & ->).
  exists lo, hi. repeat split; assumption.
Qed.

(** What one iteration of the instructor loop produces. *)
Lemma generate_instructor_spec :
  forall load i s inst s',
    generate_instructor load i s = Ok (inst, s') ->
    i_id inst = ("PROF" ++ fmt_0d 3 i)%string
    /\ exists days blocks,
         NoDup days /\ incl days weekdays
         /\ Forall2 day_block days blocks
         /\ i_availability inst = List.concat blocks
         /\ (Z.max (py_int (dict_get_default (snd load) (i_id inst) 0%Q * 2)%Q * 3) 30
             <= Z.of_nat (List.length (i_availability inst))
             \/ forall d, In d weekdays -> In d days).
Proof.
  intros [cpi thpi] i s inst s' H. unfold generate_instructor in H.
  apply bind_Ok in H as (first & s1 & _ & H).
  apply bind_Ok in H as (last & s2 & _ & H).
  apply bind_Ok in H as (k & s3 & Hk & H).
  apply bind_Ok in H as (available_days & s4 & Hdays & H).
  apply bind_Ok in H as (per_day & s5 & Hper & H).
  apply bind_Ok in H as (b2b & s6 & _ & H).
  apply bind_Ok in H as (u & s7 & _ & H).
  apply bind_Ok in H as (dept & s8 & _ & H).
  apply ret_Ok in H as [-> _]. cbn [i_id i_availability snd].
  split; [reflexivity|].
  apply rand_sample_spec in Hdays as (Hnd & Hincl & _); [|apply weekdays_NoDup].
  apply per_day_blocks in Hper.
  set (hours := dict_get_default thpi ("PROF" ++ fmt_0d 3 i)%string 0%Q) in *.
  set (mn := Z.max (py_int (hours * 2)%Q * 3) 30) in *.
  destruct (Z.ltb_spec (Z.of_nat (List.length (List.concat per_day))) mn)
    as [Hlt|Hge].
  - set (remaining := filter (fun d => negb (string_in d available_days)) weekdays).
    destruct (top_up_spec mn remaining (List.concat per_day)
                (Z.of_nat (List.length (List.concat per_day))))
      as (used & rest & Hrem & Htop & Hstop).
    rewrite Htop.
    assert (Hnd_rem : NoDup remaining)
      by (apply NoDup_filter, weekdays_NoDup).
    rewrite Hrem in Hnd_rem.
    assert (Hused : forall d, In d used -> In d weekdays /\ ~ In d available_days).
    { intros d Hd.
      assert (Hin : In d remaining) by (rewrite Hrem; apply in_or_app; left; exact Hd).
      apply filter_In in Hin as [Hw Hn]. split; [exact Hw|].
      intro Hc. apply string_in_In in Hc. rewrite Hc in Hn. discriminate. }
    exists (available_days ++ used), (per_day ++ map full_day used).
    split; [|split; [|split; [|split]]].
    + apply NoDup_app; [exact Hnd| |].
      * eapply NoDup_app_remove_r; exact Hnd_rem.
      * intros d Hd1 Hd2. apply Hused in Hd2 as [_ Hd2]. contradiction.
    + intros d Hd. apply in_app_or in Hd as [Hd|Hd];
        [apply Hincl, Hd|apply Hused, Hd].
    + apply Forall2_app; [exact Hper|].
      clear. induction used as [|d used IH]; constructor;
        [apply day_block_full_day|exact IH].
    + rewrite concat_app. reflexivity.
    + destruct Hstop as [->|Hstop].
      * right. intros d Hd. apply in_or_app.
        destruct (string_in d available_days) eqn:Ein.
        -- left. apply string_in_In. exact Ein.
        -- right. rewrite app_nil_r in Hrem. rewrite <- Hrem.
           apply filter_In. split; [exact Hd|]. rewrite Ein. reflexivity.
      * left. rewrite length_app, Nat2Z.inj_add, concat_full_days_length.
        exact Hstop.
  - exists available_days, per_day.
    split; [exact Hnd|]. split; [exact Hincl|]. split; [exact Hper|].
    split; [reflexivity|]. left. exact Hge.
Qed.

Lemma b2b_choices_ok : choices_args_ok [-1; 0; 1] [0.3; 0.5; 0.2]%Q = true.
Proof. reflexivity. Qed.

Lemma generate_instructor_total :
  forall load i s, exists inst s', generate_instructor load i s = Ok (inst, s').
Proof.
  intros [cpi thpi] i s. unfold generate_instructor.
  destruct (rand_choice_total _ first_names s) as (f & s1 & H1); [discriminate|].
  rewrite (bind_Ok_intro _ _ _ _ _ _ _ H1).
  destruct (rand_choice_total _ last_names s1) as (l & s2 & H2); [discriminate|].
  rewrite (bind_Ok_intro _ _ _ _ _ _ _ H2).
  destruct (rand_choice_total _ [4; 5] s2) as (k & s3 & H3); [discriminate|].
  rewrite (bind_Ok_intro _ _ _ _ _ _ _ H3).
  destruct (rand_sample_total _ weekdays k s3) as (days & s4 & H4).
  { apply rand_choice_In in H3. cbn in H3. cbn. lia. }
  rewrite (bind_Ok_intro _ _ _ _ _ _ _ H4).
  match goal with
  | |- context [for_each ?body days] =>
      destruct (for_each_total _ _ body days) with (s := s4)
        as (per_day & s5 & H5)
  end.
  { intros d s0 _.
    destruct (day_period_range_total
                (dict_get_default cpi ("PROF" ++ fmt_0d 3 i)%string 0) s0)
      as (pr & s0' & Hpr).
    rewrite (bind_Ok_intro _ _ _ _ _ _ _ Hpr). eexists _, _. reflexivity. }
  rewrite (bind_Ok_intro _ _ _ _ _ _ _ H5).
  destruct (rand_choices_total _ _ _ s5 b2b_choices_ok) as (b & s6 & H6).
  rewrite (bind_Ok_intro _ _ _ _ _ _ _ H6).
  destruct (rand_random_total s6) as (u & s7 & H7).
  rewrite (bind_Ok_intro _ _ _ _ _ _ _ H7).
  destruct (rand_choice_total _ DEPARTMENTS s7) as (d & s8 & H8); [discriminate|].
  rewrite (bind_Ok_intro _ _ _ _ _ _ _ H8).
  eexists _, _. reflexivity.
Qed.

Lemma generate_instructors_total :
  forall num_instructors num_courses courses s,
    exists instructors s',
      generate_instructors num_instructors num_courses courses s
      = Ok (instructors, s').
Proof.
  intros ni nc cs s. unfold generate_instructors.
  apply for_each_total. intros i s0 _. apply generate_instructor_total.
Qed.

Lemma generate_instructors_In :
  forall num_instructors num_courses courses s instructors s' inst,
    generate_instructors num_instructors num_courses courses s
    = Ok (instructors, s') ->
    In inst instructors ->
    exists i s1 s2,
      0 <= i < num_instructors
      /\ generate_instructor (teaching_load courses) i s1 = Ok (inst, s2).
Proof.
  intros ni nc cs s instructors s' inst H Hin. unfold generate_instructors in H.
  destruct (for_each_In _ _ _ _ _ _ _ _ H Hin) as (i & s1 & s2 & Hi & Hb).
  apply py_range_In in Hi. exists i, s1, s2. split; assumption.
Qed.

(** Every index below [num_instructors] has its instructor record. *)
Lemma generate_instructors_ids :
  forall num_instructors num_courses courses s instructors s' i,
    generate_instructors num_instructors num_courses courses s
    = Ok (instructors, s') ->
    0 <= i < num_instructors ->
    exists inst,
      In inst instructors /\ i_id inst = ("PROF" ++ fmt_0d 3 i)%string.
Proof.
  intros ni nc cs s instructors s' i H Hi. unfold generate_instructors in H.
  destruct (for_each_nth_error _ _ _ _ _ _ _ _ _ H (py_range_nth_error ni i Hi))
    as (inst & s1 & s2 & Hnth & Hb).
  exists inst. split; [eapply nth_error_In; exact Hnth|].
  apply generate_instructor_spec in Hb as [Hid _]. exact Hid.
Qed.

End InstructorFacts.

(** ** Dictionaries and the teaching load *)

Lemma dict_get_set :
  forall V (d : dict V) k v k',
    dict_get (dict_set d k v) k'
    = if String.eqb k' k then Some v else dict_get d k'.
Proof.
  intros V d k v k'. induction d as [|[k0 v0] t IH].
  - cbn. reflexivity.
  - cbn [dict_set]. destruct (String.eqb_spec k k0) as [->|Hne].
    + cbn [dict_get]. destruct (String.eqb k' k0); reflexivity.
    + cbn [dict_get]. rewrite IH.
      destruct (String.eqb_spec k' k0) as [->|Hne'].
      * destruct (String.eqb_spec k0 k); [congruence|reflexivity].
      * reflexivity.
Qed.

Lemma dict_get_default_set :
  forall V (d : dict V) k v k' dflt,
    dict_get_default (dict_set d k v) k' dflt
    = if String.eqb k' k then v else dict_get_default d k' dflt.
Proof.
  intros V d k v k' dflt. unfold dict_get_default. rewrite dict_get_set.
  destruct (String.eqb k' k); reflexivity.
Qed.

(** [total_hours_per_instructor.get(inst_id, 0)] is the left-to-right sum
    of the weekly hours of the courses of [inst_id]. *)
Lemma teaching_load_hours_from :
  forall courses load inst_id,
    dict_get_default (snd (fold_left add_teaching_load courses load)) inst_id 0%Q
    = fold_left Qplus
        (map c_weekly_hours
           (filter (fun c => String.eqb (c_instructor_id c) inst_id) courses))
        (dict_get_default (snd load) inst_id 0%Q).
Proof.
  intro cs. induction cs as [|c t IH]; intros [d1 d2] inst_id; [reflexivity|].
  cbn [fold_left filter]. rewrite IH. cbn [add_teaching_load snd].
  rewrite dict_get_default_set. rewrite (String.eqb_sym inst_id).
  destruct (String.eqb (c_instructor_id c) inst_id) eqn:E.
  - apply String.eqb_eq in E. subst inst_id. reflexivity.
  - reflexivity.
Qed.

Lemma teaching_load_hours :
  forall courses inst_id,
    dict_get_default (snd (teaching_load courses)) inst_id 0%Q
    = required_hours courses inst_id.
Proof.
  intros courses inst_id. unfold teaching_load.
  rewrite teaching_load_hours_from. reflexivity.
Qed.

(** A sum of weekly hours, each 1.5 or 3.0, is a whole number of
    half-hours, at least three per course. *)
Lemma half_hours_sum :
  forall l acc n0,
    Forall (fun w => w = 1.5%Q \/ w = 3.0%Q) l ->
    (acc * 2 == inject_Z n0)%Q ->
    exists n,
      n0 + 3 * Z.of_nat (List.length l) <= n
      /\ (fold_left Qplus l acc * 2 == inject_Z n)%Q.
Proof.
  induction l as [|w t IH]; intros acc n0 Hall Hacc.
  - exists n0. cbn. split; [lia|exact Hacc].
  - inversion Hall as [|? ? Hw Ht]; subst.
    cbn [fold_left List.length].
    destruct Hw as [-> | ->].
    + destruct (IH (acc + 1.5)%Q (n0 + 3) Ht) as (n & Hn & Heq).
      { rewrite inject_Z_plus. change (inject_Z 3) with 3%Q.
        generalize dependent (inject_Z n0). intros; lra. }
      exists n. split; [lia|exact Heq].
    + destruct (IH (acc + 3.0)%Q (n0 + 6) Ht) as (n & Hn & Heq).
      { rewrite inject_Z_plus. change (inject_Z 6) with 6%Q.
        generalize dependent (inject_Z n0). intros; lra. }
      exists n. split; [lia|exact Heq].
Qed.

Lemma py_int_inject_Z :
  forall q n, (q == inject_Z n)%Q -> py_int q = n.
Proof.
  intros [a b] n H. unfold py_int, Qeq in *. cbn in *.
  rewrite Z.mul_1_r in H. subst a. apply Z.quot_mul. discriminate.
Qed.

(** ** Zero-padded numbers are read back unambiguously *)

Lemma uint_of_string_zeros :
  forall k s u,
    NilEmpty.uint_of_string s = Some u ->
    exists u',
      NilEmpty.uint_of_string (String.append (zeros k) s) = Some u'
      /\ N.of_uint u' = N.of_uint u.
Proof.
  induction k as [|k IH]; intros s u Hs.
  - exists u. split; [exact Hs|reflexivity].
  - destruct (IH s u Hs) as (u' & Hu' & Heq).
    exists (Decimal.D0 u'). split.
    + cbn [zeros String.append NilEmpty.uint_of_string]. rewrite Hu'. reflexivity.
    + exact Heq.
Qed.

Lemma fmt_0d_inj :
  forall width a b,
    0 <= a -> 0 <= b -> fmt_0d width a = fmt_0d width b -> a = b.
Proof.
  intros width a b Ha Hb H. unfold fmt_0d in H.
  destruct (Z.ltb_spec a 0); [lia|]. destruct (Z.ltb_spec b 0); [lia|].
  unfold digits in H.
  destruct (uint_of_string_zeros
              (width - String.length (NilEmpty.string_of_uint (N.to_uint (Z.abs_N a))))
              _ _ (NilEmpty.usu (N.to_uint (Z.abs_N a)))) as (ua & Hua & Ea).
  destruct (uint_of_string_zeros
              (width - String.length (NilEmpty.string_of_uint (N.to_uint (Z.abs_N b))))
              _ _ (NilEmpty.usu (N.to_uint (Z.abs_N b)))) as (ub & Hub & Eb).
  rewrite H in Hua. rewrite Hua in Hub. injection Hub as ->.
  rewrite Ea in Eb. rewrite !Unsigned.of_to in Eb. lia.
Qed.

Lemma append_inj_l :
  forall p a b, String.append p a = String.append p b -> a = b.
Proof.
  induction p as [|c p IH]; intros a b H; cbn in H.
  - exact H.
  - injection H as H. apply IH, H.
Qed.

(** ** [generate_classrooms] *)

Lemma fold_max_ge :
  forall l x, x <= fold_left Z.max l x /\ forall y, In y l -> y <= fold_left Z.max l x.
Proof.
  induction l as [|a t IH]; intros x; cbn [fold_left].
  - split; [lia|intros y []].
  - destruct (IH (Z.max x a)) as [H1 H2]. split; [lia|].
    intros y [<-|Hy]; [lia|apply H2, Hy].
Qed.

Lemma fold_max_In :
  forall l x, fold_left Z.max l x = x \/ In (fold_left Z.max l x) l.
Proof.
  induction l as [|a t IH]; intros x; cbn [fold_left].
  - left; reflexivity.
  - destruct (IH (Z.max x a)) as [H|H].
    + rewrite H. destruct (Z.max_spec x a) as [[_ ->]|[_ ->]];
        [right; left; reflexivity|left; reflexivity].
    + right; right; exact H.
Qed.

Lemma py_max_ge :
  forall l m y, py_max l = Ok m -> In y l -> y <= m.
Proof.
  intros [|x t] m y H Hy; [discriminate|]. injection H as <-.
  destruct (fold_max_ge t x) as [H1 H2].
  destruct Hy as [<-|Hy]; [exact H1|apply H2, Hy].
Qed.

Lemma py_max_In : forall l m, py_max l = Ok m -> In m l.
Proof.
  intros [|x t] m H; [discriminate|]. injection H as <-.
  destruct (fold_max_In t x) as [->|Hin]; [left; reflexivity|right; exact Hin].
Qed.

Lemma py_max_total : forall l, l <> [] -> exists m, py_max l = Ok m.
Proof.
  intros [|x t] H; [contradiction|]. eexists. reflexivity.
Qed.

Section ClassroomFacts.

Context {R : RandomSource}.

Lemma capacity_choices_ok :
  choices_args_ok capacity_distribution (map snd capacity_distribution) = true.
Proof. reflexivity. Qed.

(** The first three rooms are at least as large as the largest course. *)
Lemma generate_classroom_spec :
  forall max_enrollment i s r s',
    generate_classroom max_enrollment i s = Ok (r, s') ->
    r_id r = ("ROOM" ++ fmt_0d 3 i)%string
    /\ (i < 3 -> Z.max 120 max_enrollment <= r_capacity r).
Proof.
  intros m i s r s' H. unfold generate_classroom in H.
  apply bind_Ok in H as (building & s1 & _ & H).
  apply bind_Ok in H as (room_num & s2 & _ & H).
  apply bind_Ok in H as (capacity & s3 & Hcap & H).
  apply ret_Ok in H as [-> _]. cbn [r_id r_capacity].
  split; [reflexivity|]. intro Hi.
  destruct (Z.ltb_spec i 3); [|lia].
  apply rand_randint_Ok in Hcap. lia.
Qed.

Lemma generate_classroom_total :
  forall max_enrollment i s,
    exists r s', generate_classroom max_enrollment i s = Ok (r, s').
Proof.
  intros m i s. unfold generate_classroom.
  destruct (rand_choice_total _ buildings s) as (b & s1 & H1); [discriminate|].
  rewrite (bind_Ok_intro _ _ _ _ _ _ _ H1).
  destruct (rand_randint_total 100 599 s1) as (n & s2 & H2); [lia|].
  rewrite (bind_Ok_intro _ _ _ _ _ _ _ H2).
  assert (H3 : exists capacity s3,
             (if i <? 3
              then rand_randint (Z.max 120 m) (Z.max 250 (m + 50))
              else bind (rand_choices capacity_distribution
                           (map snd capacity_distribution))
                     (fun bucket =>
                        let '(cap_min, cap_max, _) := bucket in
                        rand_randint cap_min cap_max)) s2
             = Ok (capacity, s3)).
  { destruct (i <? 3).
    - apply rand_randint_total. lia.
    - destruct (rand_choices_total _ _ _ s2 capacity_choices_ok)
        as (bucket & s3 & Hb).
      rewrite (bind_Ok_intro _ _ _ _ _ _ _ Hb).
      apply rand_choices_In in Hb.
      destruct bucket as [[cap_min cap_max] w].
      apply rand_randint_total.
      cbn in Hb.
      repeat (destruct Hb as [Hb|Hb]; [injection Hb as <- <- <-; lia|]).
      contradiction. }
  destruct H3 as (capacity & s3 & H3).
  rewrite (bind_Ok_intro _ _ _ _ _ _ _ H3).
  eexists _, _. reflexivity.
Qed.

(** A returned inventory is non-empty, for a non-empty catalog, and its
    first room seats the largest course. *)
Lemma generate_classrooms_spec :
  forall num_rooms courses s rooms s',
    generate_classrooms num_rooms courses s = Ok (rooms, s') ->
    exists m r0 rest,
      py_max (map c_expected_enrollment courses) = Ok m
      /\ rooms = r0 :: rest
      /\ m <= r_capacity r0.
Proof.
  intros nr courses s rooms s' H. unfold generate_classrooms in H.
  apply bind_Ok in H as (m & s1 & Hm & H).
  apply bind_Ok in H as (rooms0 & s2 & Hrooms & H).
  apply bind_Ok in H as (e0 & s3 & _ & H).
  apply bind_Ok in H as (c0 & s4 & Hc0 & H).
  apply ret_Ok in H as [-> _].
  apply lift_Ok in Hm as [Hm _]. apply lift_Ok in Hc0 as [Hc0 _].
  destruct rooms0 as [|r0 rest]; [discriminate|].
  exists m, r0, rest. split; [exact Hm|]. split; [reflexivity|].
  apply for_each_Forall2 in Hrooms.
  unfold py_range in Hrooms.
  destruct (Z.to_nat nr) as [|k]; [inversion Hrooms|].
  cbn [seq map] in Hrooms. inversion Hrooms as [|? ? ? ? Hb _]; subst.
  destruct Hb as (sa & sb & Hb).
  apply generate_classroom_spec in Hb as [_ Hb].
  specialize (Hb ltac:(cbn; lia)). lia.
Qed.

Lemma generate_classrooms_total :
  forall num_rooms courses s,
    0 < num_rooms -> courses <> [] ->
    exists rooms s', generate_classrooms num_rooms courses s = Ok (rooms, s').
Proof.
  intros nr courses s Hnr Hcs. unfold generate_classrooms.
  destruct (py_max_total (map c_expected_enrollment courses)) as (m & Hm).
  { destruct courses; [contradiction|discriminate]. }
  rewrite (bind_Ok_intro _ _ _ _ _ _ _ (lift_Ok_intro _ _ _ s Hm)).
  destruct (for_each_total _ _ (generate_classroom m) (py_range nr)) with (s := s)
    as (rooms & s1 & Hrooms).
  { intros i s0 _. apply generate_classroom_total. }
  rewrite (bind_Ok_intro _ _ _ _ _ _ _ Hrooms).
  destruct courses as [|c0 cs]; [contradiction|].
  apply for_each_length in Hrooms. rewrite py_range_length in Hrooms.
  destruct rooms as [|r0 rest]; [cbn in Hrooms; lia|].
  eexists _, _. reflexivity.
Qed.

End ClassroomFacts.

(** ** [generate_students] *)

Lemma level_eqb_refl : forall l, level_eqb l l = true.
Proof. intros []; reflexivity. Qed.

Lemma course_type_eqb_refl : forall t, course_type_eqb t t = true.
Proof. intros []; reflexivity. Qed.

Lemma course_eqb_refl : forall c, course_eqb c c = true.
Proof.
  intro c. unfold course_eqb.
  rewrite !String.eqb_refl, course_type_eqb_refl, Qeq_bool_refl,
    Z.eqb_refl, level_eqb_refl. reflexivity.
Qed.

Lemma course_eqb_id : forall a b, course_eqb a b = true -> c_id a = c_id b.
Proof.
  intros a b H. unfold course_eqb in H.
  repeat (apply andb_prop in H as [H _]).
  apply String.eqb_eq, H.
Qed.

(** [remove] takes out one course, and it has the id of the one asked for. *)
Lemma list_remove_Permutation :
  forall c l,
    In c l ->
    exists y,
      c_id y = c_id c /\ Permutation l (y :: list_remove course_eqb c l).
Proof.
  intros c l. induction l as [|y0 t IH]; intros Hin; [contradiction|].
  cbn [list_remove]. destruct (course_eqb c y0) eqn:E.
  - exists y0. split; [symmetry; apply course_eqb_id, E|apply Permutation_refl].
  - destruct Hin as [->|Hin]; [rewrite course_eqb_refl in E; discriminate|].
    destruct (IH Hin) as (y & Hy & Hperm).
    exists y. split; [exact Hy|].
    eapply perm_trans; [apply perm_skip, Hperm|apply perm_swap].
Qed.

Lemma list_remove_ids :
  forall c l,
    In c l ->
    Permutation (map c_id l) (c_id c :: map c_id (list_remove course_eqb c l)).
Proof.
  intros c l Hin. destruct (list_remove_Permutation c l Hin) as (y & Hy & Hperm).
  rewrite <- Hy. change (c_id y :: map c_id (list_remove course_eqb c l))
    with (map c_id (y :: list_remove course_eqb c l)).
  apply Permutation_map, Hperm.
Qed.

Section StudentFacts.

Context {R : RandomSource}.

(** The selection loop enrolls distinct courses of the pool, one per round
    until the rounds or the pool run out. *)
Lemma select_courses_spec :
  forall todo probs enrolled available s res s',
    select_courses todo probs enrolled available s = Ok (res, s') ->
    NoDup (enrolled ++ map c_id available) ->
    NoDup res
    /\ incl res (enrolled ++ map c_id available)
    /\ List.length res
       = (List.length enrolled + Nat.min todo (List.length available))%nat.
Proof.
  induction todo as [|todo IH]; intros probs enrolled available s res s' H Hnd.
  - apply ret_Ok in H as [-> _]. split; [|split].
    + eapply NoDup_app_remove_r, Hnd.
    + apply incl_appl, incl_refl.
    + cbn. lia.
  - cbn [select_courses] in H. destruct available as [|a l] eqn:Eav.
    + apply ret_Ok in H as [-> _]. split; [|split].
      * eapply NoDup_app_remove_r, Hnd.
      * apply incl_appl, incl_refl.
      * cbn. lia.
    + rewrite <- Eav in *. apply bind_Ok in H as (lvl & s1 & _ & H).
      assert (Hpick : exists c s2,
                 In c available
                 /\ select_courses todo probs (enrolled ++ [c_id c])
                      (list_remove course_eqb c available) s2 = Ok (res, s')).
      { destruct (filter (fun c => level_eqb (c_level c) lvl) available)
          as [|x xs] eqn:Ef.
        - rewrite Eav in H. rewrite <- Eav in H.
          apply bind_Ok in H as (c & s2 & Hc & H).
          exists c, s2. split; [|exact H].
          apply rand_choice_In in Hc. exact Hc.
        - apply bind_Ok in H as (c & s2 & Hc & H).
          exists c, s2. split; [|exact H].
          apply rand_choice_In in Hc. rewrite <- Ef in Hc.
          apply filter_In in Hc as [Hc _]. exact Hc. }
      destruct Hpick as (c & s2 & Hc & Hrec).
      pose proof (list_remove_ids c available Hc) as Hperm.
      assert (Hperm' : Permutation (enrolled ++ map c_id available)
                         ((enrolled ++ [c_id c])
                          ++ map c_id (list_remove course_eqb c available))).
      { rewrite <- app_assoc. apply Permutation_app_head. exact Hperm. }
      apply IH in Hrec; [|eapply Permutation_NoDup; eassumption].
      destruct Hrec as (H1 & H2 & H3). split; [exact H1|]. split.
      * intros x Hx. eapply Permutation_in; [apply Permutation_sym, Hperm'|].
        apply H2, Hx.
      * rewrite H3, length_app. cbn [List.length].
        apply Permutation_length in Hperm.
        rewrite !length_map in Hperm. cbn [List.length] in Hperm.
        rewrite length_map in Hperm. lia.
Qed.

Lemma select_courses_total :
  forall todo probs enrolled available s,
    choices_args_ok levels probs = true ->
    exists res s', select_courses todo probs enrolled available s = Ok (res, s').
Proof.
  induction todo as [|todo IH]; intros probs enrolled available s Hok.
  - eexists _, _. reflexivity.
  - cbn [select_courses]. destruct available as [|a l] eqn:Eav.
    + eexists _, _. reflexivity.
    + rewrite <- Eav.
      destruct (rand_choices_total _ _ _ s Hok) as (lvl & s1 & Hl).
      rewrite (bind_Ok_intro _ _ _ _ _ _ _ Hl).
      destruct (filter (fun c => level_eqb (c_level c) lvl) available)
        as [|x xs] eqn:Ef.
      * rewrite Eav. rewrite <- Eav.
        destruct (rand_choice_total _ available s1) as (c & s2 & Hc);
          [rewrite Eav; discriminate|].
        rewrite (bind_Ok_intro _ _ _ _ _ _ _ Hc). apply IH, Hok.
      * destruct (rand_choice_total _ (x :: xs) s1) as (c & s2 & Hc);
          [discriminate|].
        rewrite (bind_Ok_intro _ _ _ _ _ _ _ Hc). apply IH, Hok.
Qed.

Lemma year_choices_ok :
  choices_args_ok student_years (map STUDENT_YEARS student_years) = true.
Proof. reflexivity. Qed.

Lemma level_probs_ok :
  forall year, choices_args_ok levels (level_probs year) = true.
Proof. intros []; reflexivity. Qed.

(** What one iteration of the student loop produces. *)
Lemma generate_student_spec :
  forall cs i s st s',
    generate_student cs i s = Ok (st, s') ->
    NoDup (map c_id cs) ->
    NoDup (s_enrolled_course_ids st)
    /\ incl (s_enrolled_course_ids st) (map c_id cs)
    /\ exists k,
         (2 <= k <= 5)%nat
         /\ List.length (s_enrolled_course_ids st)
            = Nat.min k (List.length cs).
Proof.
  intros cs i s st s' H Hnd. unfold generate_student in H.
  apply bind_Ok in H as (year & s1 & _ & H).
  apply bind_Ok in H as (k & s2 & Hk & H).
  apply bind_Ok in H as (enrolled & s3 & Hsel & H).
  apply bind_Ok in H as (name & s4 & _ & H).
  apply ret_Ok in H as [-> _]. cbn [s_enrolled_course_ids].
  apply select_courses_spec in Hsel; [|exact Hnd].
  destruct Hsel as (H1 & H2 & H3). split; [exact H1|]. split; [exact H2|].
  exists (Z.to_nat k). split; [|exact H3].
  destruct year; apply rand_choice_In in Hk; cbn in Hk;
    repeat (destruct Hk as [<-|Hk]; [lia|]); contradiction.
Qed.

Lemma generate_student_total :
  forall cs i s, exists st s', generate_student cs i s = Ok (st, s').
Proof.
  intros cs i s. unfold generate_student.
  destruct (rand_choices_total _ _ _ s year_choices_ok) as (year & s1 & H1).
  rewrite (bind_Ok_intro _ _ _ _ _ _ _ H1).
  assert (H2 : exists k s2,
             match year with
             | graduate => rand_choice [2; 3; 4]
             | _ => rand_choice [3; 4; 5]
             end s1 = Ok (k, s2)).
  { destruct year; apply rand_choice_total; discriminate. }
  destruct H2 as (k & s2 & H2).
  rewrite (bind_Ok_intro _ _ _ _ _ _ _ H2).
  destruct (select_courses_total (Z.to_nat k) (level_probs year) [] cs s2
              (level_probs_ok year)) as (en & s3 & H3).
  rewrite (bind_Ok_intro _ _ _ _ _ _ _ H3).
  destruct (rand_choice_total _ names s3) as (n & s4 & H4); [discriminate|].
  rewrite (bind_Ok_intro _ _ _ _ _ _ _ H4).
  eexists _, _. reflexivity.
Qed.

Lemma generate_students_total :
  forall num_students cs s,
    exists sts s', generate_students num_students cs s = Ok (sts, s').
Proof.
  intros ns cs s. unfold generate_students.
  apply for_each_total. intros i s0 _. apply generate_student_total.
Qed.

(** The ids of a generated catalog: [COURSE000], [COURSE001], ... *)
Lemma generate_courses_ids :
  forall num_courses num_instructors s cs s',
    generate_courses num_courses num_instructors s = Ok (cs, s') ->
    map c_id cs
    = map (fun i => ("COURSE" ++ fmt_0d 3 i)%string) (py_range num_courses).
Proof.
  intros nc ni s cs s' H. unfold generate_courses in H.
  apply bind_Ok in H as (course_names & s1 & _ & H).
  apply for_each_Forall2 in H.
  induction H as [|i c l cs' Hb _ IH]; [reflexivity|].
  cbn [map]. f_equal; [|exact IH].
  destruct Hb as (sa & sb & Hb).
  apply generate_course_spec in Hb as [Hid _]. exact Hid.
Qed.

Lemma generate_courses_ids_NoDup :
  forall num_courses num_instructors s cs s',
    generate_courses num_courses num_instructors s = Ok (cs, s') ->
    NoDup (map c_id cs).
Proof.
  intros nc ni s cs s' H. rewrite (generate_courses_ids _ _ _ _ _ H).
  apply Finite.Injective_map_NoDup_in.
  - intros a b Ha Hb Heq. apply py_range_In in Ha, Hb.
    apply append_inj_l in Heq. apply fmt_0d_inj in Heq; lia.
  - unfold py_range. apply Finite.Injective_map_NoDup; [|apply seq_NoDup].
    intros a b Hab. lia.
Qed.

End StudentFacts.

(** ** [_check_feasibility] *)

Lemma result_bind_Ok :
  forall A B (r : result A) (k : A -> result B) b,
    result_bind r k = Ok b -> exists a, r = Ok a /\ k a = Ok b.
Proof.
  intros A B [a|e] k b H; [|discriminate]. exists a. split; [reflexivity|exact H].
Qed.

Lemma dict_keys_set :
  forall V (d : dict V) k v k',
    In k' (dict_keys (dict_set d k v)) -> k' = k \/ In k' (dict_keys d).
Proof.
  intros V d k v k'. unfold dict_keys. induction d as [|[k0 v0] t IH]; cbn.
  - intros [<-|[]]. left; reflexivity.
  - destruct (String.eqb_spec k k0) as [->|Hne]; cbn.
    + intros [<-|H]; [right; left; reflexivity|right; right; exact H].
    + intros [<-|H]; [right; left; reflexivity|].
      destruct (IH H) as [->|H']; [left; reflexivity|right; right; exact H'].
Qed.

Lemma load_by_instructor_keys_from :
  forall cs (d : dict (list course * Q)) k,
    In k (dict_keys
            (fold_left
               (fun d c =>
                  let inst_id := c_instructor_id c in
                  let '(inst_courses, hours) :=
                    dict_get_default d inst_id ([], 0%Q) in
                  dict_set d inst_id
                    (inst_courses ++ [c], (hours + c_weekly_hours c)%Q))
               cs d)) ->
    In k (dict_keys d) \/ In k (map c_instructor_id cs).
Proof.
  intro cs. induction cs as [|c t IH]; intros d k H.
  - left. exact H.
  - cbn [fold_left] in H. apply IH in H as [H|H].
    + destruct (dict_get_default d (c_instructor_id c) ([], 0%Q)) as [ics h].
      apply dict_keys_set in H as [->|H];
        [right; left; reflexivity|left; exact H].
    + right; right; exact H.
Qed.

(** Every key of [courses_by_instructor] is the instructor of a course. *)
Lemma load_by_instructor_keys :
  forall cs k,
    In k (dict_keys (load_by_instructor cs)) -> In k (map c_instructor_id cs).
Proof.
  intros cs k H. unfold load_by_instructor in H.
  apply load_by_instructor_keys_from in H as [[]|H]. exact H.
Qed.

Lemma instructor_dict_get_from :
  forall l (d : dict instructor) k,
    (In k (map i_id l) \/ dict_get d k <> None) ->
    dict_get (fold_left (fun d i => dict_set d (i_id i) i) l d) k <> None.
Proof.
  induction l as [|i t IH]; intros d k H.
  - destruct H as [[]|H]. exact H.
  - cbn [fold_left]. apply IH. cbn [map] in H.
    destruct H as [[<-|H]|H].
    + right. rewrite dict_get_set, String.eqb_refl. discriminate.
    + left. exact H.
    + right. rewrite dict_get_set. destruct (String.eqb k (i_id i)); [discriminate|exact H].
Qed.

(** [instructor_dict] knows every instructor id. *)
Lemma instructor_dict_lookup :
  forall l k,
    In k (map i_id l) -> exists inst, dict_lookup (instructor_dict l) k = Ok inst.
Proof.
  intros l k H. unfold dict_lookup, instructor_dict.
  pose proof (instructor_dict_get_from l [] k (or_introl H)) as Hne.
  destruct (dict_get _ k) as [inst|]; [|contradiction].
  exists inst. reflexivity.
Qed.

Lemma check_instructor_load_total :
  forall by_id items,
    (forall k, In k (dict_keys items) -> exists inst, dict_lookup by_id k = Ok inst) ->
    exists issues, check_instructor_load by_id items = Ok issues.
Proof.
  intros by_id items. induction items as [|[k [ics h]] t IH]; intros Hk.
  - exists []. reflexivity.
  - cbn [check_instructor_load].
    destruct (Hk k (or_introl eq_refl)) as (inst & Hinst). rewrite Hinst.
    cbn [result_bind].
    destruct (IH (fun k0 H0 => Hk k0 (or_intror H0))) as (rest & Hrest).
    rewrite Hrest. cbn [result_map]. eexists. reflexivity.
Qed.

Lemma py_truediv_total :
  forall a b, ~ (b == 0)%Q -> py_truediv a b = Ok (a / b)%Q.
Proof.
  intros a b Hb. unfold py_truediv.
  destruct (Qeq_bool b 0) eqn:E; [|reflexivity].
  apply Qeq_bool_eq in E. contradiction.
Qed.

Lemma py_sum_hours_positive :
  forall cs,
    cs <> [] ->
    (forall c, In c cs -> c_weekly_hours c = 1.5%Q \/ c_weekly_hours c = 3.0%Q) ->
    ~ (py_sum (map c_weekly_hours cs) == 0)%Q.
Proof.
  intros cs Hne Hall Heq. unfold py_sum in Heq.
  destruct (half_hours_sum (map c_weekly_hours cs) 0%Q 0) as (n & Hn & Hs).
  - apply Forall_forall. intros w Hw. apply in_map_iff in Hw as (c & <- & Hc).
    apply Hall, Hc.
  - reflexivity.
  - rewrite Heq in Hs. rewrite length_map in Hn.
    assert (0 < n) by (destruct cs; [contradiction|cbn [List.length] in Hn; lia]).
    unfold Qeq in Hs. cbn in Hs. lia.
Qed.

Lemma check_room_capacity_kind :
  forall mx cs, existsb is_utilization_issue (check_room_capacity mx cs) = false.
Proof.
  intros mx cs. unfold check_room_capacity.
  induction cs as [|c t IH]; [reflexivity|].
  cbn [flat_map]. rewrite existsb_app, IH.
  destruct (mx <? c_expected_enrollment c); reflexivity.
Qed.

Lemma check_instructor_load_kind :
  forall by_id items issues,
    check_instructor_load by_id items = Ok issues ->
    existsb is_utilization_issue issues = false.
Proof.
  intros by_id items. induction items as [|[k [ics h]] t IH]; intros issues H.
  - injection H as <-. reflexivity.
  - cbn [check_instructor_load] in H.
    apply result_bind_Ok in H as (inst & _ & H).
    destruct (check_instructor_load by_id t) as [rest|e]; [|discriminate].
    cbn [result_map] in H. injection H as <-.
    specialize (IH rest eq_refl).
    destruct (Qltb _ _); [cbn; exact IH|exact IH].
Qed.

(** Exceeding half of the room slots, as the verifier tests it. *)
Lemma utilization_test :
  forall t n,
    0 < n ->
    Qltb 0.5 (t / inject_Z (5 * 24 * n))
    = Qltb (0.5 * inject_Z (5 * 24) * inject_Z n) t.
Proof.
  intros t n Hn. unfold Qltb. f_equal. apply eq_iff_eq_true.
  rewrite !Qle_bool_iff.
  assert (Hd : (0 < inject_Z (5 * 24 * n))%Q) by (rewrite <- (Zlt_Qlt 0); lia).
  assert (Hmul : (0.5 * inject_Z (5 * 24) * inject_Z n
                  == 0.5 * inject_Z (5 * 24 * n))%Q)
    by (rewrite (inject_Z_mult (5 * 24) n); ring).
  split; intro H.
  - rewrite Hmul. apply Qnot_lt_le. intro Hlt.
    apply (Qlt_shift_div_l _ _ _ Hd) in Hlt.
    apply (Qlt_not_le _ _ Hlt). exact H.
  - apply Qle_shift_div_r; [exact Hd|]. rewrite <- Hmul. exact H.
Qed.

(** On well-formed collections the verifier returns its list of issues,
    and the list has a utilization issue exactly when the catalog needs
    more than half of the weekly room slots. *)
Lemma check_feasibility_total :
  forall cs insts rooms num_weeks,
    rooms <> [] -> cs <> [] ->
    (forall c, In c cs -> In (c_instructor_id c) (map i_id insts)) ->
    (forall c, In c cs -> c_weekly_hours c = 1.5%Q \/ c_weekly_hours c = 3.0%Q) ->
    exists issues,
      _check_feasibility cs insts rooms num_weeks = Ok issues
      /\ existsb is_utilization_issue issues
         = Qltb (0.5 * inject_Z (5 * 24)
                 * inject_Z (Z.of_nat (List.length rooms)))
                (total_required_periods cs).
Proof.
  intros cs insts rooms nw Hrooms Hcs Href Hhours. unfold _check_feasibility.
  destruct (py_max_total (map r_capacity rooms)) as (mx & Hmx).
  { destruct rooms; [contradiction|discriminate]. }
  rewrite Hmx. cbn [result_bind].
  destruct (check_instructor_load_total (instructor_dict insts)
              (load_by_instructor cs)) as (issues2 & H2).
  { intros k Hk. apply instructor_dict_lookup.
    apply load_by_instructor_keys in Hk.
    apply in_map_iff in Hk as (c & <- & Hc). apply Href, Hc. }
  rewrite H2. cbn [result_bind].
  assert (Hlen : 0 < Z.of_nat (List.length rooms))
    by (destruct rooms; [contradiction|cbn [List.length]; lia]).
  assert (Hden : ~ (inject_Z (5 * 24 * Z.of_nat (List.length rooms)) == 0)%Q).
  { unfold Qeq. cbn [Qnum Qden inject_Z]. lia. }
  rewrite (py_truediv_total _ _ Hden). cbn [result_bind].
  set (util := (py_sum (map (fun c => c_weekly_hours c * 2) cs)
                / inject_Z (5 * 24 * Z.of_nat (List.length rooms)))%Q).
  set (issues1 := check_room_capacity mx cs).
  set (issues3 := if Qltb _ _ then [TotalLoadIssue _ _] else []).
  set (issues4 := if Qltb 0.5 util then [UtilizationIssue util] else []).
  assert (Hresult :
            match issues1 ++ issues2 ++ issues3 ++ issues4 with
            | [] =>
                result_bind
                  (py_truediv
                     (py_sum
                        (map (fun i => inject_Z (Z.of_nat (List.length (i_availability i)))
                                       * 0.5)%Q insts))
                     (py_sum (map c_weekly_hours cs)))
                  (fun _ => Ok (issues1 ++ issues2 ++ issues3 ++ issues4))
            | _ :: _ => Ok (issues1 ++ issues2 ++ issues3 ++ issues4)
            end = Ok (issues1 ++ issues2 ++ issues3 ++ issues4)).
  { destruct (issues1 ++ issues2 ++ issues3 ++ issues4); [|reflexivity].
    rewrite py_truediv_total; [reflexivity|].
    apply py_sum_hours_positive; assumption. }
  exists (issues1 ++ issues2 ++ issues3 ++ issues4). split; [exact Hresult|].
  rewrite !existsb_app.
  unfold issues1. rewrite check_room_capacity_kind.
  rewrite (check_instructor_load_kind _ _ _ H2).
  assert (H3 : existsb is_utilization_issue issues3 = false)
    by (unfold issues3; destruct (Qltb _ _); reflexivity).
  rewrite H3. cbn [orb].
  unfold total_required_periods.
  rewrite <- (utilization_test _ _ Hlen). fold util.
  unfold issues4. destruct (Qltb 0.5 util); reflexivity.
Qed.

(** ** [generate_complete_input] *)

Section AssemblyFacts.

Context {R : RandomSource}.

(** A returned document is made of the four collections the generators
    returned, in this order and on one thread of the random source, after
    the verifier returned. *)
Lemma generate_complete_input_Ok :
  forall now nc ni nr ns nw s doc s',
    generate_complete_input now nc ni nr ns nw s = Ok (doc, s') ->
    exists cs insts rooms sts s1 s2 s3 issues,
      generate_courses nc ni s = Ok (cs, s1)
      /\ generate_instructors ni nc cs s1 = Ok (insts, s2)
      /\ generate_classrooms nr cs s2 = Ok (rooms, s3)
      /\ generate_students ns cs s3 = Ok (sts, s')
      /\ _check_feasibility cs insts rooms nw = Ok issues
      /\ courses doc = cs
      /\ instructors doc = map del_debug insts
      /\ classrooms doc = rooms
      /\ students doc = sts
      /\ feasibility_checked (metadata doc) = true
      /\ generated_at (metadata doc) = now.
Proof.
  intros now nc ni nr ns nw s doc s' H. unfold generate_complete_input in H.
  apply bind_Ok in H as (end_date & s0 & Hd & H).
  apply lift_Ok in Hd as [_ ->].
  apply bind_Ok in H as (cs & s1 & Hcs & H).
  apply bind_Ok in H as (insts & s2 & Hinsts & H).
  apply bind_Ok in H as (rooms & s3 & Hrooms & H).
  apply bind_Ok in H as (sts & s4 & Hsts & H).
  apply bind_Ok in H as (issues & s5 & Hchk & H).
  apply lift_Ok in Hchk as [Hchk ->].
  apply bind_Ok in H as (avg & s6 & Havg & H).
  apply lift_Ok in Havg as [_ ->].
  apply ret_Ok in H as [-> ->].
  exists cs, insts, rooms, sts, s1, s2, s3, issues.
  cbn [courses instructors classrooms students metadata feasibility_checked
       generated_at].
  repeat split; assumption.
Qed.

(** The timestamp is the only place the clock reaches. *)
Lemma generate_complete_input_clock :
  forall now1 now2 nc ni nr ns nw s,
    generate_complete_input now2 nc ni nr ns nw s
    = result_map (fun '(doc, s') => (set_generated_at now2 doc, s'))
        (generate_complete_input now1 nc ni nr ns nw s).
Proof.
  intros now1 now2 nc ni nr ns nw s. unfold generate_complete_input, bind.
  repeat match goal with
         | |- context [match ?x with _ => _ end] => destruct x
         end; reflexivity.
Qed.

Lemma generated_courses_hours :
  forall nc ni s cs s' c,
    generate_courses nc ni s = Ok (cs, s') -> In c cs ->
    c_weekly_hours c = 1.5%Q \/ c_weekly_hours c = 3.0%Q.
Proof.
  intros nc ni s cs s' c H Hc.
  destruct (generate_courses_In _ _ _ _ _ _ H Hc) as (i & names & s1 & s2 & _ & Hb).
  apply generate_course_spec in Hb as (_ & _ & Hh & _). exact Hh.
Qed.

(** With a positive number of instructors every course is owned by one of
    the generated instructor records. *)
Lemma generated_courses_instructors :
  forall nc ni sa cs sa' sb insts sb' c,
    0 < ni ->
    generate_courses nc ni sa = Ok (cs, sa') ->
    generate_instructors ni nc cs sb = Ok (insts, sb') ->
    In c cs ->
    In (c_instructor_id c) (map i_id insts).
Proof.
  intros nc ni sa cs sa' sb insts sb' c Hni Hcs Hinsts Hc.
  destruct (generate_courses_In _ _ _ _ _ _ Hcs Hc) as (i & names & s1 & s2 & Hi & Hb).
  apply generate_course_spec in Hb as (_ & (idx & Hidx & Hid) & _).
  unfold py_mod in Hidx. destruct (Z.eqb_spec ni 0); [lia|]. injection Hidx as <-.
  destruct (generate_instructors_ids _ _ _ _ _ _ (i mod ni) Hinsts)
    as (inst & Hin & Hinst).
  { apply Z.mod_pos_bound. exact Hni. }
  rewrite Hid, <- Hinst. apply in_map. exact Hin.
Qed.

(** A catalog with a course was generated for a non-zero number of
    instructors. *)
Lemma generated_courses_nonzero_instructors :
  forall nc ni s cs s',
    generate_courses nc ni s = Ok (cs, s') -> cs <> [] -> ni <> 0.
Proof.
  intros nc ni s cs s' H Hne ->.
  destruct cs as [|c t]; [contradiction|].
  destruct (generate_courses_In _ _ _ _ _ c H (or_introl eq_refl))
    as (i & names & s1 & s2 & _ & Hb).
  rewrite generate_course_no_instructor in Hb. discriminate.
Qed.

End AssemblyFacts.

(** ** The whole pipeline returns on sane parameters *)

Section Totality.

Context {R : RandomSource}.

Lemma end_date_total :
  forall nw,
    0 <= nw <= 416000 ->
    exists d,
      result_bind (date_add_days start_date_ordinal (7 * nw))
        (fun d0 => date_add_days d0 (-1)) = Ok d.
Proof.
  intros nw Hnw.
  unfold date_add_days, start_date_ordinal, date_min, date_max.
  destruct (Z.leb_spec 1 (739257 + 7 * nw)); [|lia].
  destruct (Z.leb_spec (739257 + 7 * nw) 3652059); [|lia].
  cbn [andb result_bind].
  destruct (Z.leb_spec 1 (739257 + 7 * nw + -1)); [|lia].
  destruct (Z.leb_spec (739257 + 7 * nw + -1) 3652059); [|lia].
  eexists. reflexivity.
Qed.

(** At least one course, instructor and room, a non-zero number of
    students and a term of 0 to 416000 weeks: a document is returned. *)
Lemma generate_complete_input_total :
  forall now nc ni nr ns nw s,
    1 <= nc -> 1 <= ni -> 1 <= nr -> ns <> 0 -> 0 <= nw <= 416000 ->
    exists doc s', generate_complete_input now nc ni nr ns nw s = Ok (doc, s').
Proof.
  intros now nc ni nr ns nw s Hnc Hni Hnr Hns Hnw.
  unfold generate_complete_input.
  destruct (end_date_total nw Hnw) as (d & Hd).
  rewrite (bind_Ok_intro _ _ _ _ _ _ _ (lift_Ok_intro _ _ _ s Hd)).
  destruct (generate_courses_total nc ni s) as (cs & s1 & Hcs); [lia|].
  rewrite (bind_Ok_intro _ _ _ _ _ _ _ Hcs).
  destruct (generate_instructors_total ni nc cs s1) as (insts & s2 & Hinsts).
  rewrite (bind_Ok_intro _ _ _ _ _ _ _ Hinsts).
  assert (Hne : cs <> []).
  { apply generate_courses_length in Hcs. intros ->. cbn in Hcs. lia. }
  destruct (generate_classrooms_total nr cs s2) as (rooms & s3 & Hrooms);
    [lia|exact Hne|].
  rewrite (bind_Ok_intro _ _ _ _ _ _ _ Hrooms).
  destruct (generate_students_total ns cs s3) as (sts & s4 & Hsts).
  rewrite (bind_Ok_intro _ _ _ _ _ _ _ Hsts).
  destruct (check_feasibility_total cs insts rooms nw) as (issues & Hchk & _).
  { apply generate_classrooms_spec in Hrooms as (m & r0 & rest & _ & -> & _).
    discriminate. }
  { exact Hne. }
  { intros c Hc. eapply generated_courses_instructors; [|eassumption..]. lia. }
  { intros c Hc. eapply generated_courses_hours; eassumption. }
  rewrite (bind_Ok_intro _ _ _ _ _ _ _ (lift_Ok_intro _ _ _ s4 Hchk)).
  assert (Havg : ~ (inject_Z ns == 0)%Q).
  { unfold Qeq. cbn [Qnum Qden inject_Z]. lia. }
  rewrite (bind_Ok_intro _ _ _ _ _ _ _
             (lift_Ok_intro _ _ _ s4 (py_truediv_total _ _ Havg))).
  eexists _, _. reflexivity.
Qed.

End Totality.

(** ** What the runs that break a property have in common *)

Lemma dict_set_nonempty :
  forall V (d : dict V) k v, dict_set d k v <> [].
Proof.
  intros V [|[k0 v0] t] k v; cbn; [discriminate|].
  destruct (String.eqb k k0); discriminate.
Qed.

Lemma load_by_instructor_nonempty :
  forall cs, cs <> [] -> load_by_instructor cs <> [].
Proof.
  intros cs Hne. unfold load_by_instructor.
  assert (Hgen : forall l (d : dict (list course * Q)),
             d <> [] \/ l <> [] ->
             fold_left
               (fun d c =>
                  let inst_id := c_instructor_id c in
                  let '(inst_courses, hours) :=
                    dict_get_default d inst_id ([], 0%Q) in
                  dict_set d inst_id
                    (inst_courses ++ [c], (hours + c_weekly_hours c)%Q))
               l d <> []).
  { induction l as [|c t IH]; intros d [Hd|Hl]; cbn [fold_left];
      try exact Hd; try contradiction.
    - apply IH. left.
      destruct (dict_get_default d (c_instructor_id c) ([], 0%Q)).
      apply dict_set_nonempty.
    - apply IH. left.
      destruct (dict_get_default d (c_instructor_id c) ([], 0%Q)).
      apply dict_set_nonempty. }
  apply Hgen. right. exact Hne.
Qed.

(** Without any instructor record, check 2 fails on the first key of
    [courses_by_instructor]. *)
Lemma check_feasibility_without_instructors :
  forall cs rooms num_weeks,
    cs <> [] -> rooms <> [] ->
    _check_feasibility cs [] rooms num_weeks = Raise KeyError.
Proof.
  intros cs rooms nw Hcs Hrooms. unfold _check_feasibility.
  destruct (py_max_total (map r_capacity rooms)) as (mx & Hmx).
  { destruct rooms; [contradiction|discriminate]. }
  rewrite Hmx. cbn [result_bind].
  pose proof (load_by_instructor_nonempty cs Hcs) as Hne.
  destruct (load_by_instructor cs) as [|[k [ics h]] t]; [contradiction|].
  reflexivity.
Qed.

Section Remarks.

Context {R : RandomSource}.

(** For a negative [num_instructors] the instructor loop does not run. *)
Lemma generate_instructors_negative :
  forall ni nc cs s,
    ni < 0 -> generate_instructors ni nc cs s = Ok ([], s).
Proof.
  intros ni nc cs s Hni. unfold generate_instructors, py_range.
  replace (Z.to_nat ni) with 0%nat by lia. reflexivity.
Qed.

(** The timestamp of a returned document is the clock value it was
    assembled at, whatever the seed. *)
Lemma run_timestamp_is_clock :
  forall seed now nc ni nr ns nw doc,
    run seed now nc ni nr ns nw = Ok doc -> generated_at (metadata doc) = now.
Proof.
  intros seed now nc ni nr ns nw doc H. unfold run in H.
  apply result_bind_Ok in H as (s & _ & H).
  destruct (generate_complete_input now nc ni nr ns nw s) as [[d s']|e] eqn:E;
    [|discriminate].
  cbn in H. injection H as <-.
  apply generate_complete_input_Ok in E.
  destruct E as (cs & insts & rooms & sts & s1 & s2 & s3 & issues & E).
  apply E.
Qed.

(** With a catalog of one course every student is enrolled in exactly that
    one course, whatever the random source draws. *)
Lemma single_course_enrollment :
  forall now nc ni nr ns nw s doc s',
    generate_complete_input now nc ni nr ns nw s = Ok (doc, s') ->
    List.length (courses doc) = 1%nat ->
    Forall (fun st => List.length (s_enrolled_course_ids st) = 1%nat)
           (students doc).
Proof.
  intros now nc ni nr ns nw s doc s' H Hone.
  apply generate_complete_input_Ok in H
    as (cs & insts & rooms & sts & s1 & s2 & s3 & issues
        & Hcs & _ & _ & Hsts & _ & <- & _ & _ & -> & _).
  apply Forall_forall. intros st Hst.
  unfold generate_students in Hsts.
  destruct (for_each_In _ _ _ _ _ _ _ _ Hsts Hst) as (i & sa & sb & _ & Hb).
  apply generate_student_spec in Hb;
    [|eapply generate_courses_ids_NoDup; eassumption].
  destruct Hb as (_ & _ & k & Hk & Hlen). lia.
Qed.

End Remarks.

(** * The instance invariants *)

Section Claims.

Context {R : RandomSource}.

(** C1, as the code behaves.  Two runs with the same seed and the same
    parameters return the same result up to [metadata.generated_at]: the
    run read at clock value [now2] returns the document of the run read at
    [now1] with the timestamp replaced (and raises the same exception when
    that run raises).  The metadata block is therefore not reproduced
    byte for byte: its timestamp is the wall-clock time of assembly. *)
Theorem run_deterministic_up_to_timestamp :
  forall seed now1 now2 nc ni nr ns nw,
    run seed now2 nc ni nr ns nw
    = result_map (set_generated_at now2) (run seed now1 nc ni nr ns nw).
Proof.
  intros seed now1 now2 nc ni nr ns nw. unfold run.
  destruct (init seed) as [s|e]; [|reflexivity]. cbn [result_bind].
  rewrite (generate_complete_input_clock now1 now2).
  destruct (generate_complete_input now1 nc ni nr ns nw s)
    as [[doc s']|e]; reflexivity.
Qed.

(** C2.  In every assembled instance, an instructor with a positive
    teaching load ends with at least three times that load in available
    hours (half an hour per availability entry), unless its availability
    already covers all five weekdays, where the top-up loop has no day
    left to add. *)
Theorem availability_invariant :
  forall now nc ni nr ns nw s doc s' i,
    generate_complete_input now nc ni nr ns nw s = Ok (doc, s') ->
    In i (instructors doc) ->
    (0 < required_hours (courses doc) (i_id i))%Q ->
    (3 * required_hours (courses doc) (i_id i) <= available_hours i)%Q
    \/ covers_all_weekdays (i_availability i).
Proof.
  intros now nc ni nr ns nw s doc s' i H Hi _.
  apply generate_complete_input_Ok in H
    as (cs & insts & rooms & sts & s1 & s2 & s3 & issues
        & Hcs & Hinsts & _ & _ & _ & -> & Hdoc & _).
  rewrite Hdoc in Hi. apply in_map_iff in Hi as (i0 & <- & Hi0).
  unfold available_hours. cbn [del_debug i_id i_availability].
  destruct (generate_instructors_In _ _ _ _ _ _ _ Hinsts Hi0)
    as (k & sa & sb & _ & Hb).
  apply generate_instructor_spec in Hb
    as (_ & days & blocks & Hnd & _ & Hblocks & Hav & Hcase).
  destruct Hcase as [Hmin|Hall].
  - left. rewrite teaching_load_hours in Hmin.
    destruct (half_hours_sum
                (map c_weekly_hours
                   (filter (fun c => String.eqb (c_instructor_id c) (i_id i0)) cs))
                0%Q 0) as (n & _ & Hn).
    { apply Forall_forall. intros w Hw.
      apply in_map_iff in Hw as (c & <- & Hc). apply filter_In in Hc as [Hc _].
      eapply generated_courses_hours; eassumption. }
    { reflexivity. }
    fold (py_sum (map c_weekly_hours
                    (filter (fun c => String.eqb (c_instructor_id c) (i_id i0)) cs)))
      in Hn.
    fold (required_hours cs (i_id i0)) in Hn.
    rewrite (py_int_inject_Z _ _ Hn) in Hmin.
    assert (Hle : n * 3 <= Z.of_nat (List.length (i_availability i0))) by lia.
    rewrite Zle_Qle, inject_Z_mult in Hle. change (inject_Z 3) with 3%Q in Hle.
    generalize dependent (inject_Z n).
    generalize dependent (inject_Z (Z.of_nat (List.length (i_availability i0)))).
    intros; lra.
  - right. intros d Hd. rewrite Hav.
    destruct (day_blocks_spec _ _ Hblocks Hnd) as (_ & _ & Hcover).
    apply Hcover, Hall, Hd.
Qed.

(** C3.  In every assembled instance with at least one classroom and at
    least one course, the largest classroom capacity is at least the
    largest expected enrollment. *)
Theorem capacity_invariant :
  forall now nc ni nr ns nw s doc s',
    generate_complete_input now nc ni nr ns nw s = Ok (doc, s') ->
    classrooms doc <> [] -> courses doc <> [] ->
    exists max_capacity max_enrollment,
      py_max (map r_capacity (classrooms doc)) = Ok max_capacity
      /\ py_max (map c_expected_enrollment (courses doc)) = Ok max_enrollment
      /\ max_enrollment <= max_capacity.
Proof.
  intros now nc ni nr ns nw s doc s' H _ _.
  apply generate_complete_input_Ok in H
    as (cs & insts & rooms & sts & s1 & s2 & s3 & issues
        & _ & _ & Hrooms & _ & _ & -> & _ & -> & _).
  apply generate_classrooms_spec in Hrooms as (m & r0 & rest & Hm & -> & Hcap).
  destruct (py_max_total (map r_capacity (r0 :: rest))) as (mx & Hmx);
    [discriminate|].
  exists mx, m. split; [exact Hmx|]. split; [exact Hm|].
  pose proof (py_max_ge _ _ (r_capacity r0) Hmx (or_introl eq_refl)). lia.
Qed.

(** C4, as the code behaves.  In every assembled instance each student's
    [enrolled_course_ids] has no duplicate and at most 5 entries, and at
    least 2 entries when the catalog has at least 2 courses; with a
    smaller catalog the list is as long as the catalog. *)
Theorem enrollment_bounds :
  forall now nc ni nr ns nw s doc s',
    generate_complete_input now nc ni nr ns nw s = Ok (doc, s') ->
    Forall
      (fun st =>
         NoDup (s_enrolled_course_ids st)
         /\ (List.length (s_enrolled_course_ids st) <= 5)%nat
         /\ ((2 <= List.length (courses doc))%nat ->
             (2 <= List.length (s_enrolled_course_ids st))%nat)
         /\ ((List.length (courses doc) < 2)%nat ->
             List.length (s_enrolled_course_ids st)
             = List.length (courses doc)))
      (students doc).
Proof.
  intros now nc ni nr ns nw s doc s' H.
  apply generate_complete_input_Ok in H
    as (cs & insts & rooms & sts & s1 & s2 & s3 & issues
        & Hcs & _ & _ & Hsts & _ & -> & _ & _ & -> & _).
  apply Forall_forall. intros st Hst.
  unfold generate_students in Hsts.
  destruct (for_each_In _ _ _ _ _ _ _ _ Hsts Hst) as (i & sa & sb & _ & Hb).
  apply generate_student_spec in Hb;
    [|eapply generate_courses_ids_NoDup; eassumption].
  destruct Hb as (Hnd & _ & k & Hk & Hlen).
  split; [exact Hnd|]. split; [lia|]. split; intros Hsize; lia.
Qed.

(** C5, as the code behaves.  On the collections the generators return
    for a non-negative [num_instructors], the verifier does not raise: it
    returns its list of issues, and the list contains a utilization issue
    exactly when the total of required periods exceeds
    0.5 * (5 * 24) * the number of classrooms. *)
Theorem check_feasibility_returns :
  forall nc ni nr nw sa sa' sb sb' sc sc' cs insts rooms,
    0 <= ni ->
    generate_courses nc ni sa = Ok (cs, sa') ->
    generate_instructors ni nc cs sb = Ok (insts, sb') ->
    generate_classrooms nr cs sc = Ok (rooms, sc') ->
    exists issues,
      _check_feasibility cs insts rooms nw = Ok issues
      /\ existsb is_utilization_issue issues
         = Qltb (0.5 * inject_Z (5 * 24)
                 * inject_Z (Z.of_nat (List.length rooms)))
                (total_required_periods cs).
Proof.
  intros nc ni nr nw sa sa' sb sb' sc sc' cs insts rooms Hni Hcs Hinsts Hrooms.
  apply generate_classrooms_spec in Hrooms as (m & r0 & rest & Hm & -> & _).
  assert (Hne : cs <> []) by (intros ->; discriminate).
  pose proof (generated_courses_nonzero_instructors _ _ _ _ _ Hcs Hne) as Hnz.
  apply check_feasibility_total.
  - discriminate.
  - exact Hne.
  - intros c Hc.
    eapply generated_courses_instructors; [|eassumption..]. lia.
  - intros c Hc. eapply generated_courses_hours; eassumption.
Qed.

(** C8.  In every assembled instance the availability of each instructor
    is a set of slots: no (day, period_index) pair occurs twice, every day
    is one of Mon, Tue, Wed, Thu, Fri, and every period index lies in
    0..19. *)
Theorem availability_is_a_set :
  forall now nc ni nr ns nw s doc s',
    generate_complete_input now nc ni nr ns nw s = Ok (doc, s') ->
    Forall
      (fun i =>
         NoDup (i_availability i)
         /\ Forall
              (fun sl =>
                 In (day sl) ["Mon"; "Tue"; "Wed"; "Thu"; "Fri"]
                 /\ 0 <= period_index sl <= 19)
              (i_availability i))
      (instructors doc).
Proof.
  intros now nc ni nr ns nw s doc s' H.
  apply generate_complete_input_Ok in H
    as (cs & insts & rooms & sts & s1 & s2 & s3 & issues
        & _ & Hinsts & _ & _ & _ & _ & -> & _).
  apply Forall_forall. intros i Hi.
  apply in_map_iff in Hi as (i0 & <- & Hi0). cbn [del_debug i_availability].
  destruct (generate_instructors_In _ _ _ _ _ _ _ Hinsts Hi0)
    as (k & sa & sb & _ & Hb).
  apply generate_instructor_spec in Hb
    as (_ & days & blocks & Hnd & Hincl & Hblocks & -> & _).
  destruct (day_blocks_spec _ _ Hblocks Hnd) as (H1 & H2 & _).
  split; [exact H1|]. apply Forall_forall. intros sl Hsl.
  destruct (H2 sl Hsl) as [Hday Hp]. split; [apply Hincl, Hday|exact Hp].
Qed.

(** C9.  In every instance assembled for [num_instructors >= 1], every
    course's [instructor_id] is the id of one of the instructor records,
    and every id in a student's [enrolled_course_ids] is the id of one of
    the course records. *)
Theorem referential_integrity :
  forall now nc ni nr ns nw s doc s',
    1 <= ni ->
    generate_complete_input now nc ni nr ns nw s = Ok (doc, s') ->
    Forall
      (fun c => exists i, In i (instructors doc) /\ i_id i = c_instructor_id c)
      (courses doc)
    /\ Forall
         (fun st =>
            Forall
              (fun id => exists c, In c (courses doc) /\ c_id c = id)
              (s_enrolled_course_ids st))
         (students doc).
Proof.
  intros now nc ni nr ns nw s doc s' Hni H.
  apply generate_complete_input_Ok in H
    as (cs & insts & rooms & sts & s1 & s2 & s3 & issues
        & Hcs & Hinsts & _ & Hsts & _ & -> & -> & _ & -> & _).
  split.
  - apply Forall_forall. intros c Hc.
    assert (Hin : In (c_instructor_id c) (map i_id insts))
      by (eapply generated_courses_instructors; [|eassumption..]; lia).
    apply in_map_iff in Hin as (i0 & Hid & Hi0).
    exists (del_debug i0). split; [apply in_map, Hi0|exact Hid].
  - apply Forall_forall. intros st Hst. apply Forall_forall. intros id Hid.
    unfold generate_students in Hsts.
    destruct (for_each_In _ _ _ _ _ _ _ _ Hsts Hst) as (i & sa & sb & _ & Hb).
    apply generate_student_spec in Hb;
      [|eapply generate_courses_ids_NoDup; eassumption].
    destruct Hb as (_ & Hincl & _).
    apply Hincl in Hid. apply in_map_iff in Hid as (c & Hc & Hin).
    exists c. split; assumption.
Qed.

(** C10.  In every assembled instance [metadata.feasibility_checked] is
    [True], whatever the verifier recorded, and no instructor record
    carries the [_debug] entry. *)
Theorem feasibility_flag_and_no_debug :
  forall now nc ni nr ns nw s doc s',
    generate_complete_input now nc ni nr ns nw s = Ok (doc, s') ->
    feasibility_checked (metadata doc) = true
    /\ Forall (fun i => i_debug i = None) (instructors doc).
Proof.
  intros now nc ni nr ns nw s doc s' H.
  apply generate_complete_input_Ok in H
    as (cs & insts & rooms & sts & s1 & s2 & s3 & issues
        & _ & _ & _ & _ & _ & _ & -> & _ & _ & Hflag & _).
  split; [exact Hflag|]. apply Forall_forall. intros i Hi.
  apply in_map_iff in Hi as (i0 & <- & _). reflexivity.
Qed.

End Claims.

(** * The invariants on concrete runs *)

(** C1, as stated, fails: the same seed and parameters read at two clock
    values give two different documents. *)
Lemma run_not_byte_identical :
  @run CounterRandom 42 "2025-01-06T09:00:00" 2 1 1 2 10
  <> @run CounterRandom 42 "2025-01-06T09:00:01" 2 1 1 2 10.
Proof.
  intro H.
  apply (f_equal (result_map (fun d => generated_at (metadata d)))) in H.
  vm_compute in H. discriminate H.
Qed.

Lemma availability_invariant_witness :
  @generate_complete_input CounterRandom demo_now 2 1 1 2 10 demo_seed
  = Ok (demo_doc, snd demo_run)
  /\ In demo_instructor (instructors demo_doc)
  /\ (0 < required_hours (courses demo_doc) (i_id demo_instructor))%Q
  /\ ((3 * required_hours (courses demo_doc) (i_id demo_instructor)
       <= available_hours demo_instructor)%Q
      \/ covers_all_weekdays (i_availability demo_instructor)).
Proof.
  split; [vm_compute; reflexivity|].
  split; [left; reflexivity|].
  split; [vm_compute; reflexivity|].
  apply (availability_invariant (R := CounterRandom)
           demo_now 2 1 1 2 10 demo_seed demo_doc (snd demo_run)).
  - vm_compute; reflexivity.
  - left; reflexivity.
  - vm_compute; reflexivity.
Defined.

(** The exception of C2 is taken: the single instructor of the busy run
    teaches 21 courses, has all its days filled and still falls short. *)
Example busy_instructor_shortfall :
  Forall
    (fun i =>
       ~ (3 * required_hours (courses (fst busy_run)) (i_id i)
          <= available_hours i)%Q)
    (instructors (fst busy_run)).
Proof.
  repeat constructor. intro H. vm_compute in H. apply H. reflexivity.
Qed.

Lemma capacity_invariant_witness :
  @generate_complete_input CounterRandom demo_now 2 1 1 2 10 demo_seed
  = Ok (demo_doc, snd demo_run)
  /\ classrooms demo_doc <> []
  /\ courses demo_doc <> []
  /\ exists max_capacity max_enrollment,
       py_max (map r_capacity (classrooms demo_doc)) = Ok max_capacity
       /\ py_max (map c_expected_enrollment (courses demo_doc))
          = Ok max_enrollment
       /\ max_enrollment <= max_capacity.
Proof.
  split; [vm_compute; reflexivity|].
  split; [vm_compute; discriminate|].
  split; [vm_compute; discriminate|].
  apply (capacity_invariant (R := CounterRandom)
           demo_now 2 1 1 2 10 demo_seed demo_doc (snd demo_run)).
  - vm_compute; reflexivity.
  - vm_compute; discriminate.
  - vm_compute; discriminate.
Defined.

(** C4, as stated, fails: with a catalog of one course the student of the
    tiny run is enrolled in one course only. *)
Lemma enrollment_lower_bound_fails :
  @generate_complete_input CounterRandom demo_now 1 1 1 1 10 demo_seed
  = Ok tiny_run
  /\ In tiny_student (students (fst tiny_run))
  /\ ~ (2 <= List.length (s_enrolled_course_ids tiny_student) <= 5)%nat.
Proof.
  split; [vm_compute; reflexivity|].
  split; [left; reflexivity|].
  vm_compute. intros [H _]. inversion H as [|n H1]. inversion H1.
Qed.

Lemma enrollment_bounds_witness :
  @generate_complete_input CounterRandom demo_now 2 1 1 2 10 demo_seed
  = Ok (demo_doc, snd demo_run)
  /\ Forall
       (fun st =>
          NoDup (s_enrolled_course_ids st)
          /\ (List.length (s_enrolled_course_ids st) <= 5)%nat
          /\ ((2 <= List.length (courses demo_doc))%nat ->
              (2 <= List.length (s_enrolled_course_ids st))%nat)
          /\ ((List.length (courses demo_doc) < 2)%nat ->
              List.length (s_enrolled_course_ids st)
              = List.length (courses demo_doc)))
       (students demo_doc).
Proof.
  split; [vm_compute; reflexivity|].
  apply (enrollment_bounds (R := CounterRandom)
           demo_now 2 1 1 2 10 demo_seed demo_doc (snd demo_run)).
  vm_compute; reflexivity.
Defined.

(** C5, as stated, fails: for [num_instructors = -1] the generators return
    one course owned by [PROF000], no instructor and one room, and on
    these collections check 2 of the verifier raises [KeyError]. *)
Lemma check_feasibility_raises_KeyError :
  @generate_courses CounterRandom 1 (-1) demo_seed = Ok stray_courses
  /\ @generate_instructors CounterRandom (-1) 1 (fst stray_courses)
       (snd stray_courses) = Ok stray_instructors
  /\ @generate_classrooms CounterRandom 1 (fst stray_courses)
       (snd stray_instructors) = Ok stray_classrooms
  /\ _check_feasibility (fst stray_courses) (fst stray_instructors)
       (fst stray_classrooms) 10 = Raise KeyError.
Proof.
  repeat split; vm_compute; reflexivity.
Qed.

Lemma check_feasibility_returns_witness :
  0 <= 1
  /\ @generate_courses CounterRandom 21 1 demo_seed
     = Ok (fst busy_courses, snd busy_courses)
  /\ @generate_instructors CounterRandom 1 21 (fst busy_courses)
       (snd busy_courses) = Ok (fst busy_instructors, snd busy_instructors)
  /\ @generate_classrooms CounterRandom 1 (fst busy_courses)
       (snd busy_instructors) = Ok (fst busy_classrooms, snd busy_classrooms)
  /\ exists issues,
       _check_feasibility (fst busy_courses) (fst busy_instructors)
         (fst busy_classrooms) 10 = Ok issues
       /\ existsb is_utilization_issue issues
          = Qltb (0.5 * inject_Z (5 * 24)
                  * inject_Z (Z.of_nat (List.length (fst busy_classrooms))))
                 (total_required_periods (fst busy_courses)).
Proof.
  split; [lia|].
  split; [vm_compute; reflexivity|].
  split; [vm_compute; reflexivity|].
  split; [vm_compute; reflexivity|].
  apply (check_feasibility_returns (R := CounterRandom)
           21 1 1 10 demo_seed (snd busy_courses) (snd busy_courses)
           (snd busy_instructors) (snd busy_instructors) (snd busy_classrooms)).
  - lia.
  - vm_compute; reflexivity.
  - vm_compute; reflexivity.
  - vm_compute; reflexivity.
Defined.

(** The busy catalog needs more than half of the room's weekly slots, so
    the verifier records the utilization issue there. *)
Example busy_catalog_over_half :
  Qltb (0.5 * inject_Z (5 * 24)
        * inject_Z (Z.of_nat (List.length (fst busy_classrooms))))
       (total_required_periods (fst busy_courses)) = true.
Proof. vm_compute. reflexivity. Qed.

(** C6, as stated, fails: with no instructor and one course the fault is
    not a configuration error. *)
Lemma zero_instructors_not_a_configuration_error :
  ~ exists msg,
      @generate_courses CounterRandom 1 0 demo_seed
      = Raise (ConfigurationError msg).
Proof.
  intros (msg & H). vm_compute in H. discriminate H.
Qed.

Lemma generate_courses_zero_instructors_witness :
  0 < 1
  /\ @generate_courses CounterRandom 1 0 demo_seed = Raise ZeroDivisionError.
Proof.
  split; [lia|].
  apply (generate_courses_zero_instructors (R := CounterRandom) 1 demo_seed).
  lia.
Defined.

Lemma generate_courses_round_robin_witness :
  1 <= 2
  /\ exists cs s',
       @generate_courses CounterRandom 5 2 demo_seed = Ok (cs, s')
       /\ List.length cs = Z.to_nat 5
       /\ forall i, 0 <= i < 5 ->
            exists c,
              nth_error cs (Z.to_nat i) = Some c
              /\ c_instructor_id c = ("PROF" ++ fmt_0d 3 (i mod 2))%string.
Proof.
  split; [lia|].
  apply (generate_courses_round_robin (R := CounterRandom) 5 2 demo_seed).
  lia.
Defined.

Lemma availability_is_a_set_witness :
  @generate_complete_input CounterRandom demo_now 2 1 1 2 10 demo_seed
  = Ok (demo_doc, snd demo_run)
  /\ Forall
       (fun i =>
          NoDup (i_availability i)
          /\ Forall
               (fun sl =>
                  In (day sl) ["Mon"; "Tue"; "Wed"; "Thu"; "Fri"]
                  /\ 0 <= period_index sl <= 19)
               (i_availability i))
       (instructors demo_doc).
Proof.
  split; [vm_compute; reflexivity|].
  apply (availability_is_a_set (R := CounterRandom)
           demo_now 2 1 1 2 10 demo_seed demo_doc (snd demo_run)).
  vm_compute; reflexivity.
Defined.

Lemma referential_integrity_witness :
  1 <= 1
  /\ @generate_complete_input CounterRandom demo_now 2 1 1 2 10 demo_seed
     = Ok (demo_doc, snd demo_run)
  /\ Forall
       (fun c =>
          exists i, In i (instructors demo_doc) /\ i_id i = c_instructor_id c)
       (courses demo_doc)
  /\ Forall
       (fun st =>
          Forall
            (fun id => exists c, In c (courses demo_doc) /\ c_id c = id)
            (s_enrolled_course_ids st))
       (students demo_doc).
Proof.
  split; [lia|].
  split; [vm_compute; reflexivity|].
  apply (referential_integrity (R := CounterRandom)
           demo_now 2 1 1 2 10 demo_seed demo_doc (snd demo_run)).
  - lia.
  - vm_compute; reflexivity.
Defined.

(** C10 on the busy run, where the verifier recorded three issues. *)
Lemma feasibility_flag_and_no_debug_witness :
  @generate_complete_input CounterRandom demo_now 21 1 1 1 10 demo_seed
  = Ok (fst busy_run, snd busy_run)
  /\ feasibility_checked (metadata (fst busy_run)) = true
  /\ Forall (fun i => i_debug i = None) (instructors (fst busy_run)).
Proof.
  split; [vm_compute; reflexivity|].
  apply (feasibility_flag_and_no_debug (R := CounterRandom)
           demo_now 21 1 1 1 10 demo_seed (fst busy_run) (snd busy_run)).
  vm_compute; reflexivity.
Defined.

Example busy_run_has_issues :
  result_map (fun issues => List.length issues)
    (_check_feasibility (fst busy_courses) (fst busy_instructors)
       (fst busy_classrooms) 10) = Ok 3%nat
  /\ courses (fst busy_run) = fst busy_courses
  /\ instructors (fst busy_run) = map del_debug (fst busy_instructors)
  /\ classrooms (fst busy_run) = fst busy_classrooms.
Proof. repeat split; vm_compute; reflexivity. Qed.

(** * Further properties of the generators *)

Lemma py_range_nonpositive : forall n, n <= 0 -> py_range n = [].
Proof.
  intros n Hn. unfold py_range. replace (Z.to_nat n) with 0%nat by lia.
  reflexivity.
Qed.

Lemma py_range_NoDup : forall n, NoDup (py_range n).
Proof.
  intro n. unfold py_range.
  apply Finite.Injective_map_NoDup; [|apply seq_NoDup].
  intros a b Hab. lia.
Qed.

Lemma prefixed_ids_NoDup :
  forall prefix width n,
    NoDup (map (fun i => (prefix ++ fmt_0d width i)%string) (py_range n)).
Proof.
  intros prefix width n. apply Finite.Injective_map_NoDup_in.
  - intros a b Ha Hb Heq. apply py_range_In in Ha, Hb.
    apply append_inj_l in Heq. apply fmt_0d_inj in Heq; lia.
  - apply py_range_NoDup.
Qed.

Section MoreCourseFacts.

Context {R : RandomSource}.

Lemma for_each_map :
  forall A B C (body : A -> gen B) (f : A -> C) (g : B -> C) l s ys s',
    (forall x y s1 s2, body x s1 = Ok (y, s2) -> g y = f x) ->
    for_each body l s = Ok (ys, s') ->
    map g ys = map f l.
Proof.
  intros A B C body f g l s ys s' Hfg H. apply for_each_Forall2 in H.
  induction H as [|x y l' ys' Hb _ IH]; [reflexivity|].
  cbn [map]. f_equal; [|exact IH].
  destruct Hb as (s1 & s2 & Hb). eapply Hfg, Hb.
Qed.

Lemma for_each_Forall :
  forall A B (body : A -> gen B) (P : B -> Prop) l s ys s',
    (forall x y s1 s2, In x l -> body x s1 = Ok (y, s2) -> P y) ->
    for_each body l s = Ok (ys, s') ->
    Forall P ys.
Proof.
  intros A B body P l s ys s' HP H. apply Forall_forall. intros y Hy.
  destruct (for_each_In _ _ _ _ _ _ _ _ H Hy) as (x & s1 & s2 & Hx & Hb).
  eapply HP; eassumption.
Qed.

(** The fields one iteration of the course loop fills in. *)
Lemma generate_course_fields :
  forall num_instructors course_names i s c s',
    generate_course num_instructors course_names i s = Ok (c, s') ->
    min_enroll (COURSE_LEVELS (c_level c)) <= c_expected_enrollment c
      <= max_enroll (COURSE_LEVELS (c_level c))
    /\ match c_level c with
       | L100 | L200 => c_weekly_hours c = 1.5%Q
       | L300 | L400 => c_weekly_hours c = 1.5%Q \/ c_weekly_hours c = 3.0%Q
       end
    /\ In (c_department c) DEPARTMENTS
    /\ In (c_name c) course_names.
Proof.
  intros ni course_names i s c s' H. unfold generate_course in H.
  apply bind_Ok in H as (lvl & s1 & _ & H).
  apply bind_Ok in H as (enrollment & s2 & Henr & H).
  apply bind_Ok in H as (ctype & s3 & _ & H).
  apply bind_Ok in H as (idx & s4 & _ & H).
  apply bind_Ok in H as (hours & s5 & Hhours & H).
  apply bind_Ok in H as (name & s6 & Hname & H).
  apply bind_Ok in H as (dept & s7 & Hdept & H).
  apply ret_Ok in H as [-> _].
  cbn [c_level c_expected_enrollment c_weekly_hours c_department c_name].
  apply rand_randint_Ok in Henr. apply rand_choice_In in Hdept.
  apply lift_Ok in Hname as [Hname _]. apply py_index_In in Hname.
  split; [exact Henr|]. split; [|split; assumption].
  destruct lvl; cbn [level_eqb orb] in Hhours.
  - apply ret_Ok in Hhours as [-> _]. reflexivity.
  - apply ret_Ok in Hhours as [-> _]. reflexivity.
  - apply bind_Ok in Hhours as (u & s8 & _ & Hhours).
    apply ret_Ok in Hhours as [-> _].
    destruct (Qltb u 0.7); [left|right]; reflexivity.
  - apply bind_Ok in Hhours as (u & s8 & _ & Hhours).
    apply ret_Ok in Hhours as [-> _].
    destruct (Qltb u 0.7); [left|right]; reflexivity.
Qed.


(** X2.  Every course of a returned catalog has its expected enrollment
    within the range of its level (80-200, 40-100, 20-60, 10-30), 1.5
    weekly hours at level 100 or 200 and 1.5 or 3.0 at level 300 or 400,
    and a department of the [DEPARTMENTS] list. *)
Theorem generate_courses_fields :
  forall num_courses num_instructors s cs s',
    generate_courses num_courses num_instructors s = Ok (cs, s') ->
    Forall
      (fun c =>
         min_enroll (COURSE_LEVELS (c_level c)) <= c_expected_enrollment c
           <= max_enroll (COURSE_LEVELS (c_level c))
         /\ match c_level c with
            | L100 | L200 => c_weekly_hours c = 1.5%Q
            | L300 | L400 =>
                c_weekly_hours c = 1.5%Q \/ c_weekly_hours c = 3.0%Q
            end
         /\ In (c_department c) DEPARTMENTS)
      cs.
Proof.
  intros nc ni s cs s' H. unfold generate_courses in H.
  apply bind_Ok in H as (names & s1 & _ & H).
  eapply for_each_Forall; [|exact H].
  intros i c sa sb _ Hb. apply generate_course_fields in Hb.
  destruct Hb as (H1 & H2 & H3 & _).
  split; [exact H1|]. split; [exact H2|exact H3].
Qed.

End MoreCourseFacts.

(** ** Instructors: roster, windows and the size of the availability *)

Lemma teaching_load_count_from :
  forall cs load inst_id,
    dict_get_default (fst (fold_left add_teaching_load cs load)) inst_id 0
    = dict_get_default (fst load) inst_id 0
      + Z.of_nat (List.length (courses_of cs inst_id)).
Proof.
  intro cs. induction cs as [|c t IH]; intros [d1 d2] inst_id.
  - cbn. lia.
  - cbn [fold_left]. rewrite IH. cbn [add_teaching_load fst].
    rewrite dict_get_default_set. rewrite (String.eqb_sym inst_id).
    unfold courses_of. cbn [filter].
    destruct (String.eqb (c_instructor_id c) inst_id) eqn:E.
    + apply String.eqb_eq in E. subst inst_id. cbn [List.length]. lia.
    + reflexivity.
Qed.

(** [courses_per_instructor.get(inst_id, 0)] counts the courses of
    [inst_id]. *)
Lemma teaching_load_count :
  forall cs inst_id,
    dict_get_default (fst (teaching_load cs)) inst_id 0
    = Z.of_nat (List.length (courses_of cs inst_id)).
Proof.
  intros cs inst_id. unfold teaching_load.
  rewrite teaching_load_count_from. reflexivity.
Qed.

(** Three to six half-hours per course. *)
Lemma half_hours_sum_bounds :
  forall l acc n0,
    Forall (fun w => w = 1.5%Q \/ w = 3.0%Q) l ->
    (acc * 2 == inject_Z n0)%Q ->
    exists n,
      n0 + 3 * Z.of_nat (List.length l) <= n
        <= n0 + 6 * Z.of_nat (List.length l)
      /\ (fold_left Qplus l acc * 2 == inject_Z n)%Q.
Proof.
  induction l as [|w t IH]; intros acc n0 Hall Hacc.
  - exists n0. cbn. split; [lia|exact Hacc].
  - inversion Hall as [|? ? Hw Ht]; subst.
    cbn [fold_left List.length].
    destruct Hw as [-> | ->].
    + destruct (IH (acc + 1.5)%Q (n0 + 3) Ht) as (n & Hn & Heq).
      { rewrite inject_Z_plus. change (inject_Z 3) with 3%Q.
        generalize dependent (inject_Z n0). intros; lra. }
      exists n. split; [lia|exact Heq].
    + destruct (IH (acc + 3.0)%Q (n0 + 6) Ht) as (n & Hn & Heq).
      { rewrite inject_Z_plus. change (inject_Z 6) with 6%Q.
        generalize dependent (inject_Z n0). intros; lra. }
      exists n. split; [lia|exact Heq].
Qed.

Lemma day_window_full_day : forall n d, day_window n d (full_day d).
Proof.
  intros n d. exists 0, 20. split; [reflexivity|]. repeat split; lia.
Qed.

Lemma day_window_block : forall n d slots, day_window n d slots -> day_block d slots.
Proof.
  intros n d slots (lo & hi & -> & Hlo & Hhi & Hlen & _).
  exists lo, hi. repeat split; lia.
Qed.

Lemma day_slots_length :
  forall d periods, List.length (day_slots d periods) = List.length periods.
Proof.
  intros d periods. unfold day_slots. apply length_map.
Qed.

(** The size of an availability made of windows. *)
Lemma day_windows_length :
  forall n days blocks,
    Forall2 (day_window n) days blocks ->
    12 * Z.of_nat (List.length days)
      <= Z.of_nat (List.length (List.concat blocks))
      <= 20 * Z.of_nat (List.length days)
    /\ ((n <=? 2) = false ->
        18 * Z.of_nat (List.length days)
        <= Z.of_nat (List.length (List.concat blocks))).
Proof.
  intros n days blocks H. induction H as [|d b days blocks Hb _ IH].
  - cbn. split; [lia|intros _; lia].
  - destruct Hb as (lo & hi & -> & Hlo & Hhi & Hlen & Hheavy).
    cbn [List.concat List.length].
    rewrite length_app, day_slots_length, py_range2_length.
    destruct IH as [IH1 IH2]. split; [lia|].
    intro Hn. specialize (IH2 Hn). specialize (Hheavy Hn). lia.
Qed.

Section MoreInstructorFacts.

Context {R : RandomSource}.

Lemma day_period_range_window :
  forall n s pr s',
    day_period_range n s = Ok (pr, s') ->
    exists lo hi,
      pr = py_range2 lo hi /\ 0 <= lo /\ hi <= 20 /\ 12 <= hi - lo
      /\ ((n <=? 2) = false -> 18 <= hi - lo).
Proof.
  intros n s pr s' H. unfold day_period_range in H.
  apply bind_Ok in H as (u1 & s1 & _ & H).
  destruct (Qltb u1 0.2).
  - apply ret_Ok in H as [-> _].
    destruct (n <=? 2); [exists 0, 12|exists 0, 18];
      (split; [reflexivity|]); repeat split; try lia; discriminate.
  - apply bind_Ok in H as (u2 & s2 & _ & H).
    destruct (Qltb u2 0.2).
    + apply ret_Ok in H as [-> _].
      destruct (n <=? 2); [exists 6, 20|exists 0, 18];
        (split; [reflexivity|]); repeat split; try lia; discriminate.
    + apply ret_Ok in H as [-> _]. exists 0, 20.
      split; [reflexivity|]. repeat split; lia.
Qed.

Lemma per_day_windows :
  forall n days s per_day s',
    for_each (fun d => bind (day_period_range n)
                         (fun period_range => ret (day_slots d period_range)))
             days s = Ok (per_day, s') ->
    Forall2 (day_window n) days per_day.
Proof.
  intros n days s per_day s' H. apply for_each_Forall2 in H.
  eapply Forall2_impl; [|exact H].
  intros d b (s1 & s2 & Hb).
  apply bind_Ok in Hb as (pr & s3 & Hpr & Hb).
  apply ret_Ok in Hb as [-> _].
  apply day_period_range_window in Hpr as (lo & hi & -> & Hw).
  exists lo, hi. split; [reflexivity|exact Hw].
Qed.

(** One iteration of the instructor loop, in full. *)
Lemma generate_instructor_detail :
  forall load i s inst s',
    generate_instructor load i s = Ok (inst, s') ->
    i_id inst = ("PROF" ++ fmt_0d 3 i)%string
    /\ In (i_back_to_back_preference inst) [-1; 0; 1]
    /\ In (i_department inst) DEPARTMENTS
    /\ (exists dbg,
          i_debug inst = Some dbg
          /\ available_periods dbg
             = Z.of_nat (List.length (i_availability inst))
          /\ courses_to_teach dbg
             = dict_get_default (fst load) (i_id inst) 0)
    /\ exists days blocks,
         NoDup days /\ incl days weekdays
         /\ (4 <= List.length days)%nat
         /\ Forall2 (day_window (dict_get_default (fst load) (i_id inst) 0))
              days blocks
         /\ i_availability inst = List.concat blocks
         /\ (Z.max (py_int (dict_get_default (snd load) (i_id inst) 0%Q * 2)%Q * 3) 30
             <= Z.of_nat (List.length (i_availability inst))
             \/ List.length days = 5%nat).
Proof.
  intros [cpi thpi] i s inst s' H. unfold generate_instructor in H.
  apply bind_Ok in H as (first & s1 & _ & H).
  apply bind_Ok in H as (last & s2 & _ & H).
  apply bind_Ok in H as (k & s3 & Hk & H).
  apply bind_Ok in H as (available_days & s4 & Hdays & H).
  apply bind_Ok in H as (per_day & s5 & Hper & H).
  apply bind_Ok in H as (b2b & s6 & Hb2b & H).
  apply bind_Ok in H as (u & s7 & _ & H).
  apply bind_Ok in H as (dept & s8 & Hdept & H).
  apply ret_Ok in H as [-> _].
  cbn [i_id i_availability i_back_to_back_preference i_department i_debug
       fst snd].
  apply rand_choices_In in Hb2b. apply rand_choice_In in Hdept.
  split; [reflexivity|]. split; [exact Hb2b|]. split; [exact Hdept|].
  split; [eexists; split; [reflexivity|split; reflexivity]|].
  apply rand_sample_spec in Hdays as (Hnd & Hincl & Hlen); [|apply weekdays_NoDup].
  assert (Hk4 : (4 <= List.length available_days)%nat).
  { apply rand_choice_In in Hk. cbn in Hk.
    destruct Hk as [<-|[<-|[]]]; lia. }
  apply per_day_windows in Hper.
  set (n := dict_get_default cpi ("PROF" ++ fmt_0d 3 i)%string 0) in *.
  set (hours := dict_get_default thpi ("PROF" ++ fmt_0d 3 i)%string 0%Q) in *.
  set (mn := Z.max (py_int (hours * 2)%Q * 3) 30) in *.
  destruct (Z.ltb_spec (Z.of_nat (List.length (List.concat per_day))) mn)
    as [Hlt|Hge].
  - set (remaining := filter (fun d => negb (string_in d available_days)) weekdays).
    destruct (top_up_spec mn remaining (List.concat per_day)
                (Z.of_nat (List.length (List.concat per_day))))
      as (used & rest & Hrem & Htop & Hstop).
    rewrite Htop.
    assert (Hnd_rem : NoDup remaining)
      by (apply NoDup_filter, weekdays_NoDup).
    rewrite Hrem in Hnd_rem.
    assert (Hused : forall d, In d used -> In d weekdays /\ ~ In d available_days).
    { intros d Hd.
      assert (Hin : In d remaining) by (rewrite Hrem; apply in_or_app; left; exact Hd).
      apply filter_In in Hin as [Hw Hn]. split; [exact Hw|].
      intro Hc. apply string_in_In in Hc. rewrite Hc in Hn. discriminate. }
    assert (Hnd_all : NoDup (available_days ++ used)).
    { apply NoDup_app; [exact Hnd| |].
      - eapply NoDup_app_remove_r; exact Hnd_rem.
      - intros d Hd1 Hd2. apply Hused in Hd2 as [_ Hd2]. contradiction. }
    assert (Hincl_all : incl (available_days ++ used) weekdays).
    { intros d Hd. apply in_app_or in Hd as [Hd|Hd];
        [apply Hincl, Hd|apply Hused, Hd]. }
    exists (available_days ++ used), (per_day ++ map full_day used).
    split; [exact Hnd_all|]. split; [exact Hincl_all|].
    split; [rewrite length_app; lia|]. split; [|split].
    + apply Forall2_app; [exact Hper|].
      clear. induction used as [|d used IH]; constructor;
        [apply day_window_full_day|exact IH].
    + rewrite concat_app. reflexivity.
    + destruct Hstop as [->|Hstop].
      * right. rewrite app_nil_r in Hrem.
        apply Nat.le_antisymm.
        -- apply (NoDup_incl_length Hnd_all Hincl_all).
        -- apply (NoDup_incl_length weekdays_NoDup).
           intros d Hd. apply in_or_app.
           destruct (string_in d available_days) eqn:Ein.
           ++ left. apply string_in_In. exact Ein.
           ++ right. rewrite <- Hrem. apply filter_In.
              split; [exact Hd|]. rewrite Ein. reflexivity.
      * left. rewrite length_app, Nat2Z.inj_add, concat_full_days_length.
        exact Hstop.
  - exists available_days, per_day.
    split; [exact Hnd|]. split; [exact Hincl|]. split; [exact Hk4|].
    split; [exact Hper|]. split; [reflexivity|]. left. exact Hge.
Qed.

(** X3.  On a catalog whose weekly hours are all 1.5 or 3.0, the values
    [generate_courses] assigns, [generate_instructors] never raises: it
    returns [max(0, num_instructors)] records with the pairwise distinct
    ids [PROF000], [PROF001], ... in order; each record has a
    back-to-back preference in {-1, 0, 1}, a department of the
    [DEPARTMENTS] list, and a [_debug] entry whose [available_periods] is
    the length of the availability.  (Other hours are left out: the float
    sum of a hand-made catalog can round, or overflow to [inf], where
    [int()] raises.) *)
Theorem generate_instructors_roster :
  forall num_instructors num_courses cs s,
    forallb standard_hours cs = true ->
    exists insts s',
      generate_instructors num_instructors num_courses cs s = Ok (insts, s')
      /\ Z.of_nat (List.length insts) = Z.max 0 num_instructors
      /\ map i_id insts
         = map (fun i => ("PROF" ++ fmt_0d 3 i)%string)
             (py_range num_instructors)
      /\ NoDup (map i_id insts)
      /\ Forall
           (fun inst =>
              In (i_back_to_back_preference inst) [-1; 0; 1]
              /\ In (i_department inst) DEPARTMENTS
              /\ exists dbg,
                   i_debug inst = Some dbg
                   /\ available_periods dbg
                      = Z.of_nat (List.length (i_availability inst)))
           insts.
Proof.
  intros ni nc cs s _.
  destruct (generate_instructors_total ni nc cs s) as (insts & s' & H).
  exists insts, s'. split; [exact H|].
  unfold generate_instructors in H.
  assert (Hids : map i_id insts
                 = map (fun i => ("PROF" ++ fmt_0d 3 i)%string) (py_range ni)).
  { eapply for_each_map; [|exact H].
    intros i inst s1 s2 Hb. apply generate_instructor_detail in Hb. apply Hb. }
  split; [|split; [exact Hids|split]].
  - rewrite (for_each_length _ _ _ _ _ _ _ H), py_range_length. lia.
  - rewrite Hids. apply prefixed_ids_NoDup.
  - eapply for_each_Forall; [|exact H].
    intros i inst s1 s2 _ Hb. apply generate_instructor_detail in Hb.
    destruct Hb as (_ & H1 & H2 & (dbg & H3 & H4 & _) & _).
    split; [exact H1|]. split; [exact H2|]. exists dbg. split; assumption.
Qed.

(** X4.  Every generated instructor has between 48 and 100 availability
    entries (4 or 5 days of 12 to 20 periods), so the floor of 30 periods
    is always met. *)
Theorem availability_size :
  forall num_instructors num_courses cs s insts s',
    generate_instructors num_instructors num_courses cs s = Ok (insts, s') ->
    Forall
      (fun inst => 48 <= Z.of_nat (List.length (i_availability inst)) <= 100)
      insts.
Proof.
  intros ni nc cs s insts s' H. unfold generate_instructors in H.
  eapply for_each_Forall; [|exact H].
  intros i inst s1 s2 _ Hb. apply generate_instructor_detail in Hb.
  destruct Hb as (_ & _ & _ & _ & days & blocks & Hnd & Hincl & H4 & Hw & -> & _).
  pose proof (NoDup_incl_length Hnd Hincl) as H5. cbn [weekdays List.length] in H5.
  destruct (day_windows_length _ _ _ Hw) as [Hlen _]. lia.
Qed.

(** An instructor generated for a generated catalog and loaded with at most
    15 weekly hours has three times its load in available hours. *)
Lemma light_load_instructor :
  forall nc ni sa cs sa' k s inst s',
    generate_courses nc ni sa = Ok (cs, sa') ->
    generate_instructor (teaching_load cs) k s = Ok (inst, s') ->
    (required_hours cs (i_id inst) <= 15)%Q ->
    (3 * required_hours cs (i_id inst)
     <= inject_Z (Z.of_nat (List.length (i_availability inst))) * 0.5)%Q.
Proof.
  intros nc ni sa cs sa' k s inst s' Hcs Hb Hlight.
  apply generate_instructor_detail in Hb
    as (_ & _ & _ & _ & days & blocks & Hnd & Hincl & H4 & Hw & Hav & Hcase).
  rewrite teaching_load_hours in Hcase. rewrite teaching_load_count in Hw.
  destruct (half_hours_sum_bounds
              (map c_weekly_hours (courses_of cs (i_id inst))) 0%Q 0)
    as (p & Hp & Hpeq).
  { apply Forall_forall. intros w Hw'.
    apply in_map_iff in Hw' as (c & <- & Hc). apply filter_In in Hc as [Hc _].
    eapply generated_courses_hours; eassumption. }
  { reflexivity. }
  rewrite length_map in Hp.
  change (fold_left Qplus (map c_weekly_hours (courses_of cs (i_id inst))) 0%Q)
    with (required_hours cs (i_id inst)) in Hpeq.
  rewrite (py_int_inject_Z _ _ Hpeq) in Hcase.
  assert (Hp30 : p <= 30).
  { rewrite Zle_Qle. change (inject_Z 30) with 30%Q.
    rewrite <- Hpeq. revert Hlight.
    generalize (required_hours cs (i_id inst)). intros q Hq. lra. }
  destruct (day_windows_length _ _ _ Hw) as [Hlen Hheavy].
  rewrite <- Hav in Hlen, Hheavy.
  assert (Hle : p * 3 <= Z.of_nat (List.length (i_availability inst))).
  { destruct (Z.leb_spec (Z.of_nat (List.length (courses_of cs (i_id inst)))) 2)
      as [Hfew|Hmany].
    - lia.
    - specialize (Hheavy eq_refl). destruct Hcase as [Hmin|Hfive]; lia. }
  rewrite Zle_Qle, inject_Z_mult in Hle. change (inject_Z 3) with 3%Q in Hle.
  generalize dependent (inject_Z p).
  generalize dependent (inject_Z (Z.of_nat (List.length (i_availability inst)))).
  intros; lra.
Qed.

(** X5.  In every assembled instance an instructor whose teaching load is
    at most 15 weekly hours has at least three times that load in
    available hours: the shortfall that the full week allows needs a
    heavier load. *)
Theorem light_load_availability :
  forall now nc ni nr ns nw s doc s' i,
    generate_complete_input now nc ni nr ns nw s = Ok (doc, s') ->
    In i (instructors doc) ->
    (required_hours (courses doc) (i_id i) <= 15)%Q ->
    (3 * required_hours (courses doc) (i_id i) <= available_hours i)%Q.
Proof.
  intros now nc ni nr ns nw s doc s' i H Hi Hlight.
  apply generate_complete_input_Ok in H
    as (cs & insts & rooms & sts & s1 & s2 & s3 & issues
        & Hcs & Hinsts & _ & _ & _ & Hcdoc & Hdoc & _).
  rewrite Hcdoc in *. rewrite Hdoc in Hi.
  apply in_map_iff in Hi as (i0 & <- & Hi0).
  unfold available_hours. cbn [del_debug i_id i_availability] in *.
  destruct (generate_instructors_In _ _ _ _ _ _ _ Hinsts Hi0)
    as (k & sa & sb & _ & Hb).
  eapply light_load_instructor; eassumption.
Qed.

End MoreInstructorFacts.

(** ** Classrooms: inventory and edge cases *)

Section MoreClassroomFacts.

Context {R : RandomSource}.

Lemma for_each_nth_error_inv :
  forall A B (body : A -> gen B) l s ys s' k y,
    for_each body l s = Ok (ys, s') -> nth_error ys k = Some y ->
    exists x s1 s2, nth_error l k = Some x /\ body x s1 = Ok (y, s2).
Proof.
  intros A B body l s ys s' k y H. apply for_each_Forall2 in H.
  revert k. induction H as [|x0 y0 l' ys' Hxy _ IH]; intros k Hk.
  - destruct k; discriminate.
  - destruct k as [|k].
    + cbn in Hk. injection Hk as ->.
      destruct Hxy as (s1 & s2 & Hb). exists x0, s1, s2.
      split; [reflexivity|assumption].
    + cbn in Hk. apply IH in Hk. exact Hk.
Qed.

Lemma generate_classroom_capacity :
  forall max_enrollment i s r s',
    generate_classroom max_enrollment i s = Ok (r, s') ->
    20 <= r_capacity r <= Z.max 250 (max_enrollment + 50)
    /\ (i < 3 -> Z.max 120 max_enrollment <= r_capacity r).
Proof.
  intros m i s r s' H. unfold generate_classroom in H.
  apply bind_Ok in H as (building & s1 & _ & H).
  apply bind_Ok in H as (room_num & s2 & _ & H).
  apply bind_Ok in H as (capacity & s3 & Hcap & H).
  apply ret_Ok in H as [-> _]. cbn [r_capacity].
  destruct (Z.ltb_spec i 3).
  - apply rand_randint_Ok in Hcap. lia.
  - apply bind_Ok in Hcap as (bucket & s4 & Hb & Hcap).
    apply rand_choices_In in Hb. destruct bucket as [[cap_min cap_max] w].
    apply rand_randint_Ok in Hcap. cbn in Hb.
    repeat (destruct Hb as [Hb|Hb]; [injection Hb as <- <- <-; lia|]).
    contradiction.
Qed.

(** X6.  A returned inventory has [num_rooms] rooms with the pairwise
    distinct ids [ROOM000], [ROOM001], ... in order; every capacity lies
    between 20 and max(250, max_enrollment + 50), and each of the first
    three rooms has at least max(120, max_enrollment) seats. *)
Theorem generate_classrooms_inventory :
  forall num_rooms cs s rooms s',
    generate_classrooms num_rooms cs s = Ok (rooms, s') ->
    exists max_enrollment,
      py_max (map c_expected_enrollment cs) = Ok max_enrollment
      /\ Z.of_nat (List.length rooms) = num_rooms
      /\ map r_id rooms
         = map (fun i => ("ROOM" ++ fmt_0d 3 i)%string) (py_range num_rooms)
      /\ NoDup (map r_id rooms)
      /\ Forall
           (fun r => 20 <= r_capacity r <= Z.max 250 (max_enrollment + 50))
           rooms
      /\ Forall (fun r => Z.max 120 max_enrollment <= r_capacity r)
           (firstn 3 rooms).
Proof.
  intros nr cs s rooms s' H. unfold generate_classrooms in H.
  apply bind_Ok in H as (m & s1 & Hm & H).
  apply bind_Ok in H as (rooms0 & s2 & Hrooms & H).
  apply bind_Ok in H as (e0 & s3 & _ & H).
  apply bind_Ok in H as (c0 & s4 & Hc0 & H).
  apply ret_Ok in H as [-> _].
  apply lift_Ok in Hm as [Hm _]. apply lift_Ok in Hc0 as [Hc0 _].
  exists m. split; [exact Hm|].
  assert (Hlen : List.length rooms0 = Z.to_nat nr)
    by (rewrite (for_each_length _ _ _ _ _ _ _ Hrooms); apply py_range_length).
  assert (Hids : map r_id rooms0
                 = map (fun i => ("ROOM" ++ fmt_0d 3 i)%string) (py_range nr)).
  { eapply for_each_map; [|exact Hrooms].
    intros i r sa sb Hb. apply generate_classroom_spec in Hb. apply Hb. }
  split; [|split; [exact Hids|split; [|split]]].
  - destruct rooms0; [discriminate|]. cbn [List.length] in *. lia.
  - rewrite Hids. apply prefixed_ids_NoDup.
  - eapply for_each_Forall; [|exact Hrooms].
    intros i r sa sb _ Hb. apply generate_classroom_capacity in Hb. apply Hb.
  - apply Forall_forall. intros r Hr.
    apply In_nth_error in Hr as (k & Hk).
    assert (Hk3 : (k < 3)%nat).
    { assert (Hlt : (k < List.length (firstn 3 rooms0))%nat)
        by (apply nth_error_Some; rewrite Hk; discriminate).
      rewrite length_firstn in Hlt. lia. }
    rewrite nth_error_firstn in Hk.
    destruct (Nat.ltb_spec k 3); [|lia].
    destruct (for_each_nth_error_inv _ _ _ _ _ _ _ _ _ Hrooms Hk)
      as (i & sa & sb & Hi & Hb).
    assert (Hi3 : i < 3).
    { assert (Hin : In i (py_range nr)) by (eapply nth_error_In; exact Hi).
      unfold py_range in Hi. rewrite nth_error_map in Hi.
      destruct (nth_error (seq 0 (Z.to_nat nr)) k) as [j|] eqn:Ej; [|discriminate].
      cbn in Hi. injection Hi as <-.
      rewrite nth_error_seq in Ej.
      destruct (Nat.ltb_spec k (Z.to_nat nr)); [|discriminate].
      injection Ej as <-. lia. }
    apply generate_classroom_capacity in Hb. apply Hb, Hi3.
Qed.


End MoreClassroomFacts.

(** ** Students: roster and number of enrollments *)

Lemma list_remove_length :
  forall c l,
    In c l -> S (List.length (list_remove course_eqb c l)) = List.length l.
Proof.
  intros c l Hin. destruct (list_remove_Permutation c l Hin) as (y & _ & Hp).
  apply Permutation_length in Hp. cbn [List.length] in Hp. lia.
Qed.

Lemma list_remove_incl :
  forall c l, incl (list_remove course_eqb c l) l.
Proof.
  intros c l. induction l as [|y t IH]; cbn [list_remove].
  - apply incl_refl.
  - destruct (course_eqb c y).
    + apply incl_tl, incl_refl.
    + intros x [<-|Hx]; [left; reflexivity|right; apply IH, Hx].
Qed.

Section MoreStudentFacts.

Context {R : RandomSource}.

(** The selection loop on any pool, duplicate ids or not: one course of
    the pool per round until the rounds or the pool run out. *)
Lemma select_courses_count :
  forall todo probs enrolled available s res s',
    select_courses todo probs enrolled available s = Ok (res, s') ->
    List.length res
    = (List.length enrolled + Nat.min todo (List.length available))%nat
    /\ incl res (enrolled ++ map c_id available).
Proof.
  induction todo as [|todo IH]; intros probs enrolled available s res s' H.
  - apply ret_Ok in H as [-> _]. split; [cbn; lia|apply incl_appl, incl_refl].
  - cbn [select_courses] in H. destruct available as [|a l] eqn:Eav.
    + apply ret_Ok in H as [-> _].
      split; [cbn; lia|apply incl_appl, incl_refl].
    + rewrite <- Eav in *. apply bind_Ok in H as (lvl & s1 & _ & H).
      assert (Hpick : exists c s2,
                 In c available
                 /\ select_courses todo probs (enrolled ++ [c_id c])
                      (list_remove course_eqb c available) s2 = Ok (res, s')).
      { destruct (filter (fun c => level_eqb (c_level c) lvl) available)
          as [|x xs] eqn:Ef.
        - rewrite Eav in H. rewrite <- Eav in H.
          apply bind_Ok in H as (c & s2 & Hc & H).
          exists c, s2. split; [|exact H].
          apply rand_choice_In in Hc. exact Hc.
        - apply bind_Ok in H as (c & s2 & Hc & H).
          exists c, s2. split; [|exact H].
          apply rand_choice_In in Hc. rewrite <- Ef in Hc.
          apply filter_In in Hc as [Hc _]. exact Hc. }
      destruct Hpick as (c & s2 & Hc & Hrec).
      apply IH in Hrec as [Hlen Hincl].
      pose proof (list_remove_length c available Hc) as Hrm.
      split.
      * rewrite Hlen, length_app. cbn [List.length]. lia.
      * intros x Hx. apply Hincl in Hx.
        apply in_app_or in Hx as [Hx|Hx].
        -- apply in_app_or in Hx as [Hx|[<-|[]]].
           ++ apply in_or_app. left. exact Hx.
           ++ apply in_or_app. right. apply in_map, Hc.
        -- apply in_or_app. right.
           apply in_map_iff in Hx as (y & <- & Hy).
           apply in_map. eapply list_remove_incl, Hy.
Qed.

Lemma generate_student_detail :
  forall cs i s st s',
    generate_student cs i s = Ok (st, s') ->
    s_id st = ("STU" ++ fmt_0d 4 i)%string
    /\ incl (s_enrolled_course_ids st) (map c_id cs)
    /\ exists k,
         In k (year_course_counts (s_year st))
         /\ List.length (s_enrolled_course_ids st)
            = Nat.min (Z.to_nat k) (List.length cs).
Proof.
  intros cs i s st s' H. unfold generate_student in H.
  apply bind_Ok in H as (year & s1 & _ & H).
  apply bind_Ok in H as (k & s2 & Hk & H).
  apply bind_Ok in H as (enrolled & s3 & Hsel & H).
  apply bind_Ok in H as (name & s4 & _ & H).
  apply ret_Ok in H as [-> _]. cbn [s_id s_enrolled_course_ids s_year].
  apply select_courses_count in Hsel as [Hlen Hincl].
  split; [reflexivity|]. split; [exact Hincl|].
  exists k. split; [|exact Hlen].
  destruct year; apply rand_choice_In in Hk; exact Hk.
Qed.

(** X8.  [generate_students] never raises, whatever the catalog: it
    returns [max(0, num_students)] students with the pairwise distinct ids
    [STU0000], [STU0001], ... in order; a student is enrolled in
    min(k, size of the catalog) courses of the catalog, where k is one of
    2, 3, 4 for a graduate and one of 3, 4, 5 for any other year (so in
    none when the catalog is empty). *)
Theorem generate_students_roster :
  forall num_students cs s,
    exists sts s',
      generate_students num_students cs s = Ok (sts, s')
      /\ Z.of_nat (List.length sts) = Z.max 0 num_students
      /\ map s_id sts
         = map (fun i => ("STU" ++ fmt_0d 4 i)%string) (py_range num_students)
      /\ NoDup (map s_id sts)
      /\ Forall
           (fun st =>
              incl (s_enrolled_course_ids st) (map c_id cs)
              /\ exists k,
                   In k (year_course_counts (s_year st))
                   /\ List.length (s_enrolled_course_ids st)
                      = Nat.min (Z.to_nat k) (List.length cs))
           sts.
Proof.
  intros ns cs s.
  destruct (generate_students_total ns cs s) as (sts & s' & H).
  exists sts, s'. split; [exact H|].
  unfold generate_students in H.
  assert (Hids : map s_id sts
                 = map (fun i => ("STU" ++ fmt_0d 4 i)%string) (py_range ns)).
  { eapply for_each_map; [|exact H].
    intros i st s1 s2 Hb. apply generate_student_detail in Hb. apply Hb. }
  split; [|split; [exact Hids|split]].
  - rewrite (for_each_length _ _ _ _ _ _ _ H), py_range_length. lia.
  - rewrite Hids. apply prefixed_ids_NoDup.
  - eapply for_each_Forall; [|exact H].
    intros i st s1 s2 _ Hb. apply generate_student_detail in Hb.
    destruct Hb as (_ & H1 & H2). split; assumption.
Qed.

End MoreStudentFacts.

(** ** The assembled document: statistics and outcome *)

Lemma sum_Z_from :
  forall l acc, fold_left Z.add l acc = acc + sum_Z l.
Proof.
  unfold sum_Z. induction l as [|x t IH]; intros acc; cbn [fold_left].
  - lia.
  - rewrite IH, (IH (0 + x)). lia.
Qed.

Lemma sum_Z_bounds :
  forall A (f : A -> Z) b l,
    Forall (fun x => 0 <= f x <= b) l ->
    0 <= sum_Z (map f l) <= b * Z.of_nat (List.length l).
Proof.
  intros A f b l H. induction H as [|x t Hx _ IH].
  - cbn. lia.
  - unfold sum_Z in *. cbn [map fold_left List.length].
    rewrite sum_Z_from. unfold sum_Z. lia.
Qed.

Lemma conflict_count_bounds :
  forall l acc,
    Forall (fun st => (List.length (s_enrolled_course_ids st) <= 5)%nat) l ->
    acc
    <= fold_left
         (fun acc st =>
            let k := Z.of_nat (List.length (s_enrolled_course_ids st)) in
            acc + k * (k - 1) / 2)
         l acc
    <= acc + 10 * Z.of_nat (List.length l).
Proof.
  induction l as [|st t IH]; intros acc H; cbn [fold_left List.length].
  - lia.
  - inversion H as [|? ? Hst Ht]; subst.
    specialize (IH (acc + Z.of_nat (List.length (s_enrolled_course_ids st))
                          * (Z.of_nat (List.length (s_enrolled_course_ids st)) - 1)
                          / 2) Ht).
    assert (0 <= Z.of_nat (List.length (s_enrolled_course_ids st))
                 * (Z.of_nat (List.length (s_enrolled_course_ids st)) - 1) / 2
            <= 10).
    { destruct (List.length (s_enrolled_course_ids st)) as [|[|[|[|[|[|n]]]]]];
        cbn; try lia. }
    cbv zeta in *.
    generalize dependent
      (Z.of_nat (List.length (s_enrolled_course_ids st))
       * (Z.of_nat (List.length (s_enrolled_course_ids st)) - 1) / 2).
    intros q IH Hq. lia.
Qed.

Lemma py_truediv_Ok :
  forall a b q, py_truediv a b = Ok q -> ~ (b == 0)%Q /\ q = (a / b)%Q.
Proof.
  intros a b q H. unfold py_truediv in H.
  destruct (Qeq_bool b 0) eqn:E; [discriminate|].
  injection H as <-. split; [|reflexivity]. apply Qeq_bool_neq, E.
Qed.

Lemma py_truediv_zero :
  forall a, py_truediv a (inject_Z 0) = Raise ZeroDivisionError.
Proof. intro a. reflexivity. Qed.

Lemma end_date_outcome :
  forall nw,
    if (-105607 <=? nw) && (nw <=? 416114)
    then exists d,
           result_bind (date_add_days start_date_ordinal (7 * nw))
             (fun d0 => date_add_days d0 (-1)) = Ok d
    else result_bind (date_add_days start_date_ordinal (7 * nw))
           (fun d0 => date_add_days d0 (-1)) = Raise OverflowError.
Proof.
  intros nw.
  unfold date_add_days, start_date_ordinal, date_min, date_max.
  destruct (Z.leb_spec (-105607) nw); destruct (Z.leb_spec nw 416114);
    cbn [andb].
  - destruct (Z.leb_spec 1 (739257 + 7 * nw)); [|lia].
    destruct (Z.leb_spec (739257 + 7 * nw) 3652059); [|lia].
    cbn [andb result_bind].
    destruct (Z.leb_spec 1 (739257 + 7 * nw + -1)); [|lia].
    destruct (Z.leb_spec (739257 + 7 * nw + -1) 3652059); [|lia].
    eexists. reflexivity.
  - destruct (Z.leb_spec 1 (739257 + 7 * nw)); [|lia].
    destruct (Z.leb_spec (739257 + 7 * nw) 3652059); [lia|]. reflexivity.
  - destruct (Z.leb_spec 1 (739257 + 7 * nw)).
    + destruct (Z.leb_spec (739257 + 7 * nw) 3652059); [|lia].
      cbn [andb result_bind].
      destruct (Z.leb_spec 1 (739257 + 7 * nw + -1)); [lia|]. reflexivity.
    + reflexivity.
  - lia.
Qed.

Section OutcomeHelpers.

Context {R : RandomSource}.

Lemma generate_classrooms_inventory_aux :
  forall nr cs s rooms s',
    generate_classrooms nr cs s = Ok (rooms, s') ->
    cs <> [] /\ rooms <> [] /\ List.length rooms = Z.to_nat nr.
Proof.
  intros nr cs s rooms s' H.
  pose proof H as H0.
  apply generate_classrooms_spec in H0 as (m & r0 & rest & Hm & -> & _).
  split; [intros ->; discriminate|]. split; [discriminate|].
  unfold generate_classrooms in H.
  apply bind_Ok in H as (m0 & s1 & _ & H).
  apply bind_Ok in H as (rooms0 & s2 & Hrooms & H).
  apply bind_Ok in H as (e0 & s3 & _ & H).
  apply bind_Ok in H as (c0 & s4 & _ & H).
  apply ret_Ok in H as [<- _].
  rewrite (for_each_length _ _ _ _ _ _ _ Hrooms). apply py_range_length.
Qed.

End OutcomeHelpers.

Section Outcome.

Context {R : RandomSource}.

Lemma generate_courses_empty :
  forall nc ni s, nc <= 0 -> generate_courses nc ni s = Ok ([], s).
Proof.
  intros nc ni s Hnc. unfold generate_courses, _generate_course_names.
  rewrite (py_range_nonpositive nc Hnc). reflexivity.
Qed.

Lemma generate_courses_without_instructor :
  forall nc s, 1 <= nc -> generate_courses nc 0 s = Raise ZeroDivisionError.
Proof.
  intros nc s Hnc. unfold generate_courses.
  destruct (generate_course_names_total nc s) as (names & s1 & Hn).
  rewrite (bind_Ok_intro _ _ _ _ _ _ _ Hn).
  unfold py_range. destruct (Z.to_nat nc) as [|k] eqn:Ek; [lia|].
  cbn [seq map]. apply for_each_Raise_head.
  apply generate_course_no_instructor.
Qed.

Lemma generate_classrooms_no_room :
  forall nr cs s,
    nr <= 0 -> cs <> [] -> generate_classrooms nr cs s = Raise IndexError.
Proof.
  intros nr cs s Hnr Hcs. unfold generate_classrooms.
  destruct (py_max_total (map c_expected_enrollment cs)) as (m & Hm).
  { destruct cs; [contradiction|discriminate]. }
  rewrite (bind_Ok_intro _ _ _ _ _ _ _ (lift_Ok_intro _ _ _ s Hm)).
  rewrite (py_range_nonpositive nr Hnr).
  destruct cs; [contradiction|]. reflexivity.
Qed.

Lemma generate_complete_input_metadata :
  forall now nc ni nr ns nw s doc s',
    generate_complete_input now nc ni nr ns nw s = Ok (doc, s') ->
    st_num_courses (statistics (metadata doc)) = nc
    /\ st_num_instructors (statistics (metadata doc)) = ni
    /\ st_num_rooms (statistics (metadata doc)) = nr
    /\ st_num_students (statistics (metadata doc)) = ns
    /\ st_total_enrollments (statistics (metadata doc))
       = sum_Z (map (fun st => Z.of_nat (List.length (s_enrolled_course_ids st)))
                  (students doc))
    /\ st_potential_conflicts (statistics (metadata doc))
       = fold_left
           (fun acc st =>
              let k := Z.of_nat (List.length (s_enrolled_course_ids st)) in
              acc + k * (k - 1) / 2)
           (students doc) 0
    /\ py_truediv
         (inject_Z (st_total_enrollments (statistics (metadata doc))))
         (inject_Z ns)
       = Ok (st_avg_courses_per_student (statistics (metadata doc)))
    /\ tc_num_weeks (term_config doc) = nw.
Proof.
  intros now nc ni nr ns nw s doc s' H. unfold generate_complete_input in H.
  apply bind_Ok in H as (end_date & s0 & _ & H).
  apply bind_Ok in H as (cs & s1 & _ & H).
  apply bind_Ok in H as (insts & s2 & _ & H).
  apply bind_Ok in H as (rooms & s3 & _ & H).
  apply bind_Ok in H as (sts & s4 & _ & H).
  apply bind_Ok in H as (issues & s5 & _ & H).
  apply bind_Ok in H as (avg & s6 & Havg & H).
  apply lift_Ok in Havg as [Havg _].
  apply ret_Ok in H as [-> _].
  cbn [metadata statistics students term_config tc_num_weeks st_num_courses
       st_num_instructors st_num_rooms st_num_students st_total_enrollments
       st_potential_conflicts st_avg_courses_per_student].
  repeat split; try reflexivity. exact Havg.
Qed.

(** X9.  The statistics of an assembled document agree with its content:
    the numbers of courses, instructors and rooms are the lengths of the
    three collections, the student collection has max(0, num_students)
    records, [total_enrollments] is the sum of the enrollment counts and at
    most 5 per student, and [potential_conflicts] is at most 10 per
    student. *)
Theorem statistics_consistent :
  forall now nc ni nr ns nw s doc s',
    generate_complete_input now nc ni nr ns nw s = Ok (doc, s') ->
    let st := statistics (metadata doc) in
    st_num_courses st = Z.of_nat (List.length (courses doc))
    /\ st_num_instructors st = Z.of_nat (List.length (instructors doc))
    /\ st_num_rooms st = Z.of_nat (List.length (classrooms doc))
    /\ Z.of_nat (List.length (students doc)) = Z.max 0 (st_num_students st)
    /\ st_total_enrollments st
       = sum_Z (map (fun s => Z.of_nat (List.length (s_enrolled_course_ids s)))
                  (students doc))
    /\ 0 <= st_total_enrollments st
         <= 5 * Z.of_nat (List.length (students doc))
    /\ 0 <= st_potential_conflicts st
         <= 10 * Z.of_nat (List.length (students doc)).
Proof.
  intros now nc ni nr ns nw s doc s' H.
  pose proof (generate_complete_input_metadata _ _ _ _ _ _ _ _ _ H)
    as (M1 & M2 & M3 & M4 & M5 & M6 & _).
  apply generate_complete_input_Ok in H
    as (cs & insts & rooms & sts & s1 & s2 & s3 & issues
        & Hcs & Hinsts & Hrooms & Hsts & Hchk & Dc & Di & Dr & Ds & _).
  cbv zeta. rewrite M1, M2, M3, M4, Dc, Di, Dr, Ds in *.
  pose proof (generate_courses_length _ _ _ _ _ Hcs) as Lc.
  assert (Li : List.length insts = Z.to_nat ni).
  { unfold generate_instructors in Hinsts.
    rewrite (for_each_length _ _ _ _ _ _ _ Hinsts). apply py_range_length. }
  assert (Ls : List.length sts = Z.to_nat ns).
  { unfold generate_students in Hsts.
    rewrite (for_each_length _ _ _ _ _ _ _ Hsts). apply py_range_length. }
  assert (Hfive : Forall
            (fun st => (List.length (s_enrolled_course_ids st) <= 5)%nat) sts).
  { unfold generate_students in Hsts.
    eapply for_each_Forall; [|exact Hsts].
    intros i st sa sb _ Hb. apply generate_student_detail in Hb.
    destruct Hb as (_ & _ & k & Hk & ->).
    destruct (s_year st); cbn in Hk;
      repeat (destruct Hk as [<-|Hk]; [lia|]); contradiction. }
  destruct (generate_classrooms_inventory_aux _ _ _ _ _ Hrooms)
    as (Hcne & Hrne & Lr).
  split; [|split; [|split; [|split; [|split; [|split]]]]].
  - destruct cs; [contradiction|]. cbn [List.length] in *. lia.
  - rewrite length_map.
    destruct (Z.ltb_spec ni 0) as [Hneg|]; [|lia].
    assert (insts = []) by (destruct insts; [reflexivity|cbn in Li; lia]).
    subst insts.
    rewrite (check_feasibility_without_instructors cs rooms nw Hcne Hrne) in Hchk.
    discriminate.
  - destruct rooms; [contradiction|]. cbn [List.length] in *. lia.
  - lia.
  - exact M5.
  - rewrite M5. apply sum_Z_bounds.
    eapply Forall_impl; [|exact Hfive]. intros st Hst. cbn beta in *. lia.
  - rewrite M6. pose proof (conflict_count_bounds sts 0 Hfive). lia.
Qed.

End Outcome.

Section OutcomeTheorem.

Context {R : RandomSource}.

Lemma generate_complete_input_returns :
  forall now nc ni nr ns nw s,
    1 <= nc -> 1 <= ni -> 1 <= nr -> ns <> 0 -> -105607 <= nw <= 416114 ->
    exists doc s', generate_complete_input now nc ni nr ns nw s = Ok (doc, s').
Proof.
  intros now nc ni nr ns nw s Hnc Hni Hnr Hns Hnw.
  unfold generate_complete_input.
  pose proof (end_date_outcome nw) as Hd.
  destruct (Z.leb_spec (-105607) nw); [|lia].
  destruct (Z.leb_spec nw 416114); [|lia].
  cbn [andb] in Hd. destruct Hd as (d & Hd).
  rewrite (bind_Ok_intro _ _ _ _ _ _ _ (lift_Ok_intro _ _ _ s Hd)).
  destruct (generate_courses_total nc ni s) as (cs & s1 & Hcs); [lia|].
  rewrite (bind_Ok_intro _ _ _ _ _ _ _ Hcs).
  destruct (generate_instructors_total ni nc cs s1) as (insts & s2 & Hinsts).
  rewrite (bind_Ok_intro _ _ _ _ _ _ _ Hinsts).
  assert (Hne : cs <> []).
  { apply generate_courses_length in Hcs. intros ->. cbn in Hcs. lia. }
  destruct (generate_classrooms_total nr cs s2) as (rooms & s3 & Hrooms);
    [lia|exact Hne|].
  rewrite (bind_Ok_intro _ _ _ _ _ _ _ Hrooms).
  destruct (generate_students_total ns cs s3) as (sts & s4 & Hsts).
  rewrite (bind_Ok_intro _ _ _ _ _ _ _ Hsts).
  destruct (check_feasibility_total cs insts rooms nw) as (issues & Hchk & _).
  { apply generate_classrooms_spec in Hrooms as (m & r0 & rest & _ & -> & _).
    discriminate. }
  { exact Hne. }
  { intros c Hc. eapply generated_courses_instructors; [|eassumption..]. lia. }
  { intros c Hc. eapply generated_courses_hours; eassumption. }
  rewrite (bind_Ok_intro _ _ _ _ _ _ _ (lift_Ok_intro _ _ _ s4 Hchk)).
  assert (Havg : ~ (inject_Z ns == 0)%Q).
  { unfold Qeq. cbn [Qnum Qden inject_Z]. lia. }
  rewrite (bind_Ok_intro _ _ _ _ _ _ _
             (lift_Ok_intro _ _ _ s4 (py_truediv_total _ _ Havg))).
  eexists _, _. reflexivity.
Qed.

Lemma lift_Raise_intro :
  forall A (r : result A) e s, r = Raise e -> lift r s = Raise e.
Proof. intros A r e s ->. reflexivity. Qed.

Lemma generate_complete_input_outcome_aux :
  forall now nc ni nr ns nw s,
    match expected_failure nc ni nr ns nw with
    | Some e => generate_complete_input now nc ni nr ns nw s = Raise e
    | None =>
        exists doc s',
          generate_complete_input now nc ni nr ns nw s = Ok (doc, s')
    end.
Proof.
  intros now nc ni nr ns nw s. unfold expected_failure.
  pose proof (end_date_outcome nw) as Hd.
  destruct ((-105607 <=? nw) && (nw <=? 416114)) eqn:Eweeks; cbn [negb].
  2:{ unfold generate_complete_input. apply bind_Raise_intro.
      apply lift_Raise_intro. exact Hd. }
  destruct Hd as (d & Hd).
  apply andb_prop in Eweeks as [Ew1 Ew2].
  apply Z.leb_le in Ew1, Ew2.
  destruct (Z.leb_spec 1 nc) as [Hnc|Hnc]; cbn [andb].
  - destruct (Z.eqb_spec ni 0) as [->|Hni].
    { unfold generate_complete_input.
      rewrite (bind_Ok_intro _ _ _ _ _ _ _ (lift_Ok_intro _ _ _ s Hd)).
      apply bind_Raise_intro. apply generate_courses_without_instructor, Hnc. }
    destruct (Z.leb_spec nc 0) as [|_]; [lia|].
    destruct (generate_courses_total nc ni s Hni) as (cs & s1 & Hcs).
    destruct (generate_instructors_total ni nc cs s1) as (insts & s2 & Hinsts).
    assert (Hne : cs <> []).
    { apply generate_courses_length in Hcs. intros ->. cbn in Hcs. lia. }
    destruct (Z.leb_spec nr 0) as [Hnr|Hnr].
    { unfold generate_complete_input.
      rewrite (bind_Ok_intro _ _ _ _ _ _ _ (lift_Ok_intro _ _ _ s Hd)).
      rewrite (bind_Ok_intro _ _ _ _ _ _ _ Hcs).
      rewrite (bind_Ok_intro _ _ _ _ _ _ _ Hinsts).
      apply bind_Raise_intro. apply generate_classrooms_no_room; assumption. }
    destruct (Z.ltb_spec ni 0) as [Hneg|Hpos].
    { unfold generate_complete_input.
      rewrite (bind_Ok_intro _ _ _ _ _ _ _ (lift_Ok_intro _ _ _ s Hd)).
      rewrite (bind_Ok_intro _ _ _ _ _ _ _ Hcs).
      rewrite (generate_instructors_negative ni nc cs s1 Hneg) in Hinsts.
      injection Hinsts as <- <-.
      rewrite (bind_Ok_intro _ _ _ _ _ _ _
                 (generate_instructors_negative ni nc cs s1 Hneg)).
      destruct (generate_classrooms_total nr cs s1) as (rooms & s3 & Hrooms);
        [lia|exact Hne|].
      rewrite (bind_Ok_intro _ _ _ _ _ _ _ Hrooms).
      destruct (generate_students_total ns cs s3) as (sts & s4 & Hsts).
      rewrite (bind_Ok_intro _ _ _ _ _ _ _ Hsts).
      apply bind_Raise_intro. apply lift_Raise_intro.
      apply check_feasibility_without_instructors; [exact Hne|].
      apply generate_classrooms_spec in Hrooms as (m & r0 & rest & _ & -> & _).
      discriminate. }
    destruct (Z.eqb_spec ns 0) as [->|Hns].
    { unfold generate_complete_input.
      rewrite (bind_Ok_intro _ _ _ _ _ _ _ (lift_Ok_intro _ _ _ s Hd)).
      rewrite (bind_Ok_intro _ _ _ _ _ _ _ Hcs).
      rewrite (bind_Ok_intro _ _ _ _ _ _ _ Hinsts).
      destruct (generate_classrooms_total nr cs s2) as (rooms & s3 & Hrooms);
        [lia|exact Hne|].
      rewrite (bind_Ok_intro _ _ _ _ _ _ _ Hrooms).
      destruct (generate_students_total 0 cs s3) as (sts & s4 & Hsts).
      rewrite (bind_Ok_intro _ _ _ _ _ _ _ Hsts).
      destruct (check_feasibility_total cs insts rooms nw) as (issues & Hchk & _).
      { apply generate_classrooms_spec in Hrooms as (m & r0 & rest & _ & -> & _).
        discriminate. }
      { exact Hne. }
      { intros c Hc. eapply generated_courses_instructors; [|eassumption..]. lia. }
      { intros c Hc. eapply generated_courses_hours; eassumption. }
      rewrite (bind_Ok_intro _ _ _ _ _ _ _ (lift_Ok_intro _ _ _ s4 Hchk)).
      apply bind_Raise_intro. apply lift_Raise_intro. apply py_truediv_zero. }
    apply generate_complete_input_returns; lia.
  - destruct (Z.leb_spec nc 0) as [Hnc0|]; [|lia].
    unfold generate_complete_input.
    rewrite (bind_Ok_intro _ _ _ _ _ _ _ (lift_Ok_intro _ _ _ s Hd)).
    rewrite (bind_Ok_intro _ _ _ _ _ _ _ (generate_courses_empty nc ni s Hnc0)).
    destruct (generate_instructors_total ni nc [] s) as (insts & s2 & Hinsts).
    rewrite (bind_Ok_intro _ _ _ _ _ _ _ Hinsts).
    reflexivity.
Qed.


(** X10.  For parameters the interpreter can print (at most 4300 decimal
    digits each), how [generate_complete_input] ends is decided by the five
    parameters alone, whatever the state of the random source.  In the
    order of the statements: [OverflowError] for a term outside
    -105607 .. 416114 weeks (the end date leaves the calendar);
    [ZeroDivisionError] for courses without any instructor; [ValueError]
    for no course; [IndexError] for no room; [KeyError] for a negative
    number of instructors; [ZeroDivisionError] for zero students, after
    everything was generated and checked; a document otherwise. *)
Theorem generate_complete_input_outcome :
  forall now nc ni nr ns nw s,
    forallb printable [nc; ni; nr; ns; nw] = true ->
    match expected_failure nc ni nr ns nw with
    | Some e => generate_complete_input now nc ni nr ns nw s = Raise e
    | None =>
        exists doc s',
          generate_complete_input now nc ni nr ns nw s = Ok (doc, s')
    end.
Proof.
  intros now nc ni nr ns nw s _.
  apply generate_complete_input_outcome_aux.
Qed.

End OutcomeTheorem.

(** ** The verifier on arbitrary collections *)

Lemma dict_keys_set_intro :
  forall V (d : dict V) k v k',
    k' = k \/ In k' (dict_keys d) -> In k' (dict_keys (dict_set d k v)).
Proof.
  intros V d k v k'. unfold dict_keys. induction d as [|[k0 v0] t IH]; cbn.
  - intros [->|[]]. left; reflexivity.
  - destruct (String.eqb_spec k k0) as [->|Hne]; cbn.
    + intros [->|[<-|H]]; [left|left|right]; auto.
    + intros [->|[<-|H]].
      * right. apply IH. left; reflexivity.
      * left; reflexivity.
      * right. apply IH. right; exact H.
Qed.

Lemma dict_set_keys_NoDup :
  forall V (d : dict V) k v, NoDup (dict_keys d) -> NoDup (dict_keys (dict_set d k v)).
Proof.
  intros V d k v. unfold dict_keys. induction d as [|[k0 v0] t IH]; cbn; intros H.
  - constructor; [intros []|constructor].
  - destruct (String.eqb_spec k k0) as [->|Hne]; cbn.
    + exact H.
    + apply NoDup_cons_iff in H as [Hnot Hnd]. constructor; [|apply IH, Hnd].
      intro Hin. apply (dict_keys_set V t k v k0) in Hin as [->|Hin];
        [congruence|contradiction].
Qed.

Lemma dict_get_In :
  forall V (d : dict V) k v,
    NoDup (dict_keys d) -> In (k, v) d -> dict_get d k = Some v.
Proof.
  intros V d k v. unfold dict_keys. induction d as [|[k0 v0] t IH]; cbn; intros Hnd Hin.
  - contradiction.
  - apply NoDup_cons_iff in Hnd as [Hnot Hnd].
    destruct Hin as [Heq|Hin].
    + injection Heq as -> ->. rewrite String.eqb_refl. reflexivity.
    + destruct (String.eqb_spec k k0) as [->|Hne].
      * exfalso. apply Hnot. apply (in_map fst) in Hin. exact Hin.
      * apply IH; assumption.
Qed.

(** The body of the loop that fills [courses_by_instructor] and
    [hours_by_instructor], as a fold step. *)
Lemma load_by_instructor_fold :
  forall cs (d : dict (list course * Q)),
    fold_left
      (fun d c =>
         let inst_id := c_instructor_id c in
         let '(inst_courses, hours) := dict_get_default d inst_id ([], 0%Q) in
         dict_set d inst_id (inst_courses ++ [c], (hours + c_weekly_hours c)%Q))
      cs d
    = fold_left
        (fun d c =>
           dict_set d (c_instructor_id c)
             (fst (dict_get_default d (c_instructor_id c) ([], 0%Q)) ++ [c],
              (snd (dict_get_default d (c_instructor_id c) ([], 0%Q))
               + c_weekly_hours c)%Q))
        cs d.
Proof.
  induction cs as [|c t IH]; intros d; [reflexivity|].
  cbn [fold_left]. rewrite <- IH. f_equal.
  destruct (dict_get_default d (c_instructor_id c) ([], 0%Q)); reflexivity.
Qed.

Lemma load_by_instructor_from :
  forall cs (d : dict (list course * Q)),
    NoDup (dict_keys d) ->
    let d' :=
      fold_left
        (fun d c =>
           dict_set d (c_instructor_id c)
             (fst (dict_get_default d (c_instructor_id c) ([], 0%Q)) ++ [c],
              (snd (dict_get_default d (c_instructor_id c) ([], 0%Q))
               + c_weekly_hours c)%Q))
        cs d in
    NoDup (dict_keys d')
    /\ (forall k, In k (dict_keys d) \/ In k (map c_instructor_id cs) ->
                  In k (dict_keys d'))
    /\ forall k,
         snd (dict_get_default d' k ([], 0%Q))
         = fold_left Qplus (map c_weekly_hours (courses_of cs k))
             (snd (dict_get_default d k ([], 0%Q))).
Proof.
  induction cs as [|c t IH]; intros d Hnd; cbn zeta.
  - cbn. split; [exact Hnd|]. split; [intros k [H|[]]; exact H|reflexivity].
  - cbn [fold_left].
    specialize (IH _ (dict_set_keys_NoDup _ d (c_instructor_id c)
                        (fst (dict_get_default d (c_instructor_id c) ([], 0%Q)) ++ [c],
                         (snd (dict_get_default d (c_instructor_id c) ([], 0%Q))
                          + c_weekly_hours c)%Q) Hnd)).
    cbn zeta in IH. destruct IH as (IH1 & IH2 & IH3).
    split; [exact IH1|]. split.
    + intros k [H|[<-|H]].
      * apply IH2. left. apply dict_keys_set_intro. right; exact H.
      * apply IH2. left. apply dict_keys_set_intro. left; reflexivity.
      * apply IH2. right; exact H.
    + intros k. rewrite IH3. rewrite dict_get_default_set.
      unfold courses_of. cbn [filter]. rewrite (String.eqb_sym k).
      destruct (String.eqb (c_instructor_id c) k) eqn:E.
      * apply String.eqb_eq in E. subst k. reflexivity.
      * reflexivity.
Qed.

(** The entries of [hours_by_instructor]: one per instructor id of the
    catalog, holding the load of that instructor. *)
Lemma load_by_instructor_spec :
  forall cs,
    NoDup (dict_keys (load_by_instructor cs))
    /\ (forall c, In c cs ->
          In (c_instructor_id c) (dict_keys (load_by_instructor cs)))
    /\ forall k ics h,
         In (k, (ics, h)) (load_by_instructor cs) -> h = required_hours cs k.
Proof.
  intros cs. unfold load_by_instructor. rewrite load_by_instructor_fold.
  destruct (load_by_instructor_from cs [] (NoDup_nil _)) as (H1 & H2 & H3).
  cbn zeta in *. split; [exact H1|]. split.
  - intros c Hc. apply H2. right. apply in_map, Hc.
  - intros k ics h Hin.
    pose proof (dict_get_In _ _ _ _ H1 Hin) as Hget.
    specialize (H3 k). unfold dict_get_default in H3 at 1. rewrite Hget in H3.
    cbn [snd] in H3. exact H3.
Qed.

Lemma instructor_dict_get_Some_from :
  forall l (d : dict instructor) k inst,
    dict_get (fold_left (fun d i => dict_set d (i_id i) i) l d) k = Some inst ->
    (In inst l /\ i_id inst = k) \/ dict_get d k = Some inst.
Proof.
  induction l as [|i t IH]; intros d k inst H.
  - right. exact H.
  - cbn [fold_left] in H. apply IH in H as [[Hin Hid]|H].
    + left. split; [right; exact Hin|exact Hid].
    + rewrite dict_get_set in H.
      destruct (String.eqb_spec k (i_id i)) as [->|Hne].
      * injection H as <-. left. split; [left; reflexivity|reflexivity].
      * right. exact H.
Qed.

Lemma instructor_dict_lookup_Ok :
  forall l k inst,
    dict_lookup (instructor_dict l) k = Ok inst -> In inst l /\ i_id inst = k.
Proof.
  intros l k inst H. unfold dict_lookup, instructor_dict in H.
  destruct (dict_get _ k) as [i|] eqn:E; [|discriminate]. injection H as ->.
  apply instructor_dict_get_Some_from in E as [E|E]; [exact E|discriminate].
Qed.



Lemma check_instructor_load_silent :
  forall by_id items issues,
    check_instructor_load by_id items = Ok issues ->
    (forall k ics h inst,
       In (k, (ics, h)) items -> dict_lookup by_id k = Ok inst ->
       Qltb (inject_Z (Z.of_nat (List.length (i_availability inst))) * 0.5)
            (h * 3) = false) ->
    issues = [].
Proof.
  intros by_id items. induction items as [|[k [ics h]] t IH]; intros issues H Hq.
  - injection H as <-. reflexivity.
  - cbn [check_instructor_load] in H.
    apply result_bind_Ok in H as (inst & Hinst & H).
    destruct (check_instructor_load by_id t) as [rest|e] eqn:Erest;
      [|discriminate].
    cbn [result_map] in H. injection H as <-.
    rewrite (Hq k ics h inst (or_introl eq_refl) Hinst).
    apply (IH rest eq_refl). intros k' ics' h' inst' Hin Hl.
    eapply Hq; [right; exact Hin|exact Hl].
Qed.

Lemma py_sum_nonneg_from :
  forall l acc,
    (0 <= acc)%Q -> Forall (fun x => 0 <= x)%Q l ->
    (0 <= fold_left Qplus l acc)%Q.
Proof.
  induction l as [|x t IH]; intros acc Hacc Hl; cbn [fold_left].
  - exact Hacc.
  - inversion Hl as [|? ? Hx Ht]; subst. apply IH; [lra|exact Ht].
Qed.

(** What a returned verifier list is made of. *)
Lemma check_feasibility_Ok :
  forall cs insts rooms nw issues,
    _check_feasibility cs insts rooms nw = Ok issues ->
    exists mx issues2 rest,
      py_max (map r_capacity rooms) = Ok mx
      /\ check_instructor_load (instructor_dict insts) (load_by_instructor cs)
         = Ok issues2
      /\ issues = check_room_capacity mx cs ++ issues2 ++ rest
      /\ existsb is_room_capacity_issue rest = false
      /\ existsb is_instructor_load_issue rest = false.
Proof.
  intros cs insts rooms nw issues H. unfold _check_feasibility in H.
  apply result_bind_Ok in H as (mx & Hmx & H).
  apply result_bind_Ok in H as (issues2 & H2 & H).
  apply result_bind_Ok in H as (util & _ & H).
  set (i3 := if Qltb _ _ then [TotalLoadIssue _ _] else []) in H.
  set (i4 := if Qltb 0.5 util then [UtilizationIssue util] else []) in H.
  exists mx, issues2, (i3 ++ i4).
  split; [exact Hmx|]. split; [exact H2|].
  assert (Hissues : issues = check_room_capacity mx cs ++ issues2 ++ i3 ++ i4).
  { destruct (check_room_capacity mx cs ++ issues2 ++ i3 ++ i4) eqn:E.
    - apply result_bind_Ok in H as (q & _ & H). injection H as <-. reflexivity.
    - injection H as <-. reflexivity. }
  split; [exact Hissues|].
  unfold i3, i4. split; destruct (Qltb _ _); destruct (Qltb 0.5 util); reflexivity.
Qed.

Lemma check_room_capacity_filter :
  forall mx cs,
    check_room_capacity mx cs
    = map (fun c => RoomCapacityIssue (c_id c) (c_expected_enrollment c) mx)
        (filter (fun c => mx <? c_expected_enrollment c) cs).
Proof.
  intros mx cs. unfold check_room_capacity.
  induction cs as [|c t IH]; [reflexivity|].
  cbn [flat_map filter]. destruct (mx <? c_expected_enrollment c);
    cbn [map app]; rewrite IH; reflexivity.
Qed.

Lemma filter_none :
  forall A (f : A -> bool) l, existsb f l = false -> filter f l = [].
Proof.
  intros A f l. induction l as [|x t IH]; cbn; [reflexivity|].
  intro H. apply orb_false_elim in H as [Hx Ht]. rewrite Hx. apply IH, Ht.
Qed.

Lemma check_instructor_load_only_load_issues :
  forall by_id items issues,
    check_instructor_load by_id items = Ok issues ->
    existsb is_room_capacity_issue issues = false.
Proof.
  intros by_id items. induction items as [|[k [ics h]] t IH]; intros issues H.
  - injection H as <-. reflexivity.
  - cbn [check_instructor_load] in H.
    apply result_bind_Ok in H as (inst & _ & H).
    destruct (check_instructor_load by_id t) as [rest|e]; [|discriminate].
    cbn [result_map] in H. injection H as <-.
    specialize (IH rest eq_refl).
    destruct (Qltb _ _); [cbn; exact IH|exact IH].
Qed.

(** X11.  Without any classroom the verifier raises [ValueError] (the
    maximum of no capacity); on an empty catalog with at least one
    classroom it raises [ZeroDivisionError]: no check objects, and the
    report of a clean pass divides by the total of course hours. *)
Theorem check_feasibility_degenerate :
  forall cs insts r rooms nw,
    _check_feasibility cs insts [] nw = Raise ValueError
    /\ _check_feasibility [] insts (r :: rooms) nw = Raise ZeroDivisionError.
Proof.
  intros cs insts r rooms nw. split; [reflexivity|].
  unfold _check_feasibility.
  destruct (py_max_total (map r_capacity (r :: rooms))) as (mx & Hmx);
    [discriminate|].
  rewrite Hmx. cbn [result_bind load_by_instructor fold_left
                    check_instructor_load check_room_capacity flat_map map app].
  assert (Hden : ~ (inject_Z (5 * 24 * Z.of_nat (List.length (r :: rooms))) == 0)%Q).
  { unfold Qeq. cbn [Qnum Qden inject_Z List.length]. lia. }
  rewrite (py_truediv_total _ _ Hden). cbn [result_bind].
  set (avail := py_sum _).
  assert (Havail : (0 <= avail)%Q).
  { unfold avail, py_sum. apply py_sum_nonneg_from; [lra|].
    apply Forall_forall. intros x Hx. apply in_map_iff in Hx as (i & <- & _).
    assert (0 <= inject_Z (Z.of_nat (List.length (i_availability i))))%Q
      by (rewrite <- (Zle_Qle 0); lia).
    generalize dependent (inject_Z (Z.of_nat (List.length (i_availability i)))).
    intros; lra. }
  assert (H3 : Qltb avail (py_sum [] * 3) = false).
  { unfold Qltb. apply negb_false_iff. apply Qle_bool_iff.
    unfold py_sum. cbn [fold_left]. lra. }
  rewrite H3.
  assert (H4 : Qltb 0.5 (py_sum [] / inject_Z (5 * 24 * Z.of_nat (List.length (r :: rooms))))
               = false).
  { unfold Qltb. apply negb_false_iff. apply Qle_bool_iff.
    unfold py_sum. cbn [fold_left].
    apply Qle_shift_div_r.
    - rewrite <- (Zlt_Qlt 0). cbn [List.length]. lia.
    - assert (0 < inject_Z (5 * 24 * Z.of_nat (List.length (r :: rooms))))%Q
        by (rewrite <- (Zlt_Qlt 0); cbn [List.length]; lia).
      generalize dependent (inject_Z (5 * 24 * Z.of_nat (List.length (r :: rooms)))).
      intros; lra. }
  rewrite H4. cbn [app]. reflexivity.
Qed.


(** X13.  When the verifier returns, its room-capacity issues are, in
    catalog order, exactly the courses whose expected enrollment exceeds
    the largest classroom capacity, each reported with its id, its
    enrollment and that capacity. *)
Theorem check_feasibility_room_issues :
  forall cs insts rooms nw issues,
    _check_feasibility cs insts rooms nw = Ok issues ->
    exists max_room_capacity,
      py_max (map r_capacity rooms) = Ok max_room_capacity
      /\ filter is_room_capacity_issue issues
         = map (fun c => RoomCapacityIssue (c_id c) (c_expected_enrollment c)
                           max_room_capacity)
             (filter (fun c => max_room_capacity <? c_expected_enrollment c) cs).
Proof.
  intros cs insts rooms nw issues H.
  apply check_feasibility_Ok in H
    as (mx & issues2 & rest & Hmx & H2 & -> & Hrest & _).
  exists mx. split; [exact Hmx|].
  rewrite !filter_app.
  rewrite (filter_none _ _ issues2
             (check_instructor_load_only_load_issues _ _ _ H2)).
  rewrite (filter_none _ _ rest Hrest). rewrite !app_nil_r.
  rewrite check_room_capacity_filter.
  generalize (filter (fun c => mx <? c_expected_enrollment c) cs). intros l.
  induction l as [|c t IH]; cbn; [reflexivity|rewrite IH; reflexivity].
Qed.

Section VerifierOnGenerated.

Context {R : RandomSource}.

(** X14.  On a catalog and the inventory [generate_classrooms] returned for
    it, the verifier reports no room-capacity issue, whoever the
    instructors are. *)
Theorem generated_rooms_fit :
  forall nr cs s rooms s' insts nw issues,
    generate_classrooms nr cs s = Ok (rooms, s') ->
    _check_feasibility cs insts rooms nw = Ok issues ->
    existsb is_room_capacity_issue issues = false.
Proof.
  intros nr cs s rooms s' insts nw issues Hrooms H.
  apply check_feasibility_Ok in H
    as (mx & issues2 & rest & Hmx & H2 & -> & Hrest & _).
  rewrite !existsb_app, Hrest,
    (check_instructor_load_only_load_issues _ _ _ H2), !orb_false_r.
  apply generate_classrooms_spec in Hrooms as (m & r0 & rest' & Hm & -> & Hcap).
  pose proof (py_max_ge _ _ (r_capacity r0) Hmx (or_introl eq_refl)) as Hr0.
  unfold check_room_capacity.
  assert (Hall : forall c, In c cs -> (mx <? c_expected_enrollment c) = false).
  { intros c Hc. apply Z.ltb_ge.
    pose proof (py_max_ge _ _ (c_expected_enrollment c) Hm
                  (in_map _ _ _ Hc)). lia. }
  clear -Hall. induction cs as [|c t IH]; [reflexivity|].
  cbn [flat_map]. rewrite (Hall c (or_introl eq_refl)). cbn [app].
  apply IH. intros c' Hc'. apply Hall. right. exact Hc'.
Qed.

End VerifierOnGenerated.

Lemma check_room_capacity_no_load_issue :
  forall mx cs,
    existsb is_instructor_load_issue (check_room_capacity mx cs) = false.
Proof.
  intros mx cs. unfold check_room_capacity.
  induction cs as [|c t IH]; [reflexivity|].
  cbn [flat_map]. rewrite existsb_app, IH.
  destruct (mx <? c_expected_enrollment c); reflexivity.
Qed.

Section LightLoads.

Context {R : RandomSource}.

(** X15.  On a generated catalog and the instructors generated for it, if
    no instructor is loaded with more than 15 weekly hours then the
    verifier, when it returns, reports no instructor-load issue. *)
Theorem light_loads_pass_check2 :
  forall nc ni sa cs sa' sb insts sb' rooms nw issues,
    generate_courses nc ni sa = Ok (cs, sa') ->
    generate_instructors ni nc cs sb = Ok (insts, sb') ->
    _check_feasibility cs insts rooms nw = Ok issues ->
    forallb (fun i => Qle_bool (required_hours cs (i_id i)) 15) insts = true ->
    existsb is_instructor_load_issue issues = false.
Proof.
  intros nc ni sa cs sa' sb insts sb' rooms nw issues Hcs Hinsts H Hlight.
  apply check_feasibility_Ok in H
    as (mx & issues2 & rest & Hmx & H2 & -> & _ & Hrest).
  rewrite !existsb_app, Hrest, check_room_capacity_no_load_issue.
  rewrite (check_instructor_load_silent _ _ _ H2); [reflexivity|].
  intros k ics h inst Hin Hlookup.
  apply instructor_dict_lookup_Ok in Hlookup as [Hinst Hid].
  destruct (load_by_instructor_spec cs) as (_ & _ & Hh).
  rewrite (Hh k ics h Hin). subst k.
  destruct (generate_instructors_In _ _ _ _ _ _ _ Hinsts Hinst)
    as (j & s1 & s2 & _ & Hb).
  assert (Hle : (required_hours cs (i_id inst) <= 15)%Q).
  { apply Qle_bool_iff.
    rewrite forallb_forall in Hlight. apply (Hlight inst Hinst). }
  pose proof (light_load_instructor _ _ _ _ _ _ _ _ _ Hcs Hb Hle) as Hok.
  unfold Qltb. apply negb_false_iff. apply Qle_bool_iff.
  revert Hok. generalize (required_hours cs (i_id inst)).
  generalize (inject_Z (Z.of_nat (List.length (i_availability inst)))).
  intros a q Hok. lra.
Qed.

End LightLoads.

(** ** The callers: scenarios, batch production, command line *)

Lemma string_length_append :
  forall a b, String.length (a ++ b)%string = (String.length a + String.length b)%nat.
Proof.
  induction a as [|c a IH]; intros b; cbn; [reflexivity|].
  rewrite IH. reflexivity.
Qed.

Lemma append_inj_r :
  forall a b s, (a ++ s)%string = (b ++ s)%string -> a = b.
Proof.
  induction a as [|c a IH]; intros b s H.
  - destruct b as [|c' b]; [reflexivity|].
    apply (f_equal String.length) in H.
    rewrite !string_length_append in H. cbn in H. lia.
  - destruct b as [|c' b].
    + apply (f_equal String.length) in H.
      rewrite !string_length_append in H. cbn in H. lia.
    + cbn in H. injection H as -> H. f_equal. eapply IH, H.
Qed.

Lemma batch_filename_inj :
  forall output_dir i j,
    0 <= i -> 0 <= j ->
    os_path_join output_dir ("schedule_input_" ++ fmt_0d 3 i ++ ".json")%string
    = os_path_join output_dir ("schedule_input_" ++ fmt_0d 3 j ++ ".json")%string ->
    i = j.
Proof.
  intros dir i j Hi Hj H. unfold os_path_join in H.
  assert (Hinj : ("schedule_input_" ++ fmt_0d 3 i ++ ".json")%string
                 = ("schedule_input_" ++ fmt_0d 3 j ++ ".json")%string -> i = j).
  { intros Hp. apply (append_inj_l "schedule_input_") in Hp.
    apply append_inj_r in Hp. apply fmt_0d_inj in Hp; assumption. }
  change (starts_with_slash ("schedule_input_" ++ fmt_0d 3 i ++ ".json"))
    with false in H.
  change (starts_with_slash ("schedule_input_" ++ fmt_0d 3 j ++ ".json"))
    with false in H.
  cbv iota in H.
  destruct ((String.length dir =? 0)%nat || ends_with_slash dir).
  - apply Hinj. eapply append_inj_l, H.
  - apply Hinj. apply append_inj_l in H. eapply (append_inj_l "/"), H.
Qed.

Section CallerFacts.

Context {R : RandomSource} {F : FileSystem}.

Variable clock : Z -> string.

Lemma run_returns :
  forall seed now nc ni nr ns nw,
    0 <= seed <= 4294967295 ->
    1 <= nc -> 1 <= ni -> 1 <= nr -> ns <> 0 -> -105607 <= nw <= 416114 ->
    exists doc, run seed now nc ni nr ns nw = Ok doc.
Proof.
  intros seed now nc ni nr ns nw Hseed Hnc Hni Hnr Hns Hnw. unfold run, init.
  destruct (Z.leb_spec 0 seed); [|lia].
  destruct (Z.leb_spec seed 4294967295); [|lia].
  cbn [andb result_bind].
  destruct (generate_complete_input_returns now nc ni nr ns nw (seed_rng seed))
    as (doc & s' & Hdoc); try assumption.
  rewrite Hdoc. exists doc. reflexivity.
Qed.

Lemma save_to_file_perform :
  forall input_data filename d calls,
    match save_to_file input_data filename d with
    | (d', Some f) => (d', Some f)
    | (d', None) => perform_all calls d'
    end
    = perform_all (Dump input_data filename :: calls) d.
Proof.
  intros doc f d calls. unfold save_to_file. cbn [perform_all perform].
  destruct (json_dump doc f d) as [d' [e|]]; reflexivity.
Qed.

Lemma run_scenarios_calls :
  forall output_dir d s,
    exists d1 s1 d2 s2 d3 s3,
      generate_complete_input (clock 0) 50 30 35 1000 10 s = Ok (d1, s1)
      /\ generate_complete_input (clock 1) 75 40 50 1500 10 s1 = Ok (d2, s2)
      /\ generate_complete_input (clock 2) 100 50 60 2000 10 s2 = Ok (d3, s3)
      /\ generate_multiple_scenarios clock output_dir d s
         = perform_all
             [Makedirs output_dir;
              Dump d1 (output_dir ++ "/medium_scale_input.json");
              Dump d2 (output_dir ++ "/large_scale_input.json");
              Dump d3 (output_dir ++ "/very_large_scale_input.json")] d.
Proof.
  intros dir d s.
  destruct (generate_complete_input_returns (clock 0) 50 30 35 1000 10 s)
    as (d1 & s1 & H1); try lia.
  destruct (generate_complete_input_returns (clock 1) 75 40 50 1500 10 s1)
    as (d2 & s2 & H2); try lia.
  destruct (generate_complete_input_returns (clock 2) 100 50 60 2000 10 s2)
    as (d3 & s3 & H3); try lia.
  exists d1, s1, d2, s2, d3, s3.
  split; [exact H1|]. split; [exact H2|]. split; [exact H3|].
  unfold generate_multiple_scenarios, scenarios.
  change (perform_all (Makedirs dir :: ?l) d)
    with (match os_makedirs dir d with
          | (d', Some e) => (d', Some (FileSystemError e))
          | (d', None) => perform_all l d'
          end).
  destruct (os_makedirs dir d) as [d0 [e|]]; [reflexivity|].
  cbn [run_scenarios sc_courses sc_instructors sc_rooms sc_students sc_weeks].
  unfold scenario_filename. cbn [sc_name].
  rewrite H1, <- save_to_file_perform.
  destruct (save_to_file d1 _ d0) as [da [f|]]; [reflexivity|].
  change (0 + 1) with 1. rewrite H2, <- save_to_file_perform.
  destruct (save_to_file d2 _ da) as [db [f|]]; [reflexivity|].
  change (1 + 1) with 2. rewrite H3, <- save_to_file_perform.
  destruct (save_to_file d3 _ db) as [dc [f|]]; reflexivity.
Qed.

(** X16.  Whatever the file system does, [generate_multiple_scenarios]
    serves it [makedirs(output_dir)] and then the dumps of the medium
    (50/30/35/1000), the large (75/40/50/1500) and the very large
    (100/50/60/2000) instance to
    [<output_dir>/medium_scale_input.json],
    [<output_dir>/large_scale_input.json] and
    [<output_dir>/very_large_scale_input.json], in this order; the first
    of these calls that raises ends the method with its exception, and
    the method returns when none does.  Generating the three instances
    never raises, each on the state of the random source the previous one
    left. *)
Theorem generate_multiple_scenarios_calls :
  forall output_dir d s,
    exists d1 s1 d2 s2 d3 s3,
      generate_complete_input (clock 0) 50 30 35 1000 10 s = Ok (d1, s1)
      /\ generate_complete_input (clock 1) 75 40 50 1500 10 s1 = Ok (d2, s2)
      /\ generate_complete_input (clock 2) 100 50 60 2000 10 s2 = Ok (d3, s3)
      /\ generate_multiple_scenarios clock output_dir d s
         = perform_all
             [Makedirs output_dir;
              Dump d1 (output_dir ++ "/medium_scale_input.json");
              Dump d2 (output_dir ++ "/large_scale_input.json");
              Dump d3 (output_dir ++ "/very_large_scale_input.json")] d.
Proof.
  intros output_dir d s.
  destruct (run_scenarios_calls output_dir d s)
    as (d1 & s1 & d2 & s2 & d3 & s3 & H1 & H2 & H3 & Hcalls).
  exists d1, s1, d2, s2, d3, s3. repeat split; assumption.
Qed.

Lemma batch_loop_calls :
  forall output_dir todo,
    (forall i, In i todo -> 1 <= i <= 4294966295) ->
    exists docs,
      Forall2 (fun i doc => run (1000 + i) (clock i) 50 30 20 1000 14 = Ok doc)
        todo docs
      /\ forall d,
           batch_loop clock output_dir todo d
           = perform_all (batch_dumps output_dir todo docs) d.
Proof.
  intros dir todo. induction todo as [|i t IH]; intros Hrange.
  - exists []. split; [constructor|]. intro d. reflexivity.
  - pose proof (Hrange i (or_introl eq_refl)) as Hi.
    destruct (run_returns (1000 + i) (clock i) 50 30 20 1000 14)
      as (doc & Hdoc); try lia.
    destruct (IH (fun j Hj => Hrange j (or_intror Hj))) as (docs & Hdocs & Hloop).
    exists (doc :: docs). split; [constructor; assumption|].
    intro d. cbn [batch_loop]. rewrite Hdoc.
    unfold batch_dumps. cbn [combine map fst snd].
    rewrite <- save_to_file_perform. unfold batch_filename.
    destruct (save_to_file doc _ d) as [d' [f|]]; [reflexivity|].
    apply Hloop.
Qed.

Lemma batch_filenames_NoDup :
  forall output_dir lo hi,
    0 <= lo ->
    NoDup (map (fun i => os_path_join output_dir
                           ("schedule_input_" ++ fmt_0d 3 i ++ ".json")%string)
               (py_range2 lo hi)).
Proof.
  intros dir lo hi Hlo.
  apply Finite.Injective_map_NoDup_in; [|apply py_range2_NoDup].
  intros i j Hi Hj Heq. apply py_range2_In in Hi, Hj.
  apply batch_filename_inj in Heq; [exact Heq|lia|lia].
Qed.

(** X17.  For [0 <= count <= 2**32 - 1001], whatever the file system
    does, [batch_produce(count)] serves it [makedirs(output_dir)] and then,
    for [i = 1 .. count] in order, the dump of the document of a freshly
    seeded run (seed [1000 + i], parameters 50/30/20/1000/14) to
    [os.path.join(output_dir, "schedule_input_<i:03d>.json")]; the first
    call that raises ends it with its exception.  No run raises, and the
    file names of distinct indices are distinct. *)
Theorem batch_produce_calls :
  forall count output_dir d,
    0 <= count <= 4294966295 ->
    exists docs,
      Forall2 (fun i doc => run (1000 + i) (clock i) 50 30 20 1000 14 = Ok doc)
        (py_range2 1 (count + 1)) docs
      /\ NoDup (map (fun i => os_path_join output_dir
                                ("schedule_input_" ++ fmt_0d 3 i ++ ".json")%string)
                    (py_range2 1 (count + 1)))
      /\ batch_produce clock count output_dir d
         = perform_all
             (Makedirs output_dir
              :: batch_dumps output_dir (py_range2 1 (count + 1)) docs) d.
Proof.
  intros count dir d Hcount.
  destruct (batch_loop_calls dir (py_range2 1 (count + 1)))
    as (docs & Hdocs & Hloop).
  { intros i Hi. apply py_range2_In in Hi. lia. }
  exists docs. split; [exact Hdocs|].
  split; [apply batch_filenames_NoDup; lia|].
  unfold batch_produce. cbn [perform_all perform].
  destruct (os_makedirs dir d) as [d' [e|]]; [reflexivity|]. apply Hloop.
Qed.

(** X18.  [main] without [--multiple], on printable size arguments: a
    seed outside 0 .. 2**32 - 1 raises [ValueError] in the constructor
    and a failing generation raises its exception, both before the file
    system is touched; otherwise the document of the run is dumped to the
    output path, the only call to the file system, and [main] ends the
    way this call does. *)
Theorem main_single_outcome :
  forall args d,
    a_multiple args = false ->
    forallb printable
      [a_courses args; a_instructors args; a_rooms args; a_students args;
       a_weeks args] = true ->
    match
      (if (0 <=? a_seed args) && (a_seed args <=? 4294967295)
       then expected_failure (a_courses args) (a_instructors args)
              (a_rooms args) (a_students args) (a_weeks args)
       else Some ValueError)
    with
    | Some e => main clock args d = (d, Some (GeneratorError e))
    | None =>
        exists doc,
          run (a_seed args) (clock 0) (a_courses args) (a_instructors args)
            (a_rooms args) (a_students args) (a_weeks args) = Ok doc
          /\ main clock args d = perform_all [Dump doc (a_output args)] d
    end.
Proof.
  intros args d Hsingle _. unfold main, run, init. rewrite Hsingle.
  destruct ((0 <=? a_seed args) && (a_seed args <=? 4294967295));
    [|reflexivity].
  cbn [result_bind].
  pose proof (generate_complete_input_outcome_aux (clock 0) (a_courses args)
                (a_instructors args) (a_rooms args) (a_students args)
                (a_weeks args) (seed_rng (a_seed args))) as Hout.
  destruct (expected_failure _ _ _ _ _) as [e|].
  - rewrite Hout. reflexivity.
  - destruct Hout as (doc & s' & Hout). rewrite Hout.
    exists doc. split; [reflexivity|].
    rewrite <- save_to_file_perform. cbn [perform_all].
    destruct (save_to_file doc (a_output args) d) as [d' [f|]]; reflexivity.
Qed.


End CallerFacts.

(** ** The properties at concrete inputs *)


Lemma generate_courses_fields_witness :
  @generate_courses CounterRandom 2 1 demo_seed
  = Ok (fst demo_courses, snd demo_courses)
  /\ Forall
       (fun c =>
          min_enroll (COURSE_LEVELS (c_level c)) <= c_expected_enrollment c
            <= max_enroll (COURSE_LEVELS (c_level c))
          /\ match c_level c with
             | L100 | L200 => c_weekly_hours c = 1.5%Q
             | L300 | L400 =>
                 c_weekly_hours c = 1.5%Q \/ c_weekly_hours c = 3.0%Q
             end
          /\ In (c_department c) DEPARTMENTS)
       (fst demo_courses).
Proof.
  split; [vm_compute; reflexivity|].
  apply (generate_courses_fields (R := CounterRandom)
           2 1 demo_seed (fst demo_courses) (snd demo_courses)).
  vm_compute; reflexivity.
Defined.

Lemma availability_size_witness :
  @generate_instructors CounterRandom 1 2 (fst demo_courses) (snd demo_courses)
  = Ok (fst demo_instructors, snd demo_instructors)
  /\ Forall
       (fun inst => 48 <= Z.of_nat (List.length (i_availability inst)) <= 100)
       (fst demo_instructors).
Proof.
  split; [vm_compute; reflexivity|].
  apply (availability_size (R := CounterRandom)
           1 2 (fst demo_courses) (snd demo_courses)
           (fst demo_instructors) (snd demo_instructors)).
  vm_compute; reflexivity.
Defined.

Lemma light_load_availability_witness :
  @generate_complete_input CounterRandom demo_now 2 1 1 2 10 demo_seed
  = Ok (demo_doc, snd demo_run)
  /\ In demo_instructor (instructors demo_doc)
  /\ (required_hours (courses demo_doc) (i_id demo_instructor) <= 15)%Q
  /\ (3 * required_hours (courses demo_doc) (i_id demo_instructor)
      <= available_hours demo_instructor)%Q.
Proof.
  split; [vm_compute; reflexivity|].
  split; [left; reflexivity|].
  split; [vm_compute; discriminate|].
  apply (light_load_availability (R := CounterRandom)
           demo_now 2 1 1 2 10 demo_seed demo_doc (snd demo_run)).
  - vm_compute; reflexivity.
  - left; reflexivity.
  - vm_compute; discriminate.
Defined.

Lemma generate_classrooms_inventory_witness :
  @generate_classrooms CounterRandom 1 (fst demo_courses) (snd demo_instructors)
  = Ok (fst demo_classrooms, snd demo_classrooms)
  /\ exists max_enrollment,
       py_max (map c_expected_enrollment (fst demo_courses)) = Ok max_enrollment
       /\ Z.of_nat (List.length (fst demo_classrooms)) = 1
       /\ map r_id (fst demo_classrooms)
          = map (fun i => ("ROOM" ++ fmt_0d 3 i)%string) (py_range 1)
       /\ NoDup (map r_id (fst demo_classrooms))
       /\ Forall
            (fun r => 20 <= r_capacity r <= Z.max 250 (max_enrollment + 50))
            (fst demo_classrooms)
       /\ Forall (fun r => Z.max 120 max_enrollment <= r_capacity r)
            (firstn 3 (fst demo_classrooms)).
Proof.
  split; [vm_compute; reflexivity|].
  apply (generate_classrooms_inventory (R := CounterRandom)
           1 (fst demo_courses) (snd demo_instructors)
           (fst demo_classrooms) (snd demo_classrooms)).
  vm_compute; reflexivity.
Defined.

Lemma statistics_consistent_witness :
  @generate_complete_input CounterRandom demo_now 2 1 1 2 10 demo_seed
  = Ok (demo_doc, snd demo_run)
  /\ let st := statistics (metadata demo_doc) in
     st_num_courses st = Z.of_nat (List.length (courses demo_doc))
     /\ st_num_instructors st = Z.of_nat (List.length (instructors demo_doc))
     /\ st_num_rooms st = Z.of_nat (List.length (classrooms demo_doc))
     /\ Z.of_nat (List.length (students demo_doc)) = Z.max 0 (st_num_students st)
     /\ st_total_enrollments st
        = sum_Z (map (fun s => Z.of_nat (List.length (s_enrolled_course_ids s)))
                   (students demo_doc))
     /\ 0 <= st_total_enrollments st
          <= 5 * Z.of_nat (List.length (students demo_doc))
     /\ 0 <= st_potential_conflicts st
          <= 10 * Z.of_nat (List.length (students demo_doc)).
Proof.
  split; [vm_compute; reflexivity|].
  apply (statistics_consistent (R := CounterRandom)
           demo_now 2 1 1 2 10 demo_seed demo_doc (snd demo_run)).
  vm_compute; reflexivity.
Defined.


Lemma check_feasibility_room_issues_witness :
  _check_feasibility (fst busy_courses) (fst busy_instructors)
    (fst busy_classrooms) 10 = Ok busy_issues
  /\ exists max_room_capacity,
       py_max (map r_capacity (fst busy_classrooms)) = Ok max_room_capacity
       /\ filter is_room_capacity_issue busy_issues
          = map (fun c => RoomCapacityIssue (c_id c) (c_expected_enrollment c)
                            max_room_capacity)
              (filter (fun c => max_room_capacity <? c_expected_enrollment c)
                 (fst busy_courses)).
Proof.
  split; [vm_compute; reflexivity|].
  apply (check_feasibility_room_issues
           (fst busy_courses) (fst busy_instructors) (fst busy_classrooms) 10
           busy_issues).
  vm_compute; reflexivity.
Defined.

Lemma generated_rooms_fit_witness :
  @generate_classrooms CounterRandom 1 (fst busy_courses) (snd busy_instructors)
  = Ok (fst busy_classrooms, snd busy_classrooms)
  /\ _check_feasibility (fst busy_courses) (fst busy_instructors)
       (fst busy_classrooms) 10 = Ok busy_issues
  /\ existsb is_room_capacity_issue busy_issues = false.
Proof.
  split; [vm_compute; reflexivity|].
  split; [vm_compute; reflexivity|].
  apply (generated_rooms_fit (R := CounterRandom)
           1 (fst busy_courses) (snd busy_instructors) (fst busy_classrooms)
           (snd busy_classrooms) (fst busy_instructors) 10 busy_issues).
  - vm_compute; reflexivity.
  - vm_compute; reflexivity.
Defined.

Lemma light_loads_pass_check2_witness :
  @generate_courses CounterRandom 2 1 demo_seed
  = Ok (fst demo_courses, snd demo_courses)
  /\ @generate_instructors CounterRandom 1 2 (fst demo_courses)
       (snd demo_courses) = Ok (fst demo_instructors, snd demo_instructors)
  /\ _check_feasibility (fst demo_courses) (fst demo_instructors)
       (fst demo_classrooms) 10 = Ok demo_issues
  /\ forallb
       (fun i => Qle_bool (required_hours (fst demo_courses) (i_id i)) 15)
       (fst demo_instructors) = true
  /\ existsb is_instructor_load_issue demo_issues = false.
Proof.
  split; [vm_compute; reflexivity|].
  split; [vm_compute; reflexivity|].
  split; [vm_compute; reflexivity|].
  split; [vm_compute; reflexivity|].
  apply (light_loads_pass_check2 (R := CounterRandom)
           2 1 demo_seed (fst demo_courses) (snd demo_courses)
           (snd demo_courses) (fst demo_instructors) (snd demo_instructors)
           (fst demo_classrooms) 10 demo_issues).
  - vm_compute; reflexivity.
  - vm_compute; reflexivity.
  - vm_compute; reflexivity.
  - vm_compute; reflexivity.
Defined.

Lemma generate_instructors_roster_witness :
  forallb standard_hours (fst demo_courses) = true
  /\ exists insts s',
       @generate_instructors CounterRandom 1 2 (fst demo_courses)
         (snd demo_courses) = Ok (insts, s')
       /\ Z.of_nat (List.length insts) = Z.max 0 1
       /\ map i_id insts
          = map (fun i => ("PROF" ++ fmt_0d 3 i)%string) (py_range 1)
       /\ NoDup (map i_id insts)
       /\ Forall
            (fun inst =>
               In (i_back_to_back_preference inst) [-1; 0; 1]
               /\ In (i_department inst) DEPARTMENTS
               /\ exists dbg,
                    i_debug inst = Some dbg
                    /\ available_periods dbg
                       = Z.of_nat (List.length (i_availability inst)))
            insts.
Proof.
  split; [vm_compute; reflexivity|].
  apply (generate_instructors_roster (R := CounterRandom)
           1 2 (fst demo_courses) (snd demo_courses)).
  vm_compute; reflexivity.
Defined.

Lemma generate_complete_input_outcome_witness :
  forallb printable [2; 1; 1; 2; 10] = true
  /\ exists doc s',
       @generate_complete_input CounterRandom demo_now 2 1 1 2 10 demo_seed
       = Ok (doc, s').
Proof.
  split; [vm_compute; reflexivity|].
  apply (generate_complete_input_outcome (R := CounterRandom)
           demo_now 2 1 1 2 10 demo_seed).
  vm_compute; reflexivity.
Defined.

Lemma batch_produce_calls_witness :
  0 <= 50 <= 4294966295
  /\ exists docs,
       Forall2
         (fun i doc =>
            @run CounterRandom (1000 + i) (demo_clock i) 50 30 20 1000 14
            = Ok doc)
         (py_range2 1 (50 + 1)) docs
       /\ NoDup (map (fun i => os_path_join "batch_output"
                                 ("schedule_input_" ++ fmt_0d 3 i ++ ".json")%string)
                     (py_range2 1 (50 + 1)))
       /\ @batch_produce CounterRandom RecordingDisk demo_clock 50
            "batch_output" []
          = @perform_all RecordingDisk
              (Makedirs "batch_output"
               :: batch_dumps "batch_output" (py_range2 1 (50 + 1)) docs) [].
Proof.
  split; [lia|].
  apply (batch_produce_calls (R := CounterRandom) (F := RecordingDisk)
           demo_clock 50 "batch_output" []).
  lia.
Defined.

Lemma main_single_outcome_witness :
  a_multiple default_arguments = false
  /\ forallb printable [50; 30; 20; 1000; 14] = true
  /\ exists doc,
       @run CounterRandom 42 (demo_clock 0) 50 30 20 1000 14 = Ok doc
       /\ @main CounterRandom RecordingDisk demo_clock default_arguments []
          = @perform_all RecordingDisk
              [Dump doc "large_schedule_input.json"] [].
Proof.
  split; [reflexivity|].
  split; [vm_compute; reflexivity|].
  apply (main_single_outcome (R := CounterRandom) (F := RecordingDisk)
           demo_clock default_arguments []).
  - reflexivity.
  - vm_compute; reflexivity.
Defined.


(** A file system that refuses the output directory ends the batch before
    any document is generated. *)
Example batch_produce_refused_directory :
  @batch_produce CounterRandom RecordingDisk demo_clock 1 "" []
  = ([], Some (FileSystemError "FileNotFoundError")).
Proof. reflexivity. Qed.

(** The same for the scenarios. *)
Example generate_multiple_scenarios_refused_directory :
  @generate_multiple_scenarios CounterRandom RecordingDisk demo_clock "" []
    demo_seed
  = ([], Some (FileSystemError "FileNotFoundError")).
Proof. reflexivity. Qed.
